(** * A modal terminal text editor: the editing engine and its history

    The development embeds the editing engine of the Go program (the
    [model] value, its mode handlers, the undo/redo stacks, search and
    replace) as executable Rocq functions and states the properties of
    the specification against them.

    Conventions of the embedding.
    - A Go [int] is a [Z]; arithmetic on stored integers goes through
      [GoInt.add] and [GoInt.sub], which wrap at 64 bits.  A length is
      never above the largest [int], so [len(s) - 1] and the row counter
      of a loop bounded by a length are written without the wrap.
    - A Go [string] is a sequence of bytes: a Stdlib [string], each
      [ascii] being one byte.  A [rune] is a [Z]; conversions between
      [[]rune] and [string] are the UTF-8 encoder and decoder of the Go
      runtime ([Utf8.stringOf], [Utf8.runes]).
    - A slice is a [list]; indexing and slicing check their bounds and
      return [Panic] where the Go runtime panics.  The backing array of a
      slice past its length is not part of the list.  Go checks the
      upper bound of [s[:j]] against the capacity; except in
      [findPrevious], wherever the source writes [s[:j]] the same
      statement also evaluates [s[j:]] or [s[j-1]] on that slice, is
      guarded by [j < len(s)], or (paste) goes on to index the result at
      [j]; so the source panics there exactly when [sliceTo] does, if not
      always with the same message.  In [findPrevious] the slice can
      reach past the length of the row: there the bound is checked
      against the capacity ([sliceToCap]), and what the backing array
      holds past the length is a parameter ([spare], a field of [world]);
      what is proved of [findPrevious] holds for every value of it.
    - Values are immutable, so the copy in [deepCopyContent] is what keeps
      a snapshot apart from the live buffer in the source and is the
      identity here ([deepCopyContent_id]). *)

From Stdlib Require Import ZArith Lia Bool.
From Stdlib Require Import Strings.String Strings.Ascii Numbers.DecimalString.
From stdpp Require Import base list numbers strings.

Open Scope Z_scope.

(** ** Panics and fallible computations *)

Inductive panic : Set :=
| IndexOutOfRange
| SliceBoundsOutOfRange
| IntegerDivideByZero
| NegativeRepeatCount.

Inductive outcome (A : Type) : Type :=
| Ok (a : A)
| Panic (p : panic).

Arguments Ok {A} a.
Arguments Panic {A} p.

Definition bind {A B : Type} (x : outcome A) (k : A -> outcome B) : outcome B :=
  match x with
  | Ok a => k a
  | Panic p => Panic p
  end.

Notation "'do' x <- e ; k" := (bind e (fun x => k))
  (at level 10, x name, e at level 100, k at level 200).

Definition returns {A : Type} (x : outcome A) : Prop := exists a, x = Ok a.

Definition panics {A : Type} (x : outcome A) : Prop := exists p, x = Panic p.

(** ** Machine integers *)

Module GoInt.

Definition intMin : Z := - 2 ^ 63.
Definition intMax : Z := 2 ^ 63 - 1.

Definition wrap (z : Z) : Z := (z + 2 ^ 63) mod 2 ^ 64 - 2 ^ 63.

Definition add (a b : Z) : Z := wrap (a + b).
Definition sub (a b : Z) : Z := wrap (a - b).
Definition neg (a : Z) : Z := wrap (- a).

(** [a % b]: truncated remainder, panics on a zero divisor. *)
Definition rem (a b : Z) : outcome Z :=
  if decide (b = 0) then Panic IntegerDivideByZero else Ok (Z.rem a b).

End GoInt.

(** ** Slices *)

Section Slices.
Context {A : Type}.

Definition len (s : list A) : Z := Z.of_nat (length s).

(** [s[i]] *)
Definition index (s : list A) (i : Z) : outcome A :=
  if decide (0 <= i < len s) then
    match s !! Z.to_nat i with
    | Some a => Ok a
    | None => Panic IndexOutOfRange
    end
  else Panic IndexOutOfRange.

(** [s[i] = a] *)
Definition assign (s : list A) (i : Z) (a : A) : outcome (list A) :=
  if decide (0 <= i < len s) then Ok (<[Z.to_nat i := a]> s)
  else Panic IndexOutOfRange.

(** [s[lo:]] *)
Definition sliceFrom (s : list A) (lo : Z) : outcome (list A) :=
  if decide (0 <= lo <= len s) then Ok (drop (Z.to_nat lo) s)
  else Panic SliceBoundsOutOfRange.

(** [s[:hi]] *)
Definition sliceTo (s : list A) (hi : Z) : outcome (list A) :=
  if decide (0 <= hi <= len s) then Ok (take (Z.to_nat hi) s)
  else Panic SliceBoundsOutOfRange.

(** [s[:hi]] where the backing array of [s] holds [rest] after the
    elements of [s]: the bound is checked against the capacity, and the
    result shows the elements past the length that it reaches. *)
Definition sliceToCap (s rest : list A) (hi : Z) : outcome (list A) :=
  if decide (0 <= hi <= len s + len rest) then Ok (take (Z.to_nat hi) (s ++ rest))
  else Panic SliceBoundsOutOfRange.

End Slices.

(** ** Bytes, runes and UTF-8 *)

Definition rune : Type := Z.

Definition byteZ (c : ascii) : Z := Z.of_N (N_of_ascii c).
Definition Zbyte (z : Z) : ascii := ascii_of_N (Z.to_N z).

(** Byte-level helpers on strings. *)
Fixpoint stake (n : nat) (s : string) : string :=
  match n, s with
  | S k, String c t => String c (stake k t)
  | _, _ => EmptyString
  end.

Fixpoint sdrop (n : nat) (s : string) : string :=
  match n, s with
  | S k, String _ t => sdrop k t
  | _, _ => s
  end.

Definition slen (s : string) : Z := Z.of_nat (String.length s).

Module Utf8.

Definition RuneError : rune := 0xFFFD.
Definition MaxRune : rune := 0x10FFFF.

Definition cont (z : Z) : ascii := Zbyte (Z.lor 0x80 (Z.land z 0x3F)).

Definition encode3 (r : rune) : string :=
  String (Zbyte (Z.lor 0xE0 (Z.shiftr r 12)))
    (String (cont (Z.shiftr r 6)) (String (cont r) EmptyString)).

(** [string(rune)]: the runtime's [encoderune]. *)
Definition EncodeRune (r : rune) : string :=
  if decide (0 <= r <= 0x7F) then String (Zbyte r) EmptyString
  else if decide (0 <= r <= 0x7FF) then
    String (Zbyte (Z.lor 0xC0 (Z.shiftr r 6))) (String (cont r) EmptyString)
  else if decide (r < 0 \/ MaxRune < r \/ 0xD800 <= r <= 0xDFFF) then encode3 RuneError
  else if decide (r <= 0xFFFF) then encode3 r
  else
    String (Zbyte (Z.lor 0xF0 (Z.shiftr r 18)))
      (String (cont (Z.shiftr r 12))
         (String (cont (Z.shiftr r 6)) (String (cont r) EmptyString))).

(** [string(rs)] for [rs []rune] *)
Fixpoint stringOf (rs : list rune) : string :=
  match rs with
  | [] => EmptyString
  | r :: rs' => EncodeRune r +:+ stringOf rs'
  end.

(** The table [first] of unicode/utf8: for a leading byte, the length of
    the sequence and the range accepted for its second byte. *)
Definition first (p0 : Z) : option (Z * Z * Z) :=
  if decide (0xC2 <= p0 <= 0xDF) then Some (2, 0x80, 0xBF)
  else if decide (p0 = 0xE0) then Some (3, 0xA0, 0xBF)
  else if decide (0xE1 <= p0 <= 0xEC) then Some (3, 0x80, 0xBF)
  else if decide (p0 = 0xED) then Some (3, 0x80, 0x9F)
  else if decide (0xEE <= p0 <= 0xEF) then Some (3, 0x80, 0xBF)
  else if decide (p0 = 0xF0) then Some (4, 0x90, 0xBF)
  else if decide (0xF1 <= p0 <= 0xF3) then Some (4, 0x80, 0xBF)
  else if decide (p0 = 0xF4) then Some (4, 0x80, 0x8F)
  else None.

Definition outside (lo hi b : Z) : bool := (b <? lo) || (hi <? b).

(** [utf8.DecodeRuneInString]: the rune at the head of [s] and its width
    in bytes; an invalid or truncated sequence is [RuneError] of width 1. *)
Definition DecodeRuneInString (s : string) : rune * nat :=
  match s with
  | EmptyString => (RuneError, 0%nat)
  | String c0 t0 =>
    let p0 := byteZ c0 in
    if p0 <? 0x80 then (p0, 1%nat)
    else
      match first p0, t0 with
      | Some (sz, lo, hi), String c1 t1 =>
        let b1 := byteZ c1 in
        if outside lo hi b1 then (RuneError, 1%nat)
        else if sz <=? 2 then
          (Z.lor (Z.shiftl (Z.land p0 0x1F) 6) (Z.land b1 0x3F), 2%nat)
        else
          match t1 with
          | String c2 t2 =>
            let b2 := byteZ c2 in
            if outside 0x80 0xBF b2 then (RuneError, 1%nat)
            else if sz <=? 3 then
              (Z.lor (Z.shiftl (Z.land p0 0x0F) 12)
                 (Z.lor (Z.shiftl (Z.land b1 0x3F) 6) (Z.land b2 0x3F)), 3%nat)
            else
              match t2 with
              | String c3 _ =>
                let b3 := byteZ c3 in
                if outside 0x80 0xBF b3 then (RuneError, 1%nat)
                else
                  (Z.lor (Z.shiftl (Z.land p0 0x07) 18)
                     (Z.lor (Z.shiftl (Z.land b1 0x3F) 12)
                        (Z.lor (Z.shiftl (Z.land b2 0x3F) 6) (Z.land b3 0x3F))), 4%nat)
              | EmptyString => (RuneError, 1%nat)
              end
          | EmptyString => (RuneError, 1%nat)
          end
      | _, _ => (RuneError, 1%nat)
      end
  end.

(** Decoding from a position that is [skip] bytes before the next rune
    boundary. *)
Fixpoint runesFrom (skip : nat) (s : string) : list rune :=
  match s with
  | EmptyString => []
  | String _ t =>
    match skip with
    | S k => runesFrom k t
    | O => let '(r, w) := DecodeRuneInString s in r :: runesFrom (w - 1) t
    end
  end.

(** [[]rune(s)] *)
Definition runes (s : string) : list rune := runesFrom 0 s.

(** [utf8.RuneCountInString] *)
Definition RuneCountInString (s : string) : Z := len (runes s).

End Utf8.

(** ** The functions of package [strings] that the editor calls

    The loops of [Replace] and [genSplit] run [Count] times, as in the
    library; [Count] itself walks the string once, skipping the bytes of
    a match it has just counted. *)

Module GoStrings.

Fixpoint indexOf (substr s : string) {struct s} : option nat :=
  if String.prefix substr s then Some 0%nat
  else
    match s with
    | EmptyString => None
    | String _ t => option_map S (indexOf substr t)
    end.

(** [strings.Index]: the byte offset of the first occurrence, or -1. *)
Definition Index (s substr : string) : Z :=
  match indexOf substr s with
  | Some i => Z.of_nat i
  | None => -1
  end.

Fixpoint lastIndexOf (substr s : string) {struct s} : option nat :=
  match s with
  | EmptyString => if String.prefix substr s then Some 0%nat else None
  | String _ t =>
    match lastIndexOf substr t with
    | Some i => Some (S i)
    | None => if String.prefix substr s then Some 0%nat else None
    end
  end.

(** [strings.LastIndex] *)
Definition LastIndex (s substr : string) : Z :=
  match lastIndexOf substr s with
  | Some i => Z.of_nat i
  | None => -1
  end.

(** Occurrences of a non-empty [substr] that do not overlap, counted from
    the left; [skip] bytes of the last match are still to be passed. *)
Fixpoint countFrom (substr : string) (skip : nat) (s : string) : nat :=
  match s with
  | EmptyString => 0%nat
  | String _ t =>
    match skip with
    | S k => countFrom substr k t
    | O =>
      if String.prefix substr s
      then S (countFrom substr (String.length substr - 1) t)
      else countFrom substr 0 t
    end
  end.

(** [strings.Count] *)
Definition Count (s substr : string) : Z :=
  if decide (substr = "") then Utf8.RuneCountInString s + 1
  else Z.of_nat (countFrom substr 0 s).

(** The loop of [strings.Replace]: [s] is the part of the input not yet
    written, [i0] holds in the first iteration only. *)
Fixpoint replaceLoop (n : nat) (i0 : bool) (s old new : string) : string :=
  match n with
  | O => s
  | S n' =>
    let j :=
      if decide (old = "") then
        if i0 then 0%nat else snd (Utf8.DecodeRuneInString s)
      else default 0%nat (indexOf old s) in
    stake j s +:+ new +:+
      replaceLoop n' false (sdrop (j + String.length old) s) old new
  end.

(** [strings.ReplaceAll] *)
Definition ReplaceAll (s old new : string) : string :=
  if decide (old = new) then s
  else
    let m := Count s old in
    if decide (m = 0) then s
    else replaceLoop (Z.to_nat m) true s old new.

Fixpoint explodeLoop (n : nat) (s : string) : list string :=
  match n with
  | O => [s]
  | S n' =>
    let w := snd (Utf8.DecodeRuneInString s) in
    stake w s :: explodeLoop n' (sdrop w s)
  end.

Definition explode (s : string) : list string :=
  match Z.to_nat (Utf8.RuneCountInString s) with
  | O => []
  | S k => explodeLoop k s
  end.

Fixpoint splitLoop (n : nat) (s sep : string) : list string :=
  match n with
  | O => [s]
  | S n' =>
    match indexOf sep s with
    | None => [s]
    | Some m => stake m s :: splitLoop n' (sdrop (m + String.length sep) s) sep
    end
  end.

(** [strings.Split] *)
Definition Split (s sep : string) : list string :=
  if decide (sep = "") then explode s
  else splitLoop (Z.to_nat (Count s sep)) s sep.

(** [strings.Join] *)
Fixpoint Join (elems : list string) (sep : string) : string :=
  match elems with
  | [] => ""
  | [e] => e
  | e :: rest => e +:+ sep +:+ Join rest sep
  end.

Fixpoint repeat (s : string) (n : nat) : string :=
  match n with
  | O => ""
  | S k => s +:+ repeat s k
  end.

(** [strings.Repeat] *)
Definition Repeat (s : string) (count : Z) : outcome string :=
  if decide (count < 0) then Panic NegativeRepeatCount
  else Ok (repeat s (Z.to_nat count)).

End GoStrings.

(** [fmt.Sprintf("%d", z)] *)
Definition itoa (z : Z) : string := NilZero.string_of_int (Z.to_int z).

(** ** Rendering helpers *)

Definition esc : string := String (Zbyte 27) "".

(** [fmt.Sprintf("\033[43m%s\033[0m", searchTerm)] *)
Definition highlightStyle (searchTerm : string) : string :=
  esc +:+ "[43m" +:+ searchTerm +:+ esc +:+ "[0m".

(** [parts[i] += ...] for every [i < len(parts)-1] *)
Fixpoint markParts (parts : list string) (searchTerm : string) : list string :=
  match parts with
  | [] => []
  | [p] => [p]
  | p :: rest => (p +:+ highlightStyle searchTerm) :: markParts rest searchTerm
  end.

Definition highlightSearch (text searchTerm : string) : string :=
  if decide (searchTerm = "") then text
  else GoStrings.Join (markParts (GoStrings.Split text searchTerm) searchTerm) "".

Fixpoint expandTabsLoop (rs : list rune) (tabSize column : Z) : outcome string :=
  match rs with
  | [] => Ok ""
  | r :: rs' =>
    if decide (r = 9) then
      do md <- GoInt.rem column tabSize;
      let spaces := GoInt.sub tabSize md in
      do pad <- GoStrings.Repeat " " spaces;
      do rest <- expandTabsLoop rs' tabSize (GoInt.add column spaces);
      Ok (pad +:+ rest)
    else
      do rest <- expandTabsLoop rs' tabSize (GoInt.add column 1);
      Ok (Utf8.EncodeRune r +:+ rest)
  end.

(** [for _, r := range s] decodes [s] rune by rune. *)
Definition expandTabs (s : string) (tabSize : Z) : outcome string :=
  expandTabsLoop (Utf8.runes s) tabSize 0.

(** ** The editor state *)

Inductive mode : Set := normalMode | insertMode | searchMode | replaceMode.

(** An entry of the undo or redo stack. *)
Record action : Type := mkAction {
  action_content : list (list rune);
  action_cursorX : Z;
  action_cursorY : Z
}.

Record model : Type := mkModel {
  content : list (list rune);
  cursorX : Z;
  cursorY : Z;
  offsetY : Z;
  width : Z;
  height : Z;
  mode_ : mode;
  filename : string;
  statusMsg : string;
  searchTerm : string;
  replaceTerm : string;
  clipboard : string;
  modified : bool;
  tabSize : Z;
  undoStack : list action;
  redoStack : list action
}.

(** What the program returns next to the model: nothing, or the command
    that clears the screen and quits. *)
Inductive cmd : Set := CmdNil | CmdQuit.

(** A message of the input driver.  Of a key the handlers read only
    [msg.String()] and [msg.Runes]. *)
Inductive msg : Type :=
| KeyMsg (str : string) (runes : list rune)
| WindowSizeMsg (w h : Z)
| OtherMsg.

(** Field updates. *)
Definition with_content (v : list (list rune)) (m : model) : model :=
  mkModel v (cursorX m) (cursorY m) (offsetY m) (width m) (height m) (mode_ m)
    (filename m) (statusMsg m) (searchTerm m) (replaceTerm m) (clipboard m)
    (modified m) (tabSize m) (undoStack m) (redoStack m).

Definition with_cursorX (v : Z) (m : model) : model :=
  mkModel (content m) v (cursorY m) (offsetY m) (width m) (height m) (mode_ m)
    (filename m) (statusMsg m) (searchTerm m) (replaceTerm m) (clipboard m)
    (modified m) (tabSize m) (undoStack m) (redoStack m).

Definition with_cursorY (v : Z) (m : model) : model :=
  mkModel (content m) (cursorX m) v (offsetY m) (width m) (height m) (mode_ m)
    (filename m) (statusMsg m) (searchTerm m) (replaceTerm m) (clipboard m)
    (modified m) (tabSize m) (undoStack m) (redoStack m).

Definition with_offsetY (v : Z) (m : model) : model :=
  mkModel (content m) (cursorX m) (cursorY m) v (width m) (height m) (mode_ m)
    (filename m) (statusMsg m) (searchTerm m) (replaceTerm m) (clipboard m)
    (modified m) (tabSize m) (undoStack m) (redoStack m).

Definition with_size (w h : Z) (m : model) : model :=
  mkModel (content m) (cursorX m) (cursorY m) (offsetY m) w h (mode_ m)
    (filename m) (statusMsg m) (searchTerm m) (replaceTerm m) (clipboard m)
    (modified m) (tabSize m) (undoStack m) (redoStack m).

Definition with_mode (v : mode) (m : model) : model :=
  mkModel (content m) (cursorX m) (cursorY m) (offsetY m) (width m) (height m) v
    (filename m) (statusMsg m) (searchTerm m) (replaceTerm m) (clipboard m)
    (modified m) (tabSize m) (undoStack m) (redoStack m).

Definition with_statusMsg (v : string) (m : model) : model :=
  mkModel (content m) (cursorX m) (cursorY m) (offsetY m) (width m) (height m) (mode_ m)
    (filename m) v (searchTerm m) (replaceTerm m) (clipboard m)
    (modified m) (tabSize m) (undoStack m) (redoStack m).

Definition with_searchTerm (v : string) (m : model) : model :=
  mkModel (content m) (cursorX m) (cursorY m) (offsetY m) (width m) (height m) (mode_ m)
    (filename m) (statusMsg m) v (replaceTerm m) (clipboard m)
    (modified m) (tabSize m) (undoStack m) (redoStack m).

Definition with_replaceTerm (v : string) (m : model) : model :=
  mkModel (content m) (cursorX m) (cursorY m) (offsetY m) (width m) (height m) (mode_ m)
    (filename m) (statusMsg m) (searchTerm m) v (clipboard m)
    (modified m) (tabSize m) (undoStack m) (redoStack m).

Definition with_clipboard (v : string) (m : model) : model :=
  mkModel (content m) (cursorX m) (cursorY m) (offsetY m) (width m) (height m) (mode_ m)
    (filename m) (statusMsg m) (searchTerm m) (replaceTerm m) v
    (modified m) (tabSize m) (undoStack m) (redoStack m).

Definition with_modified (v : bool) (m : model) : model :=
  mkModel (content m) (cursorX m) (cursorY m) (offsetY m) (width m) (height m) (mode_ m)
    (filename m) (statusMsg m) (searchTerm m) (replaceTerm m) (clipboard m)
    v (tabSize m) (undoStack m) (redoStack m).

Definition with_undoStack (v : list action) (m : model) : model :=
  mkModel (content m) (cursorX m) (cursorY m) (offsetY m) (width m) (height m) (mode_ m)
    (filename m) (statusMsg m) (searchTerm m) (replaceTerm m) (clipboard m)
    (modified m) (tabSize m) v (redoStack m).

Definition with_redoStack (v : list action) (m : model) : model :=
  mkModel (content m) (cursorX m) (cursorY m) (offsetY m) (width m) (height m) (mode_ m)
    (filename m) (statusMsg m) (searchTerm m) (replaceTerm m) (clipboard m)
    (modified m) (tabSize m) (undoStack m) v.

(** ** Start-up *)

Definition initialModel (filename : string) (readFile : string -> option string) : model :=
  let content :=
    if decide (filename <> "") then
      match readFile filename with
      | Some data => map Utf8.runes (GoStrings.Split data (String (Zbyte 10) ""))
      | None => [[]]
      end
    else [[]] in
  mkModel content 0 0 0 0 0 normalMode filename "Normal mode" "" "" "" false 4 [] [].

(** ** History *)

Definition copyLine (line : list rune) : list rune := foldr cons [] line.

Definition deepCopyContent (content : list (list rune)) : list (list rune) :=
  map copyLine content.

(** The snapshot both [saveAction] and [undo]/[redo] push. *)
Definition snapshot (m : model) : action :=
  mkAction (deepCopyContent (content m)) (cursorX m) (cursorY m).

Definition saveAction (m : model) : model :=
  with_redoStack [] (with_undoStack (undoStack m ++ [snapshot m]) m).

Definition restore (a : action) (m : model) : model :=
  with_modified true
    (with_cursorY (action_cursorY a)
       (with_cursorX (action_cursorX a)
          (with_content (deepCopyContent (action_content a)) m))).

Definition undo (m : model) : outcome model :=
  if decide (len (undoStack m) > 0) then
    let m := with_redoStack (redoStack m ++ [snapshot m]) m in
    do lastAction <- index (undoStack m) (len (undoStack m) - 1);
    do rest <- sliceTo (undoStack m) (len (undoStack m) - 1);
    Ok (with_statusMsg "Undo performed" (restore lastAction (with_undoStack rest m)))
  else Ok (with_statusMsg "Nothing to undo" m).

Definition redo (m : model) : outcome model :=
  if decide (len (redoStack m) > 0) then
    let m := with_undoStack (undoStack m ++ [snapshot m]) m in
    do lastAction <- index (redoStack m) (len (redoStack m) - 1);
    do rest <- sliceTo (redoStack m) (len (redoStack m) - 1);
    Ok (with_statusMsg "Redo performed" (restore lastAction (with_redoStack rest m)))
  else Ok (with_statusMsg "Nothing to redo" m).

(** ** Cursor and viewport *)

Definition adjustOffset (m : model) : model :=
  if decide (cursorY m < offsetY m) then with_offsetY (cursorY m) m
  else if decide (cursorY m >= GoInt.add (offsetY m) (height m))
       then with_offsetY (GoInt.add (GoInt.sub (cursorY m) (height m)) 1) m
       else m.

Definition moveCursor (dx dy : Z) (m : model) : outcome model :=
  let m := with_cursorX (GoInt.add (cursorX m) dx) m in
  let m := with_cursorY (GoInt.add (cursorY m) dy) m in
  let m :=
    if decide (cursorY m < 0) then with_cursorY 0 m
    else if decide (cursorY m >= len (content m))
         then with_cursorY (len (content m) - 1) m
         else m in
  do m <-
    (if decide (cursorX m < 0) then Ok (with_cursorX 0 m)
     else
       do line <- index (content m) (cursorY m);
       Ok (if decide (cursorX m > len line) then with_cursorX (len line) m else m));
  Ok (adjustOffset m).

(** ** Search and replace *)

(** The loop of [findNext] from row [y]; [n] is the number of rows from
    [y] to the end of the buffer, so [n = 0] is the exit of the loop. *)
Fixpoint findNextLoop (n : nat) (y startX : Z) (m : model) : outcome model :=
  match n with
  | O => Ok (with_statusMsg ("Pattern not found: " +:+ searchTerm m) m)
  | S n' =>
    do line <- index (content m) y;
    do rest <- sliceFrom line startX;
    let x := GoStrings.Index (Utf8.stringOf rest) (searchTerm m) in
    if decide (x <> -1)
    then Ok (adjustOffset (with_cursorX (GoInt.add startX x) (with_cursorY y m)))
    else findNextLoop n' (y + 1) 0 m
  end.

Definition findNext (m : model) : outcome model :=
  findNextLoop (Z.to_nat (len (content m) - cursorY m))
    (cursorY m) (GoInt.add (cursorX m) 1) m.

(** The loop of [findPrevious] from row [y] down to row 0; [n = y + 1].
    [spare y] is what the backing array of row [y] holds past the length
    of the row. *)
Fixpoint findPreviousLoop (spare : Z -> list rune) (n : nat) (y startX : Z)
    (m : model) : outcome model :=
  match n with
  | O => Ok (with_statusMsg ("Pattern not found: " +:+ searchTerm m) m)
  | S n' =>
    do startX <-
      (if decide (startX < 0)
       then do line <- index (content m) y; Ok (len line - 1)
       else Ok startX);
    do line <- index (content m) y;
    do part <- sliceToCap line (spare y) (GoInt.add startX 1);
    let x := GoStrings.LastIndex (Utf8.stringOf part) (searchTerm m) in
    if decide (x <> -1)
    then Ok (adjustOffset (with_cursorX x (with_cursorY y m)))
    else findPreviousLoop spare n' (y - 1) (-1) m
  end.

Definition findPrevious (spare : Z -> list rune) (m : model) : outcome model :=
  findPreviousLoop spare (Z.to_nat (cursorY m + 1))
    (cursorY m) (GoInt.sub (cursorX m) 1) m.

(** One pass of the loop of [replaceAll] over the lines: the new lines,
    the occurrences counted and whether a line changed. *)
Fixpoint replaceLines (lines : list (list rune)) (term repl : string) (count : Z)
  : list (list rune) * Z * bool :=
  match lines with
  | [] => ([], count, false)
  | l :: rest =>
    let line := Utf8.stringOf l in
    let newLine := GoStrings.ReplaceAll line term repl in
    if decide (newLine <> line) then
      let '(rest', count', _) :=
        replaceLines rest term repl (GoInt.add count (GoStrings.Count line term)) in
      (Utf8.runes newLine :: rest', count', true)
    else
      let '(rest', count', changed) := replaceLines rest term repl count in
      (l :: rest', count', changed)
  end.

Definition replaceAll (m : model) : model :=
  let '(lines, count, changed) :=
    replaceLines (content m) (searchTerm m) (replaceTerm m) 0 in
  let m := with_content lines m in
  let m := if changed then with_modified true m else m in
  with_statusMsg ("Replaced " +:+ itoa count +:+ " occurrences") m.

(** ** Saving *)

Fixpoint serialize (lines : list (list rune)) : string :=
  match lines with
  | [] => ""
  | l :: rest => Utf8.stringOf l +:+ String (Zbyte 10) "" +:+ serialize rest
  end.

(** [writeFile name data] stands for [os.WriteFile]: [None] when the
    write succeeds, the text of the error otherwise. *)
Definition saveFile (writeFile : string -> string -> option string) (m : model) : model :=
  let target := if decide (filename m <> "") then filename m else "samples/output.txt" in
  match writeFile target (serialize (content m)) with
  | Some err => with_statusMsg ("Error saving file: " +:+ err) m
  | None => with_modified false (with_statusMsg "File saved successfully" m)
  end.

(** ** The world around a handler

    What a handler meets outside the [model] value: the file system, as
    the result of [os.WriteFile], and the part of the heap that the
    embedding does not track, which is for each row what its backing
    array holds past the length of the row. *)
Record world : Type := mkWorld {
  WriteFile : string -> string -> option string;
  spare : Z -> list rune
}.

(** ** Normal mode *)

(** case "x" *)
Definition deleteCharUnderCursor (m : model) : outcome model :=
  do line <- index (content m) (cursorY m);
  if decide (cursorX m < len line) then
    do pre <- sliceTo line (cursorX m);
    do post <- sliceFrom line (GoInt.add (cursorX m) 1);
    do c <- assign (content m) (cursorY m) (pre ++ post);
    Ok (with_modified true (with_content c m))
  else Ok m.

(** case "d" *)
Definition deleteLine (m : model) : outcome model :=
  if decide (cursorY m < len (content m) - 1) then
    do line <- index (content m) (cursorY m);
    let m := with_clipboard (Utf8.stringOf line) m in
    do pre <- sliceTo (content m) (cursorY m);
    do post <- sliceFrom (content m) (GoInt.add (cursorY m) 1);
    let m := with_modified true (with_content (pre ++ post) m) in
    Ok (if decide (cursorY m >= len (content m))
        then with_cursorY (len (content m) - 1) m
        else m)
  else Ok m.

(** case "y" *)
Definition yankLine (m : model) : outcome model :=
  if decide (cursorY m < len (content m)) then
    do line <- index (content m) (cursorY m);
    Ok (with_statusMsg "Line yanked to clipboard" (with_clipboard (Utf8.stringOf line) m))
  else Ok m.

(** case "p" *)
Definition pasteLine (m : model) : outcome model :=
  if decide (clipboard m <> "") then
    let m := saveAction m in
    do pre <- sliceTo (content m) (GoInt.add (cursorY m) 1);
    do post <- sliceFrom (content m) (cursorY m);
    let m := with_content (pre ++ post) m in
    do c <- assign (content m) (GoInt.add (cursorY m) 1) (Utf8.runes (clipboard m));
    let m := with_content c m in
    let m := with_cursorY (GoInt.add (cursorY m) 1) m in
    Ok (with_statusMsg "Line pasted from clipboard" (with_modified true m))
  else Ok m.

Definition stay (x : outcome model) : outcome (model * cmd) :=
  do m <- x; Ok (m, CmdNil).

Definition handleNormalMode (w : world) (str : string) (m : model)
  : outcome (model * cmd) :=
  if decide (str = "q") then
    if modified m
    then Ok (with_statusMsg "Unsaved changes. Use :q! to force quit." m, CmdNil)
    else Ok (m, CmdQuit)
  else if decide (str = "i") then
    Ok (with_statusMsg "Insert mode" (with_mode insertMode m), CmdNil)
  else if decide (str = "h" \/ str = "left") then stay (moveCursor (-1) 0 m)
  else if decide (str = "l" \/ str = "right") then stay (moveCursor 1 0 m)
  else if decide (str = "k" \/ str = "up") then stay (moveCursor 0 (-1) m)
  else if decide (str = "j" \/ str = "down") then stay (moveCursor 0 1 m)
  else if decide (str = "g") then
    Ok (with_offsetY 0 (with_cursorY 0 m), CmdNil)
  else if decide (str = "G") then
    Ok (adjustOffset (with_cursorY (len (content m) - 1) m), CmdNil)
  else if decide (str = "0") then Ok (with_cursorX 0 m, CmdNil)
  else if decide (str = "$") then
    stay (do line <- index (content m) (cursorY m); Ok (with_cursorX (len line) m))
  else if decide (str = "x") then stay (deleteCharUnderCursor m)
  else if decide (str = "d") then stay (deleteLine m)
  else if decide (str = "u") then stay (undo m)
  else if decide (str = "ctrl+r") then stay (redo m)
  else if decide (str = "y") then stay (yankLine m)
  else if decide (str = "p") then stay (pasteLine m)
  else if decide (str = "/") then
    Ok (with_searchTerm "" (with_statusMsg "/" (with_mode searchMode m)), CmdNil)
  else if decide (str = "n") then stay (findNext m)
  else if decide (str = "N") then stay (findPrevious (spare w) m)
  else if decide (str = ":") then Ok (with_statusMsg ":" m, CmdNil)
  else if decide (str = "w") then
    Ok (if decide (statusMsg m = ":") then saveFile (WriteFile w) m else m, CmdNil)
  else if decide (str = "q!") then
    Ok (m, if decide (statusMsg m = ":") then CmdQuit else CmdNil)
  else if decide (str = "ctrl+c") then Ok (m, CmdQuit)
  else if decide (str = "pageup") then stay (moveCursor 0 (GoInt.neg (height m)) m)
  else if decide (str = "pagedown") then stay (moveCursor 0 (height m) m)
  else Ok (m, CmdNil).

(** ** Insert mode *)

(** The statement that puts [r] in the current line at the cursor and
    moves the cursor one column right; the body of the loop of case "tab"
    and, after [saveAction], of the default case. *)
Definition insertRune (r : rune) (m : model) : outcome model :=
  do line <- index (content m) (cursorY m);
  do pre <- sliceTo line (cursorX m);
  do post <- sliceFrom line (cursorX m);
  do c <- assign (content m) (cursorY m) (pre ++ ([r] ++ post));
  Ok (with_cursorX (GoInt.add (cursorX m) 1) (with_content c m)).

(** case "esc" *)
Definition leaveInsert (m : model) : model :=
  let m := with_statusMsg "Normal mode" (with_mode normalMode m) in
  if decide (cursorX m > 0) then with_cursorX (GoInt.sub (cursorX m) 1) m else m.

(** case "enter" *)
Definition splitLine (m : model) : outcome model :=
  let m := saveAction m in
  do line <- index (content m) (cursorY m);
  do tail <- sliceFrom line (cursorX m);
  let newLine := [] ++ tail in
  do head <- sliceTo line (cursorX m);
  do c <- assign (content m) (cursorY m) head;
  let m := with_content c m in
  do pre <- sliceTo (content m) (GoInt.add (cursorY m) 1);
  do post <- sliceFrom (content m) (GoInt.add (cursorY m) 1);
  let m := with_content (pre ++ ([newLine] ++ post)) m in
  let m := with_cursorY (GoInt.add (cursorY m) 1) m in
  Ok (with_modified true (with_cursorX 0 m)).

(** case "backspace" *)
Definition backspace (m : model) : outcome model :=
  if decide (cursorX m > 0) then
    do line <- index (content m) (cursorY m);
    do pre <- sliceTo line (GoInt.sub (cursorX m) 1);
    do post <- sliceFrom line (cursorX m);
    do c <- assign (content m) (cursorY m) (pre ++ post);
    let m := with_content c m in
    Ok (with_modified true (with_cursorX (GoInt.sub (cursorX m) 1) m))
  else if decide (cursorY m > 0) then
    let m := with_cursorY (GoInt.sub (cursorY m) 1) m in
    do line <- index (content m) (cursorY m);
    let m := with_cursorX (len line) m in
    do next <- index (content m) (GoInt.add (cursorY m) 1);
    do c <- assign (content m) (cursorY m) (line ++ next);
    let m := with_content c m in
    do pre <- sliceTo (content m) (GoInt.add (cursorY m) 1);
    do post <- sliceFrom (content m) (GoInt.add (cursorY m) 2);
    Ok (with_modified true (with_content (pre ++ post) m))
  else Ok m.

(** The loop [for i := 0; i < n; i++] with body [f]. *)
Fixpoint times (n : nat) (f : model -> outcome model) (m : model) : outcome model :=
  match n with
  | O => Ok m
  | S k => do m' <- f m; times k f m'
  end.

(** case "tab" *)
Definition insertTab (m : model) : outcome model :=
  do m' <- times (Z.to_nat (tabSize m)) (insertRune 32) m;
  Ok (with_modified true m').

(** default case *)
Definition typeRunes (runes : list rune) (m : model) : outcome model :=
  match runes with
  | [r] => do m' <- insertRune r (saveAction m); Ok (with_modified true m')
  | _ => Ok m
  end.

Definition handleInsertMode (str : string) (runes : list rune) (m : model)
  : outcome (model * cmd) :=
  do m' <-
    (if decide (str = "esc") then Ok (leaveInsert m)
     else if decide (str = "enter") then splitLine m
     else if decide (str = "backspace") then backspace m
     else if decide (str = "tab") then insertTab m
     else typeRunes runes m);
  Ok (adjustOffset m', CmdNil).

(** ** Search and Replace modes *)

Definition handleSearchMode (str : string) (runes : list rune) (m : model)
  : outcome (model * cmd) :=
  if decide (str = "esc") then
    Ok (with_statusMsg "Normal mode" (with_mode normalMode m), CmdNil)
  else if decide (str = "enter") then
    do m' <- findNext m; Ok (with_mode normalMode m', CmdNil)
  else if decide (str = "backspace") then
    if decide (slen (searchTerm m) > 0) then
      let m := with_searchTerm (stake (Z.to_nat (slen (searchTerm m) - 1)) (searchTerm m)) m in
      Ok (with_statusMsg ("/" +:+ searchTerm m) m, CmdNil)
    else Ok (m, CmdNil)
  else
    match runes with
    | [r] =>
      let m := with_searchTerm (searchTerm m +:+ Utf8.EncodeRune r) m in
      Ok (with_statusMsg ("/" +:+ searchTerm m) m, CmdNil)
    | _ => Ok (m, CmdNil)
    end.

Definition handleReplaceMode (str : string) (runes : list rune) (m : model)
  : outcome (model * cmd) :=
  if decide (str = "esc") then
    Ok (with_statusMsg "Normal mode" (with_mode normalMode m), CmdNil)
  else if decide (str = "enter") then
    Ok (with_mode normalMode (replaceAll m), CmdNil)
  else if decide (str = "backspace") then
    if decide (slen (replaceTerm m) > 0) then
      let m := with_replaceTerm (stake (Z.to_nat (slen (replaceTerm m) - 1)) (replaceTerm m)) m in
      Ok (with_statusMsg ("Replace with: " +:+ replaceTerm m) m, CmdNil)
    else Ok (m, CmdNil)
  else
    match runes with
    | [r] =>
      let m := with_replaceTerm (replaceTerm m +:+ Utf8.EncodeRune r) m in
      Ok (with_statusMsg ("Replace with: " +:+ replaceTerm m) m, CmdNil)
    | _ => Ok (m, CmdNil)
    end.

(** ** The state machine *)

Definition Update (w : world) (e : msg) (m : model) : outcome (model * cmd) :=
  match e with
  | KeyMsg str runes =>
    match mode_ m with
    | normalMode => handleNormalMode w str m
    | insertMode => handleInsertMode str runes m
    | searchMode => handleSearchMode str runes m
    | replaceMode => handleReplaceMode str runes m
    end
  | WindowSizeMsg w h => Ok (with_size w (GoInt.sub h 2) m, CmdNil)
  | OtherMsg => Ok (m, CmdNil)
  end.

(** The key the driver sends for a named key, and for one typed
    character. *)
Definition key (name : string) : msg := KeyMsg name [].
Definition char (r : rune) : msg := KeyMsg (Utf8.EncodeRune r) [r].

(** A world in which every write succeeds and the backing array of a
    row ends with the row. *)
Definition disk : world := mkWorld (fun _ _ => None) (fun _ => []).

(** A session: every message is handled in the world of its moment.
    It stops at a panic; the quit command is not followed here. *)
Fixpoint session (steps : list (world * msg)) (m : model) : outcome model :=
  match steps with
  | [] => Ok m
  | (w, e) :: rest => do r <- Update w e m; session rest (fst r)
  end.

(** Feeding a sequence of messages in the world [disk], stopping at a
    panic; the quit command is not followed here. *)
Fixpoint run (es : list msg) (m : model) : outcome model :=
  match es with
  | [] => Ok m
  | e :: rest => do r <- Update disk e m; run rest (fst r)
  end.

(** ** Vocabulary of the specification *)

(** What undo and redo are about: the buffer contents and the cursor
    position. *)
Definition document (m : model) : list (list rune) * Z * Z :=
  (content m, cursorX m, cursorY m).

Definition action_document (a : action) : list (list rune) * Z * Z :=
  (action_content a, action_cursorX a, action_cursorY a).

(** The cursor is on a row of the buffer and on or just after a character
    of that row. *)
Definition cursor_ok (m : model) : Prop :=
  0 <= cursorY m < len (content m) /\
  exists line, content m !! Z.to_nat (cursorY m) = Some line /\
               0 <= cursorX m <= len line.

(** [m'] carries one checkpoint more than [m]: the snapshot of [m], and
    the redo stack is cleared. *)
Definition checkpointed (m m' : model) : Prop :=
  undoStack m' = undoStack m ++ [snapshot m] /\ redoStack m' = [].

(** The discrete edit actions and the key that performs each. *)
Inductive edit : Type :=
| CharInsert (r : rune)
| CharDelete
| CharDeleteLeft
| NewlineSplit
| LineJoin
| TabExpansion
| LineDelete
| Paste.

Definition perform (e : edit) (m : model) : outcome (model * cmd) :=
  match e with
  | CharInsert r => handleInsertMode (Utf8.EncodeRune r) [r] m
  | CharDelete => handleNormalMode disk "x" m
  | CharDeleteLeft | LineJoin => handleInsertMode "backspace" [] m
  | NewlineSplit => handleInsertMode "enter" [] m
  | TabExpansion => handleInsertMode "tab" [] m
  | LineDelete => handleNormalMode disk "d" m
  | Paste => handleNormalMode disk "p" m
  end.

(** The edit actions whose handler calls [saveAction]. *)
Definition saves (e : edit) : bool :=
  match e with
  | CharInsert _ | NewlineSplit | Paste => true
  | _ => false
  end.

Definition newline : string := String (Zbyte 10) "".

(** The state after the first message of a session, the size of the
    terminal: 80 columns and 24 rows here. *)
Definition sized (m : model) : model :=
  match Update disk (WindowSizeMsg 80 24) m with
  | Ok (m', _) => m'
  | Panic _ => m
  end.

(** The editor started on a file with the given text. *)
Definition opened (data : string) : model :=
  sized (initialModel "notes.txt" (fun _ => Some data)).

(** The editor started without a file. *)
Definition blank : model := sized (initialModel "" (fun _ => None)).

(** A world in which every write fails, the disk being full. *)
Definition full_disk : world :=
  mkWorld (fun _ _ => Some "no space left on device") (fun _ => []).

(** The state a sequence of messages leads to, for sequences that do not
    panic. *)
Definition after (es : list msg) (m : model) : model :=
  match run es m with
  | Ok m' => m'
  | Panic _ => m
  end.

(** A world in which every write succeeds and the backing array of
    every row has room for one more character, a zero. *)
Definition roomy : world := mkWorld (fun _ _ => None) (fun _ => [0]).

(** The state a session leads to, for sessions that do not panic. *)
Definition ended (steps : list (world * msg)) (m : model) : model :=
  match session steps m with
  | Ok m' => m'
  | Panic _ => m
  end.

(** A session with two checkpoints: "a" and "b" typed at the start of
    "xy", then back in Normal mode. *)
Definition typed_ab : model :=
  after [key "i"; char 97; char 98; key "esc"] (opened "xy").

(** A Unicode scalar value: a code point that is no surrogate.  These
    are the characters UTF-8 encodes as themselves. *)
Definition valid_rune (r : rune) : Prop :=
  0 <= r < 0xD800 \/ 0xE000 <= r <= 0x10FFFF.

(** Whether the byte [c] occurs in [s]. *)
Fixpoint has_byte (c : ascii) (s : string) : bool :=
  match s with
  | EmptyString => false
  | String a t => Ascii.eqb a c || has_byte c t
  end.

(** Row [y] is a row of the buffer [lines], which has no more than
    [bound] lines. *)
Definition row_in (lines : list (list rune)) (y bound : Z) : Prop :=
  0 <= y < len lines /\ len lines <= bound.

(** The cursor row is a row of the buffer, in the live state and in every
    snapshot on the two stacks. *)
Definition rows_ok (bound : Z) (m : model) : Prop :=
  row_in (content m) (cursorY m) bound /\
  Forall (fun a => row_in (action_content a) (action_cursorY a) bound)
    (undoStack m ++ redoStack m).

(** The snapshots of a session in the order they were current: the undo
    stack, the live state, then the redo stack from its top down.  The
    position of the live state in it is the height of the undo stack. *)
Definition timeline (m : model) : list action :=
  undoStack m ++ [snapshot m] ++ reverse (redoStack m).

Definition position (m : model) : nat := length (undoStack m).

(** Projections of updated states reduce by computation; [fields] does
    that and nothing else. *)
Ltac fields :=
  cbn [content cursorX cursorY offsetY width height mode_ filename statusMsg
       searchTerm replaceTerm clipboard modified tabSize undoStack redoStack
       with_content with_cursorX with_cursorY with_offsetY with_size with_mode
       with_statusMsg with_searchTerm with_replaceTerm with_clipboard
       with_modified with_undoStack with_redoStack restore saveAction
       action_content action_cursorX action_cursorY bind fst snd] in *.

(** A character that UTF-8 writes as one byte, and a buffer of such
    characters only. *)
Definition ascii_rune (r : rune) : Prop := 0 <= r <= 0x7F.

Definition ascii_text (lines : list (list rune)) : Prop :=
  Forall (Forall ascii_rune) lines.

(** The search term occurs in row [y] of the buffer from column [c] on. *)
Definition occurs_at (m : model) (y c : Z) : Prop :=
  exists line,
    0 <= y /\ content m !! Z.to_nat y = Some line /\ 0 <= c <= len line /\
    String.prefix (searchTerm m) (Utf8.stringOf (drop (Z.to_nat c) line)) = true.

(** The positions findNext looks at: right of the cursor in its row, and
    all of the rows below. *)
Definition ahead (m : model) (y c : Z) : Prop :=
  (y = cursorY m /\ cursorX m < c) \/ cursorY m < y.

(** Reading order of positions. *)
Definition before (y1 c1 y2 c2 : Z) : Prop :=
  y1 < y2 \/ (y1 = y2 /\ c1 < c2).

(** What the loop of findNext computes in a row searched from column
    [s]: the result of [strings.Index], as an option. *)
Definition hit (m : model) (s : Z) (line : list rune) : option nat :=
  GoStrings.indexOf (searchTerm m) (Utf8.stringOf (drop (Z.to_nat s) line)).







(** Unfolds the field updates down to the record constructor. *)
Ltac setters :=
  unfold with_content, with_cursorX, with_cursorY, with_offsetY, with_size,
    with_mode, with_statusMsg, with_searchTerm, with_replaceTerm,
    with_clipboard, with_modified, with_undoStack, with_redoStack in *;
  cbn [content cursorX cursorY offsetY width height mode_ filename statusMsg
       searchTerm replaceTerm clipboard modified tabSize undoStack redoStack]
    in *.

(** Closes a goal between closed terms by evaluation. *)
Ltac ev := vm_compute; reflexivity.

(** * Properties *)

(** ** Integers, slices and copies *)

Lemma wrap_id (z : Z) :
  GoInt.intMin <= z <= GoInt.intMax -> GoInt.wrap z = z.
Proof.
  unfold GoInt.wrap, GoInt.intMin, GoInt.intMax. intros H.
  rewrite Z.mod_small by lia. lia.
Qed.

Lemma add_id (a b : Z) :
  GoInt.intMin <= a + b <= GoInt.intMax -> GoInt.add a b = a + b.
Proof. apply wrap_id. Qed.

Lemma sub_id (a b : Z) :
  GoInt.intMin <= a - b <= GoInt.intMax -> GoInt.sub a b = a - b.
Proof. apply wrap_id. Qed.

Lemma copyLine_id (line : list rune) : copyLine line = line.
Proof. unfold copyLine. induction line as [|r line IH]; simpl; congruence. Qed.

Lemma deepCopyContent_id (c : list (list rune)) : deepCopyContent c = c.
Proof.
  unfold deepCopyContent. induction c as [|l c IH]; simpl; [done|].
  by rewrite copyLine_id, IH.
Qed.

Lemma len_nonneg {A} (s : list A) : 0 <= len s.
Proof. unfold len. lia. Qed.

Lemma len_app {A} (s t : list A) : len (s ++ t) = len s + len t.
Proof. unfold len. rewrite length_app. lia. Qed.

Lemma index_Ok {A} (s : list A) (i : Z) (a : A) :
  index s i = Ok a <-> 0 <= i /\ s !! Z.to_nat i = Some a.
Proof.
  unfold index, len. case_decide as H.
  - destruct (s !! Z.to_nat i) eqn:E; split.
    + intros [= ->]. split; [lia|done].
    + intros [_ [= ->]]. done.
    + discriminate.
    + intros [_ ?]. discriminate.
  - split; [discriminate|]. intros [H0 Hl].
    apply lookup_lt_Some in Hl. lia.
Qed.

Lemma index_lookup {A} (s : list A) (n : nat) (a : A) :
  s !! n = Some a -> index s (Z.of_nat n) = Ok a.
Proof. intros H. apply index_Ok. rewrite Nat2Z.id. split; [lia|done]. Qed.

Lemma index_in_range {A} (s : list A) (i : Z) :
  0 <= i < len s -> exists a, index s i = Ok a /\ s !! Z.to_nat i = Some a.
Proof.
  intros H. destruct (lookup_lt_is_Some_2 s (Z.to_nat i)) as [a Ha].
  { unfold len in H. lia. }
  exists a. split; [|done]. apply index_Ok. split; [lia|done].
Qed.

Lemma index_out {A} (s : list A) (i : Z) :
  ~ 0 <= i < len s -> index s i = Panic IndexOutOfRange.
Proof. intros H. unfold index. by rewrite decide_False. Qed.

Lemma sliceTo_Ok {A} (s : list A) (i : Z) :
  0 <= i <= len s -> sliceTo s i = Ok (take (Z.to_nat i) s).
Proof. intros H. unfold sliceTo. by rewrite decide_True. Qed.

Lemma sliceFrom_Ok {A} (s : list A) (i : Z) :
  0 <= i <= len s -> sliceFrom s i = Ok (drop (Z.to_nat i) s).
Proof. intros H. unfold sliceFrom. by rewrite decide_True. Qed.

Lemma sliceTo_inv {A} (s v : list A) (i : Z) :
  sliceTo s i = Ok v -> 0 <= i <= len s /\ v = take (Z.to_nat i) s.
Proof. unfold sliceTo. case_decide; [|discriminate]. by intros [= <-]. Qed.

Lemma sliceFrom_inv {A} (s v : list A) (i : Z) :
  sliceFrom s i = Ok v -> 0 <= i <= len s /\ v = drop (Z.to_nat i) s.
Proof. unfold sliceFrom. case_decide; [|discriminate]. by intros [= <-]. Qed.

Lemma sliceFrom_out {A} (s : list A) (i : Z) :
  ~ 0 <= i <= len s -> sliceFrom s i = Panic SliceBoundsOutOfRange.
Proof. intros H. unfold sliceFrom. by rewrite decide_False. Qed.

Lemma assign_Ok {A} (s : list A) (i : Z) (a : A) :
  0 <= i < len s -> assign s i a = Ok (<[Z.to_nat i := a]> s).
Proof. intros H. unfold assign. by rewrite decide_True. Qed.

(** The top of a stack that grows at its end. *)
Lemma len_snoc {A} (s : list A) (a : A) :
  Z.to_nat (len (s ++ [a]) - 1) = length s.
Proof. rewrite len_app. unfold len. simpl. lia. Qed.

Lemma index_top {A} (s : list A) (a : A) :
  index (s ++ [a]) (len (s ++ [a]) - 1) = Ok a.
Proof.
  apply index_Ok. rewrite len_snoc. split.
  - rewrite len_app. unfold len. simpl. lia.
  - by rewrite list_lookup_middle.
Qed.

Lemma sliceTo_pop {A} (s : list A) (a : A) :
  sliceTo (s ++ [a]) (len (s ++ [a]) - 1) = Ok s.
Proof.
  rewrite sliceTo_Ok.
  - rewrite len_snoc. by rewrite take_app_length.
  - rewrite len_app. unfold len. simpl. lia.
Qed.

(** ** History: undo and redo *)

Lemma snapshot_document (m1 m2 : model) :
  snapshot m1 = snapshot m2 <-> document m1 = document m2.
Proof.
  unfold snapshot, document. rewrite !deepCopyContent_id.
  split; intros [= -> -> ->]; reflexivity.
Qed.

Lemma undo_empty (m : model) :
  undoStack m = [] -> undo m = Ok (with_statusMsg "Nothing to undo" m).
Proof. intros H. unfold undo. rewrite H. reflexivity. Qed.

Lemma redo_empty (m : model) :
  redoStack m = [] -> redo m = Ok (with_statusMsg "Nothing to redo" m).
Proof. intros H. unfold redo. rewrite H. reflexivity. Qed.

Lemma undo_pop (m : model) (us : list action) (a : action) :
  undoStack m = us ++ [a] ->
  undo m = Ok (with_statusMsg "Undo performed"
                 (restore a (with_undoStack us
                    (with_redoStack (redoStack m ++ [snapshot m]) m)))).
Proof.
  intros H. unfold undo. rewrite decide_True.
  - cbn. rewrite H, index_top, sliceTo_pop. reflexivity.
  - rewrite H, len_app. pose proof (len_nonneg us). unfold len at 2. simpl. lia.
Qed.

Lemma redo_pop (m : model) (rs : list action) (a : action) :
  redoStack m = rs ++ [a] ->
  redo m = Ok (with_statusMsg "Redo performed"
                 (restore a (with_redoStack rs
                    (with_undoStack (undoStack m ++ [snapshot m]) m)))).
Proof.
  intros H. unfold redo. rewrite decide_True.
  - cbn. rewrite H, index_top, sliceTo_pop. reflexivity.
  - rewrite H, len_app. pose proof (len_nonneg rs). unfold len at 2. simpl. lia.
Qed.

Lemma snapshot_restore (a : action) (m : model) :
  snapshot (with_statusMsg "Undo performed" (restore a m)) = a /\
  snapshot (with_statusMsg "Redo performed" (restore a m)) = a.
Proof.
  unfold snapshot; cbn. rewrite !deepCopyContent_id. by destruct a.
Qed.

(** Undo and redo move along the timeline and leave it unchanged. *)
Lemma undo_timeline (m : model) :
  undoStack m <> [] ->
  exists u, undo m = Ok u /\ timeline u = timeline m /\ S (position u) = position m.
Proof.
  intros H. destruct (undoStack m) as [|x l] eqn:E using rev_ind; [done|]. clear IHl H.
  eexists. split; [by apply undo_pop|].
  unfold timeline, position.
  rewrite (proj1 (snapshot_restore _ _)). fields.
  rewrite E, reverse_app, length_app. simpl.
  split; [by rewrite <- !app_assoc | lia].
Qed.

Lemma redo_timeline (m : model) :
  redoStack m <> [] ->
  exists r, redo m = Ok r /\ timeline r = timeline m /\ position r = S (position m).
Proof.
  intros H. destruct (redoStack m) as [|x l] eqn:E using rev_ind; [done|]. clear IHl H.
  eexists. split; [by apply redo_pop|].
  unfold timeline, position.
  rewrite (proj2 (snapshot_restore _ _)). fields.
  rewrite E, reverse_app, length_app. simpl.
  split; [by rewrite <- !app_assoc | lia].
Qed.

Lemma timeline_length (m : model) :
  length (timeline m) = (position m + 1 + length (redoStack m))%nat.
Proof.
  unfold timeline, position. rewrite !length_app, length_reverse. simpl. lia.
Qed.

(** The timeline and the position determine the buffer, the cursor and
    both stacks. *)
Lemma timeline_determines (m1 m2 : model) :
  timeline m1 = timeline m2 -> position m1 = position m2 ->
  document m1 = document m2 /\ undoStack m1 = undoStack m2 /\
  redoStack m1 = redoStack m2.
Proof.
  unfold timeline, position. intros Ht Hp.
  apply app_inj_1 in Ht as [Hu Ht]; [|done].
  simpl in Ht. injection Ht as Hc Hx Hy Hr.
  rewrite !deepCopyContent_id in Hc.
  split; [unfold document; congruence|]. split; [done|].
  by apply (inj reverse).
Qed.

Lemma times_undo (k : nat) (m : model) :
  (k <= position m)%nat ->
  exists u, times k undo m = Ok u /\ timeline u = timeline m /\
            (position u + k = position m)%nat.
Proof.
  revert m. induction k as [|k IH]; intros m Hk.
  - exists m. simpl. split; [done|]. split; [done|lia].
  - destruct (undo_timeline m) as (u & Hu & Ht & Hp).
    { unfold position in Hk. destruct (undoStack m); [simpl in Hk; lia|done]. }
    destruct (IH u) as (u' & Hu' & Ht' & Hp'); [lia|].
    exists u'. simpl. rewrite Hu. cbn. split; [done|]. split; [congruence|lia].
Qed.

Lemma times_redo (k : nat) (m : model) :
  (k <= length (redoStack m))%nat ->
  exists r, times k redo m = Ok r /\ timeline r = timeline m /\
            position r = (position m + k)%nat.
Proof.
  revert m. induction k as [|k IH]; intros m Hk.
  - exists m. simpl. split; [done|]. split; [done|lia].
  - destruct (redo_timeline m) as (r & Hr & Ht & Hp).
    { destruct (redoStack m); [simpl in Hk; lia|done]. }
    destruct (IH r) as (r' & Hr' & Ht' & Hp').
    { pose proof (timeline_length m). pose proof (timeline_length r).
      rewrite Ht in H0. lia. }
    exists r'. simpl. rewrite Hr. cbn. split; [done|]. split; [congruence|lia].
Qed.

Lemma timeline_at (m : model) :
  timeline m !! position m = Some (snapshot m).
Proof. unfold timeline, position. simpl. by rewrite list_lookup_middle. Qed.

(** The round-trip law at any depth: [k] undos followed by [k] redos, for
    [k] up to the height of the undo stack, give back the buffer, the
    cursor and both stacks; the state in between shows the snapshot taken
    [k] checkpoints ago. *)
Theorem undo_redo_round_trip (k : nat) (m : model) :
  (k <= length (undoStack m))%nat ->
  exists u r,
    times k undo m = Ok u /\
    timeline m !! (position m - k)%nat = Some (snapshot u) /\
    times k redo u = Ok r /\
    document r = document m /\
    undoStack r = undoStack m /\ redoStack r = redoStack m.
Proof.
  intros Hk. destruct (times_undo k m Hk) as (u & Hu & Htu & Hpu).
  destruct (times_redo k u) as (r & Hr & Htr & Hpr).
  { pose proof (timeline_length m). pose proof (timeline_length u).
    rewrite Htu in H0. lia. }
  exists u, r. split; [done|]. split.
  - rewrite <- Htu. replace (position m - k)%nat with (position u) by lia.
    apply timeline_at.
  - split; [done|]. apply timeline_determines; [congruence|lia].
Qed.

(** One step of it, from a state that carries a fresh checkpoint: undo
    shows the state the checkpoint was taken in, redo the state undo was
    called in. *)
Theorem undo_redo_after_checkpoint (m m' : model) :
  checkpointed m m' ->
  exists u r,
    undo m' = Ok u /\ document u = document m /\
    undoStack u = undoStack m /\ redoStack u = [snapshot m'] /\
    redo u = Ok r /\ document r = document m' /\
    undoStack r = undoStack m' /\ redoStack r = [].
Proof.
  intros [Hu Hr].
  pose proof (undo_pop m' _ _ Hu) as Hundo. rewrite Hr in Hundo. simpl in Hundo.
  eexists. eexists. split; [exact Hundo|].
  split; [unfold document, snapshot; fields; by rewrite !deepCopyContent_id|].
  split; [done|]. split; [done|].
  split; [by apply (redo_pop _ [])|].
  split; [unfold document, snapshot; fields; by rewrite !deepCopyContent_id|].
  split; [|done].
  fields. rewrite Hu. f_equal. f_equal.
  unfold snapshot; fields. by rewrite !deepCopyContent_id.
Qed.

(** After a fresh checkpoint there is nothing to redo. *)
Theorem redo_after_checkpoint (m m' : model) :
  checkpointed m m' -> redo m' = Ok (with_statusMsg "Nothing to redo" m').
Proof. intros [_ Hr]. by apply redo_empty. Qed.

(** ** Which edit actions take a checkpoint *)

Lemma adjustOffset_keeps (m : model) :
  content (adjustOffset m) = content m /\
  cursorX (adjustOffset m) = cursorX m /\
  cursorY (adjustOffset m) = cursorY m /\
  undoStack (adjustOffset m) = undoStack m /\
  redoStack (adjustOffset m) = redoStack m /\
  statusMsg (adjustOffset m) = statusMsg m /\
  clipboard (adjustOffset m) = clipboard m /\
  tabSize (adjustOffset m) = tabSize m.
Proof. unfold adjustOffset. repeat case_decide; done. Qed.

Lemma bind_Ok {A B} (x : outcome A) (k : A -> outcome B) (b : B) :
  bind x k = Ok b -> exists a, x = Ok a /\ k a = Ok b.
Proof. destruct x as [a|p]; simpl; [eauto|discriminate]. Qed.

(** Unfolds one [do] that is known to return. *)
Ltac step H :=
  let a := fresh "v" in
  let E := fresh "E" in
  apply bind_Ok in H as (a & E & H).

Lemma insertRune_stacks (r : rune) (m m' : model) :
  insertRune r m = Ok m' ->
  undoStack m' = undoStack m /\ redoStack m' = redoStack m.
Proof.
  unfold insertRune. intros H. do 4 step H. by injection H as <-.
Qed.

Lemma typeRunes_checkpointed (r : rune) (m m' : model) :
  typeRunes [r] m = Ok m' -> checkpointed m m'.
Proof.
  unfold typeRunes. intros H. step H. injection H as <-.
  apply insertRune_stacks in E as [Hu Hr]. by split.
Qed.

Lemma splitLine_checkpointed (m m' : model) :
  splitLine m = Ok m' -> checkpointed m m'.
Proof.
  unfold splitLine. intros H. do 6 step H. by injection H as <-.
Qed.

Lemma pasteLine_checkpointed (m m' : model) :
  clipboard m <> "" -> pasteLine m = Ok m' -> checkpointed m m'.
Proof.
  unfold pasteLine. intros Hc H. rewrite decide_True in H by done.
  do 3 step H. by injection H as <-.
Qed.

(** The string of a typed character is none of the named keys of Insert
    mode: a named key has 3, 5 or 9 bytes and starts with an ASCII letter,
    the three-byte encodings start with a byte from 0xE0 on. *)
Lemma encode3_head (r : rune) :
  0x800 <= r <= 0xFFFF ->
  exists q, 0 <= q <= 15 /\
    Utf8.encode3 r =
    String (Zbyte (Z.lor 0xE0 q))
      (String (Utf8.cont (Z.shiftr r 6)) (String (Utf8.cont r) EmptyString)).
Proof.
  intros H. exists (Z.shiftr r 12). split; [|done].
  rewrite Z.shiftr_div_pow2 by lia. change (2 ^ 12) with 4096.
  split; [apply Z.div_pos; lia|].
  apply Z.lt_succ_r. apply Z.div_lt_upper_bound; lia.
Qed.

Lemma char_not_named (r : rune) :
  Utf8.EncodeRune r <> "esc" /\ Utf8.EncodeRune r <> "enter" /\
  Utf8.EncodeRune r <> "backspace" /\ Utf8.EncodeRune r <> "tab".
Proof.
  unfold Utf8.EncodeRune. repeat case_decide; try (repeat split; discriminate).
  destruct (encode3_head r) as (q & Hq & ->); [lia|].
  assert (Hcases : q = 0 \/ q = 1 \/ q = 2 \/ q = 3 \/ q = 4 \/ q = 5 \/ q = 6 \/
                   q = 7 \/ q = 8 \/ q = 9 \/ q = 10 \/ q = 11 \/ q = 12 \/
                   q = 13 \/ q = 14 \/ q = 15) by lia.
  repeat (destruct Hcases as [-> | Hcases]; [repeat split; discriminate|]).
  subst q. repeat split; discriminate.
Qed.

Lemma handleInsertMode_char (r : rune) (m : model) :
  handleInsertMode (Utf8.EncodeRune r) [r] m =
  do m' <- typeRunes [r] m; Ok (adjustOffset m', CmdNil).
Proof.
  destruct (char_not_named r) as (H1 & H2 & H3 & H4).
  unfold handleInsertMode. by rewrite !decide_False.
Qed.

(** A character insert, a newline split and a paste push exactly one
    checkpoint, the snapshot of the state before the edit, and clear the
    redo stack. *)
Theorem saving_edit_checkpointed (e : edit) (m m' : model) (c : cmd) :
  saves e = true -> (e = Paste -> clipboard m <> "") ->
  perform e m = Ok (m', c) -> checkpointed m m'.
Proof.
  intros Hs Hp H. unfold checkpointed.
  destruct e; try discriminate; simpl in H.
  - rewrite handleInsertMode_char in H. step H. injection H as <- _.
    apply typeRunes_checkpointed in E as [Hu Hr].
    destruct (adjustOffset_keeps v) as (_ & _ & _ & -> & -> & _). done.
  - unfold handleInsertMode in H. simpl in H. step H. injection H as <- _.
    apply splitLine_checkpointed in E as [Hu Hr].
    destruct (adjustOffset_keeps v) as (_ & _ & _ & -> & -> & _). done.
  - unfold handleNormalMode, stay in H. simpl in H. step H. injection H as <- _.
    apply pasteLine_checkpointed; auto.
Qed.

(** The other edit actions leave both stacks as they are. *)
Lemma deleteCharUnderCursor_stacks (m m' : model) :
  deleteCharUnderCursor m = Ok m' ->
  undoStack m' = undoStack m /\ redoStack m' = redoStack m.
Proof.
  unfold deleteCharUnderCursor. intros H. step H.
  case_decide; [do 3 step H|]; by injection H as <-.
Qed.

Lemma deleteLine_stacks (m m' : model) :
  deleteLine m = Ok m' ->
  undoStack m' = undoStack m /\ redoStack m' = redoStack m.
Proof.
  unfold deleteLine. intros H.
  case_decide; [do 3 step H|]; injection H as <-; [case_decide|]; done.
Qed.

Lemma backspace_stacks (m m' : model) :
  backspace m = Ok m' ->
  undoStack m' = undoStack m /\ redoStack m' = redoStack m.
Proof.
  unfold backspace. intros H.
  case_decide; [do 4 step H|case_decide; [do 5 step H|]]; by injection H as <-.
Qed.

Lemma times_insertRune_stacks (n : nat) (r : rune) (m m' : model) :
  times n (insertRune r) m = Ok m' ->
  undoStack m' = undoStack m /\ redoStack m' = redoStack m.
Proof.
  revert m. induction n as [|n IH]; simpl; intros m H.
  - by injection H as <-.
  - step H. apply insertRune_stacks in E as [<- <-]. by apply IH.
Qed.

Lemma insertTab_stacks (m m' : model) :
  insertTab m = Ok m' ->
  undoStack m' = undoStack m /\ redoStack m' = redoStack m.
Proof.
  unfold insertTab. intros H. step H. injection H as <-.
  by apply times_insertRune_stacks in E.
Qed.

(** A character delete (under the cursor or to its left), a line join, a
    tab expansion and a line delete never push a checkpoint and never
    clear the redo stack. *)
Theorem unsaved_edit_keeps_stacks (e : edit) (m m' : model) (c : cmd) :
  saves e = false -> perform e m = Ok (m', c) ->
  undoStack m' = undoStack m /\ redoStack m' = redoStack m.
Proof.
  intros Hs H.
  destruct e; try discriminate; simpl in H;
    unfold handleNormalMode, handleInsertMode, stay in H; simpl in H;
    step H; injection H as <- _;
    try (destruct (adjustOffset_keeps v) as (_ & _ & _ & -> & -> & _)).
  - by apply deleteCharUnderCursor_stacks.
  - by apply backspace_stacks.
  - by apply backspace_stacks.
  - by apply insertTab_stacks.
  - by apply deleteLine_stacks.
Qed.

(** ** What the checkpointing edits do *)

Lemma with_same (m : model) (c : list (list rune)) (x : Z) :
  c = content m -> x = cursorX m -> with_cursorX x (with_content c m) = m.
Proof. intros -> ->. by destruct m. Qed.

Lemma insertRune_Ok (r : rune) (m : model) (line : list rune) :
  0 <= cursorY m -> content m !! Z.to_nat (cursorY m) = Some line ->
  0 <= cursorX m <= len line ->
  insertRune r m =
  Ok (with_cursorX (GoInt.add (cursorX m) 1)
        (with_content
           (<[Z.to_nat (cursorY m) :=
                take (Z.to_nat (cursorX m)) line ++ [r] ++
                drop (Z.to_nat (cursorX m)) line]> (content m)) m)).
Proof.
  intros Hy Hl Hx. unfold insertRune.
  rewrite (proj2 (index_Ok _ _ _) (conj Hy Hl)). simpl.
  rewrite sliceTo_Ok, sliceFrom_Ok by done. simpl.
  rewrite assign_Ok; [done|].
  apply lookup_lt_Some in Hl. unfold len. lia.
Qed.

Lemma times_insertRune (n : nat) (r : rune) (m : model) (line : list rune) :
  0 <= cursorY m -> content m !! Z.to_nat (cursorY m) = Some line ->
  0 <= cursorX m <= len line ->
  cursorX m + Z.of_nat n <= GoInt.intMax ->
  times n (insertRune r) m =
  Ok (with_cursorX (cursorX m + Z.of_nat n)
        (with_content
           (<[Z.to_nat (cursorY m) :=
                take (Z.to_nat (cursorX m)) line ++ replicate n r ++
                drop (Z.to_nat (cursorX m)) line]> (content m)) m)).
Proof.
  revert m line. induction n as [|n IH]; intros m line Hy Hl Hx Hb.
  - simpl. f_equal. symmetry. apply with_same; [|lia].
    rewrite take_drop. by apply list_insert_id.
  - simpl. rewrite (insertRune_Ok r m line) by done. fields.
    assert (Hlen : (Z.to_nat (cursorX m) <= length line)%nat) by (unfold len in Hx; lia).
    rewrite add_id by (unfold GoInt.intMin, GoInt.intMax in *; lia).
    set (line1 := take (Z.to_nat (cursorX m)) line ++ [r] ++ drop (Z.to_nat (cursorX m)) line).
    assert (Hin : (Z.to_nat (cursorY m) < length (content m))%nat)
      by (by apply lookup_lt_Some in Hl).
    rewrite (IH _ line1); fields.
    + f_equal. destruct m; setters. f_equal; [|lia].
      rewrite list_insert_insert_eq. f_equal.
      replace (Z.to_nat (cursorX0 + 1)) with (S (Z.to_nat cursorX0)) by lia.
      subst line1. rewrite (app_assoc _ [r]).
      rewrite take_app_length', drop_app_length';
        try (rewrite length_app, length_take_le; simpl; lia).
      by rewrite <- app_assoc.
    + done.
    + by rewrite list_lookup_insert_eq.
    + subst line1. unfold len in *. rewrite !length_app, length_take_le, length_drop by done.
      simpl. lia.
    + lia.
Qed.

Lemma in_buffer (m : model) (line : list rune) :
  0 <= cursorY m -> content m !! Z.to_nat (cursorY m) = Some line ->
  0 <= cursorY m < len (content m) /\ index (content m) (cursorY m) = Ok line.
Proof.
  intros Hy Hl. split; [|by apply index_Ok].
  apply lookup_lt_Some in Hl. unfold len. lia.
Qed.

(** A typed character: one checkpoint, the character at the cursor, the
    cursor one column further. *)
Theorem typeRunes_Ok (r : rune) (m : model) (line : list rune) :
  0 <= cursorY m -> content m !! Z.to_nat (cursorY m) = Some line ->
  0 <= cursorX m <= len line -> cursorX m < GoInt.intMax ->
  exists m',
    typeRunes [r] m = Ok m' /\ checkpointed m m' /\
    content m' =
      <[Z.to_nat (cursorY m) :=
          take (Z.to_nat (cursorX m)) line ++ [r] ++
          drop (Z.to_nat (cursorX m)) line]> (content m) /\
    cursorX m' = cursorX m + 1 /\ cursorY m' = cursorY m.
Proof.
  intros Hy Hl Hx Hb. unfold typeRunes.
  rewrite (insertRune_Ok r (saveAction m) line) by done. fields.
  eexists. split; [reflexivity|]. split; [by split|]. fields.
  split; [done|]. split; [|done].
  apply add_id. unfold GoInt.intMin, GoInt.intMax in *. lia.
Qed.

(** Enter: one checkpoint, the line cut in two at the cursor, the cursor
    at the start of the new line. *)
Theorem splitLine_Ok (m : model) (line : list rune) :
  0 <= cursorY m -> content m !! Z.to_nat (cursorY m) = Some line ->
  0 <= cursorX m <= len line -> cursorY m < GoInt.intMax ->
  exists m',
    splitLine m = Ok m' /\ checkpointed m m' /\
    content m' =
      take (Z.to_nat (cursorY m)) (content m) ++
      [take (Z.to_nat (cursorX m)) line; drop (Z.to_nat (cursorX m)) line] ++
      drop (S (Z.to_nat (cursorY m))) (content m) /\
    cursorX m' = 0 /\ cursorY m' = cursorY m + 1.
Proof.
  intros Hy Hl Hx Hb.
  destruct (in_buffer m line Hy Hl) as [Hr Hidx].
  assert (Hadd : GoInt.add (cursorY m) 1 = cursorY m + 1).
  { apply add_id. unfold GoInt.intMin, GoInt.intMax in *. lia. }
  unfold splitLine. cbv zeta. fields.
  rewrite Hidx. fields.
  rewrite sliceFrom_Ok, sliceTo_Ok by done. fields.
  rewrite assign_Ok by done. fields. rewrite Hadd.
  rewrite sliceTo_Ok, sliceFrom_Ok
    by (unfold len in *; rewrite length_insert; lia). fields.
  eexists. split; [reflexivity|]. split; [by split|]. fields.
  split; [|done].
  replace (Z.to_nat (cursorY m + 1)) with (S (Z.to_nat (cursorY m))) by lia.
  rewrite drop_insert_lt by lia.
  erewrite take_S_r; [|apply list_lookup_insert_eq; unfold len in Hr; lia].
  rewrite take_insert_ge by lia. by rewrite <- app_assoc.
Qed.

(** Paste: one checkpoint, the register as a new line below the cursor
    row, the cursor on it. *)
Theorem pasteLine_Ok (m : model) :
  0 <= cursorY m < len (content m) -> cursorY m < GoInt.intMax ->
  clipboard m <> "" ->
  exists m',
    pasteLine m = Ok m' /\ checkpointed m m' /\
    content m' =
      take (S (Z.to_nat (cursorY m))) (content m) ++
      [Utf8.runes (clipboard m)] ++
      drop (S (Z.to_nat (cursorY m))) (content m) /\
    cursorX m' = cursorX m /\ cursorY m' = cursorY m + 1.
Proof.
  intros Hy Hb Hc.
  assert (Hadd : GoInt.add (cursorY m) 1 = cursorY m + 1).
  { apply add_id. unfold GoInt.intMin, GoInt.intMax in *. lia. }
  destruct (index_in_range (content m) (cursorY m) Hy) as (line & _ & Hl).
  unfold pasteLine. rewrite decide_True by done. cbv zeta. fields.
  rewrite Hadd. rewrite sliceTo_Ok, sliceFrom_Ok by lia. fields.
  replace (Z.to_nat (cursorY m + 1)) with (S (Z.to_nat (cursorY m))) by lia.
  assert (Htake : length (take (S (Z.to_nat (cursorY m))) (content m))
                  = S (Z.to_nat (cursorY m))).
  { apply length_take_le. unfold len in Hy. lia. }
  rewrite assign_Ok.
  2:{ unfold len in *. rewrite length_app, Htake, length_drop. lia. }
  fields. eexists. split; [reflexivity|]. split; [by split|]. fields.
  split; [|done].
  replace (Z.to_nat (cursorY m + 1)) with (S (Z.to_nat (cursorY m)) + 0)%nat by lia.
  rewrite <- Htake at 1. rewrite insert_app_r.
  rewrite (drop_S _ line) by done. done.
Qed.

(** ** The edit actions that history misses *)

(** C1 (undo after any single edit restores the pre-edit buffer and
    cursor).  The editor opened on the text "ab", cursor moved to the end
    of the line, Insert mode: backspace removes the "b" and moves the
    cursor from column 2 to column 1; the undo called immediately
    afterwards finds the undo stack empty, reports "Nothing to undo" and
    leaves buffer "a" and column 1 in place instead of restoring "ab" and
    column 2. *)
Theorem C1_undo_after_backspace_restores_nothing :
  exists m e u,
    run [key "$"; key "i"] (opened "ab") = Ok m /\
    map Utf8.stringOf (content m) = ["ab"] /\ cursorX m = 2 /\ cursorY m = 0 /\
    perform CharDeleteLeft m = Ok (e, CmdNil) /\
    map Utf8.stringOf (content e) = ["a"] /\ cursorX e = 1 /\ cursorY e = 0 /\
    undo e = Ok u /\
    statusMsg u = "Nothing to undo" /\
    document u = document e /\ document u <> document m.
Proof.
  do 3 eexists.
  split; [ev|]. split; [ev|]. split; [ev|]. split; [ev|].
  split; [ev|]. split; [ev|]. split; [ev|]. split; [ev|].
  split; [ev|]. split; [ev|]. split; [ev|].
  vm_compute. discriminate.
Qed.

(** C2 (every discrete edit action pushes exactly one checkpoint before
    the edit).  Five inputs, one for each edit action whose handler has
    no call of [saveAction]: the action changes the buffer and the undo
    stack is as empty afterwards as it was before.  In order: delete the
    character under the cursor, delete the character left of the cursor,
    join a line with the previous one, expand a tab, delete a line. *)
Theorem C2_edits_without_checkpoint :
  (exists m', perform CharDelete (opened "ab") = Ok (m', CmdNil) /\
     map Utf8.stringOf (content m') = ["b"] /\ undoStack m' = []) /\
  (exists m m', run [key "$"; key "i"] (opened "ab") = Ok m /\
     perform CharDeleteLeft m = Ok (m', CmdNil) /\
     map Utf8.stringOf (content m') = ["a"] /\ undoStack m' = []) /\
  (exists m m', run [key "j"; key "i"] (opened ("a" +:+ newline +:+ "b")) = Ok m /\
     perform LineJoin m = Ok (m', CmdNil) /\
     map Utf8.stringOf (content m') = ["ab"] /\ undoStack m' = []) /\
  (exists m m', run [key "i"] (opened "ab") = Ok m /\
     perform TabExpansion m = Ok (m', CmdNil) /\
     map Utf8.stringOf (content m') = ["    ab"] /\ undoStack m' = []) /\
  (exists m', perform LineDelete (opened ("a" +:+ newline +:+ "b")) = Ok (m', CmdNil) /\
     map Utf8.stringOf (content m') = ["b"] /\ undoStack m' = []).
Proof.
  split; [eexists; split; [ev|]; split; ev|].
  split; [do 2 eexists; split; [ev|]; split; [ev|]; split; ev|].
  split; [do 2 eexists; split; [ev|]; split; [ev|]; split; ev|].
  split; [do 2 eexists; split; [ev|]; split; [ev|]; split; ev|].
  eexists; split; [ev|]; split; ev.
Qed.

(** C4 (an edit after an undo clears the redo stack).  The editor opened
    on "bc": type "a" in Insert mode, leave Insert mode, undo; then the
    edit "delete the character under the cursor" turns "bc" into "c" and
    leaves the redo stack holding one entry, so the redo that follows
    reports "Redo performed" and brings back "abc". *)
Theorem C4_delete_after_undo_keeps_redo_stack :
  exists m1 m2 m3,
    run [key "i"; char 97; key "esc"; key "u"] (opened "bc") = Ok m1 /\
    map Utf8.stringOf (content m1) = ["bc"] /\ len (redoStack m1) = 1 /\
    perform CharDelete m1 = Ok (m2, CmdNil) /\
    map Utf8.stringOf (content m2) = ["c"] /\ len (redoStack m2) = 1 /\
    redo m2 = Ok m3 /\
    statusMsg m3 = "Redo performed" /\
    map Utf8.stringOf (content m3) = ["abc"].
Proof.
  do 3 eexists.
  split; [ev|]. split; [ev|]. split; [ev|]. split; [ev|].
  split; [ev|]. split; [ev|]. split; [ev|]. split; ev.
Qed.

(** ** The cursor *)

Lemma cursor_ok_adjustOffset (m : model) :
  cursor_ok m -> cursor_ok (adjustOffset m).
Proof.
  unfold cursor_ok.
  destruct (adjustOffset_keeps m) as (-> & -> & -> & _). done.
Qed.

(** [moveCursor] ends with the cursor on a row of the buffer and within
    that row, whatever the deltas and wherever the cursor was, as long as
    the buffer has a line. *)
Theorem moveCursor_cursor_ok (dx dy : Z) (m : model) :
  content m <> [] ->
  exists m', moveCursor dx dy m = Ok m' /\ cursor_ok m' /\ content m' = content m.
Proof.
  intros Hne. unfold moveCursor. cbv zeta. fields.
  assert (Hlen : 0 < len (content m)).
  { unfold len. destruct (content m); [done|]. simpl. lia. }
  set (x := GoInt.add (cursorX m) dx). set (y := GoInt.add (cursorY m) dy).
  match goal with |- context [cursorX ?t < 0] => set (m1 := t) end.
  assert (H1 : content m1 = content m /\ 0 <= cursorY m1 < len (content m)).
  { subst m1. repeat case_decide; fields; (split; [done|lia]). }
  clearbody m1. destruct H1 as (Hc & Hy). rewrite <- Hc in Hy.
  destruct (index_in_range (content m1) (cursorY m1) Hy) as (line & Hidx & Hlook).
  pose proof (len_nonneg line) as Hline.
  assert (Hfin : forall m2, content m2 = content m1 -> cursorY m2 = cursorY m1 ->
                   0 <= cursorX m2 <= len line ->
                   cursor_ok (adjustOffset m2) /\ content (adjustOffset m2) = content m).
  { intros m2 H2c H2y H2x.
    destruct (adjustOffset_keeps m2) as (Hac & _).
    split; [|congruence].
    apply cursor_ok_adjustOffset. unfold cursor_ok. rewrite H2c, H2y.
    split; [done|]. by exists line. }
  case_decide as Hx.
  - eexists. fields. split; [reflexivity|]. apply Hfin; fields; [done|done|lia].
  - rewrite Hidx. fields. case_decide as Hx'.
    + eexists. split; [reflexivity|]. apply Hfin; fields; [done|done|lia].
    + eexists. split; [reflexivity|]. apply Hfin; [done|done|lia].
Qed.

(** C3 (after every operation the cursor is on a row of the buffer and
    within its line).  The editor opened on an empty first line followed
    by "abc": "j" and "$" put the cursor at row 1, column 3; the
    jump-to-top key "g" sets the row to 0 and keeps column 3, on a line of
    length 0.  Typing a character in that state panics. *)
Theorem C3_jump_to_top_keeps_column :
  exists m m',
    run [key "j"; key "$"] (opened (newline +:+ "abc")) = Ok m /\
    cursor_ok m /\
    Update disk (key "g") m = Ok (m', CmdNil) /\
    map Utf8.stringOf (content m') = [""; "abc"] /\
    cursorY m' = 0 /\ cursorX m' = 3 /\ ~ cursor_ok m' /\
    run [key "i"; char 97] m' = Panic SliceBoundsOutOfRange.
Proof.
  do 2 eexists.
  split; [ev|].
  split.
  { split; [vm_compute; split; [intros [=]|reflexivity]|].
    eexists. split; [ev|]. vm_compute. split; intros [=]. }
  split; [ev|]. split; [ev|]. split; [ev|]. split; [ev|].
  split; [|ev].
  intros (_ & line & Hl & Hx). vm_compute in Hl. injection Hl as <-.
  vm_compute in Hx. destruct Hx as [_ Hx]. by apply Hx.
Qed.

(** ** The tab key *)

(** C10, counterexample.  Tab size 4, cursor at column 1 of "ab" in
    Insert mode: the next tab stop is column 4, three spaces away; the tab
    key inserts four spaces and leaves the cursor at column 5, which is
    no multiple of the tab size, and the undo stack is as empty as
    before. *)
Lemma C10_tab_from_column_1 :
  exists m m',
    run [key "l"; key "i"] (opened "ab") = Ok m /\
    cursorX m = 1 /\ tabSize m = 4 /\ undoStack m = [] /\
    Update disk (key "tab") m = Ok (m', CmdNil) /\
    map Utf8.stringOf (content m') = ["a    b"] /\
    cursorX m' = 5 /\ cursorX m' mod tabSize m' = 1 /\ undoStack m' = [].
Proof.
  do 2 eexists.
  split; [ev|]. split; [ev|]. split; [ev|]. split; [ev|].
  split; [ev|]. split; [ev|]. split; [ev|]. split; ev.
Qed.

(** C10, as amended: in Insert mode, with the cursor within its line, the
    tab key inserts exactly [tabSize] space characters at the cursor and
    advances the cursor column by [tabSize]; the rest of the line, the
    other lines and the cursor row stay. *)
Theorem C10_tab_inserts_tabSize_spaces (m : model) (line : list rune) :
  0 <= cursorY m -> content m !! Z.to_nat (cursorY m) = Some line ->
  0 <= cursorX m <= len line ->
  0 <= tabSize m -> cursorX m + tabSize m <= GoInt.intMax ->
  exists m',
    handleInsertMode "tab" [] m = Ok (m', CmdNil) /\
    content m' =
      <[Z.to_nat (cursorY m) :=
          take (Z.to_nat (cursorX m)) line ++
          replicate (Z.to_nat (tabSize m)) 32 ++
          drop (Z.to_nat (cursorX m)) line]> (content m) /\
    cursorX m' = cursorX m + tabSize m /\
    cursorY m' = cursorY m.
Proof.
  intros Hy Hl Hx Ht Hb.
  unfold handleInsertMode, insertTab.
  rewrite !decide_False by discriminate. rewrite decide_True by done.
  rewrite (times_insertRune _ _ m line) by (try done; lia). fields.
  eexists. split; [reflexivity|].
  match goal with
  | |- content (adjustOffset ?x) = _ /\ _ =>
    destruct (adjustOffset_keeps x) as (-> & -> & -> & _)
  end.
  fields. split; [done|]. split; [lia|done].
Qed.

Lemma C10_tab_witness :
  exists m',
    handleInsertMode "tab" [] (with_mode insertMode (with_cursorX 1 (opened "ab")))
      = Ok (m', CmdNil) /\
    content m' = [[97; 32; 32; 32; 32; 98]] /\ cursorX m' = 5 /\ cursorY m' = 0.
Proof.
  destruct (C10_tab_inserts_tabSize_spaces
              (with_mode insertMode (with_cursorX 1 (opened "ab"))) [97; 98])
    as (m' & H1 & H2 & H3 & H4).
  - vm_compute. intros [=].
  - vm_compute. reflexivity.
  - vm_compute. split; intros [=].
  - vm_compute. intros [=].
  - vm_compute. intros [=].
  - exists m'. split; [exact H1|]. split; [exact H2|]. split; [exact H3|exact H4].
Defined.

(** ** Deleting a line *)

(** On the last row, and on any row past it, the delete-line command does
    nothing, however many lines the buffer has. *)
Theorem deleteLine_last_row (m : model) :
  cursorY m >= len (content m) - 1 -> deleteLine m = Ok m.
Proof. intros H. unfold deleteLine. by rewrite decide_False by lia. Qed.

(** On a row above the last one it copies the line to the register and
    removes it; the cursor row stays, and is a row of the new buffer. *)
Theorem deleteLine_above_last_row (m : model) (line : list rune) :
  0 <= cursorY m < len (content m) - 1 -> cursorY m < GoInt.intMax ->
  content m !! Z.to_nat (cursorY m) = Some line ->
  deleteLine m =
    Ok (with_modified true
          (with_content (delete (Z.to_nat (cursorY m)) (content m))
             (with_clipboard (Utf8.stringOf line) m))) /\
  0 <= cursorY m < len (delete (Z.to_nat (cursorY m)) (content m)).
Proof.
  intros Hy Hb Hl.
  assert (Hadd : GoInt.add (cursorY m) 1 = cursorY m + 1).
  { apply add_id. unfold GoInt.intMin, GoInt.intMax in *. lia. }
  assert (Hlen : len (delete (Z.to_nat (cursorY m)) (content m)) = len (content m) - 1).
  { unfold len in *. rewrite length_delete by (by eexists). lia. }
  split; [|lia].
  unfold deleteLine. rewrite decide_True by lia. cbv zeta. fields.
  rewrite (proj2 (index_Ok _ _ _) (conj (proj1 Hy) Hl)). fields.
  rewrite Hadd, sliceTo_Ok, sliceFrom_Ok by lia. fields.
  replace (Z.to_nat (cursorY m + 1)) with (S (Z.to_nat (cursorY m))) by lia.
  rewrite <- delete_take_drop. rewrite decide_False by lia. done.
Qed.

(** The delete-line command never empties the buffer. *)
Theorem deleteLine_keeps_a_line (m m' : model) :
  content m <> [] -> deleteLine m = Ok m' -> content m' <> [].
Proof.
  intros Hne. unfold deleteLine. case_decide as Hy; [|by intros [= <-]].
  intros H. do 3 step H. fields.
  apply index_Ok in E as [Hy0 Hl].
  apply sliceTo_inv in E0 as [Ha ->]. apply sliceFrom_inv in E1 as [Hb ->].
  assert (Hpos : (0 < length (take (Z.to_nat (cursorY m)) (content m) ++
                             drop (Z.to_nat (GoInt.add (cursorY m) 1)) (content m)))%nat).
  { rewrite length_app, length_take, length_drop. unfold len in *.
    destruct (decide (cursorY m = 0)) as [Hz|Hz]; [|lia].
    rewrite Hz in *. change (GoInt.add 0 1) with 1 in *. lia. }
  injection H as <-.
  case_decide; fields; intros Hnil; rewrite Hnil in Hpos; simpl in Hpos; lia.
Qed.

(** C7 (delete-line removes the current line of every buffer with more
    than one line).  The editor opened on the two lines "a" and "b", the
    cursor moved down to row 1: the delete-line key changes nothing; both
    lines stay and the register stays empty. *)
Theorem C7_delete_line_ignored_on_last_row :
  exists m m',
    run [key "j"] (opened ("a" +:+ newline +:+ "b")) = Ok m /\
    map Utf8.stringOf (content m) = ["a"; "b"] /\ cursorY m = 1 /\
    Update disk (key "d") m = Ok (m', CmdNil) /\
    map Utf8.stringOf (content m') = ["a"; "b"] /\
    clipboard m' = "" /\ m' = m.
Proof.
  do 2 eexists.
  split; [ev|]. split; [ev|]. split; [ev|]. split; [ev|].
  split; [ev|]. split; ev.
Qed.

(** ** Substring search *)

Lemma indexOf_empty (s : string) : GoStrings.indexOf "" s = Some 0%nat.
Proof. by destruct s. Qed.

Lemma indexOf_None (t s : string) :
  GoStrings.indexOf t s = None ->
  String.prefix t s = false /\
  forall c s', s = String c s' -> GoStrings.indexOf t s' = None.
Proof.
  destruct s as [|c s]; cbn [GoStrings.indexOf].
  - destruct (String.prefix t "") eqn:E; [discriminate|]. intros _. split; [done|].
    intros c s H. discriminate H.
  - destruct (String.prefix t (String c s)) eqn:E; [discriminate|].
    intros H. split; [done|]. intros c' s' [= _ <-].
    by destruct (GoStrings.indexOf t s).
Qed.

Lemma sdrop_nil (j : nat) : sdrop j "" = "".
Proof. by destruct j. Qed.

(** [strings.Index] returns the first offset at which the term starts. *)
Lemma indexOf_Some (t s : string) (x : nat) :
  GoStrings.indexOf t s = Some x ->
  String.prefix t (sdrop x s) = true /\
  (x <= String.length s)%nat /\
  forall j, (j < x)%nat -> String.prefix t (sdrop j s) = false.
Proof.
  revert x. induction s as [|c s IH]; intros x; cbn [GoStrings.indexOf].
  - destruct (String.prefix t "") eqn:E; [|discriminate].
    intros [= <-]. split; [done|]. split; [done|]. lia.
  - destruct (String.prefix t (String c s)) eqn:E.
    + intros [= <-]. split; [done|]. split; [simpl; lia|]. lia.
    + destruct (GoStrings.indexOf t s) as [x'|]; [|discriminate].
      intros [= <-]. destruct (IH x' eq_refl) as (Hp & Hb & Hm).
      split; [done|]. split; [simpl; lia|].
      intros [|j] Hj; [done|]. apply Hm. lia.
Qed.

Lemma indexOf_None_all (t s : string) :
  GoStrings.indexOf t s = None -> forall j, String.prefix t (sdrop j s) = false.
Proof.
  induction s as [|c s IH]; intros H j.
  - rewrite sdrop_nil. by destruct (indexOf_None _ _ H).
  - destruct (indexOf_None _ _ H) as [Hp Ht].
    destruct j as [|j]; [done|]. apply IH. by apply (Ht c).
Qed.


(** ** Search *)

(** With the cursor on the last column position of its line (just after
    the last character, or on an empty line) findNext panics, whatever
    the search term and the rest of the buffer. *)
Theorem findNext_panics_at_line_end (m : model) (line : list rune) :
  0 <= cursorY m -> content m !! Z.to_nat (cursorY m) = Some line ->
  cursorX m = len line -> cursorX m < GoInt.intMax ->
  findNext m = Panic SliceBoundsOutOfRange.
Proof.
  intros Hy Hl Hx Hb.
  destruct (in_buffer m line Hy Hl) as [Hr Hidx].
  unfold findNext.
  destruct (Z.to_nat (len (content m) - cursorY m)) as [|n] eqn:En; [lia|].
  cbn [findNextLoop]. rewrite Hidx. fields.
  rewrite add_id by (pose proof (len_nonneg line);
                     unfold GoInt.intMin, GoInt.intMax in *; lia).
  rewrite sliceFrom_out by lia. done.
Qed.

Lemma findNextLoop_returns (m : model) (n : nat) (y startX : Z) :
  0 <= y -> y + Z.of_nat n = len (content m) ->
  (forall line, content m !! Z.to_nat y = Some line -> 0 <= startX <= len line) ->
  returns (findNextLoop n y startX m).
Proof.
  revert y startX. induction n as [|n IH]; intros y startX Hy Hn Hs.
  - eexists. reflexivity.
  - cbn [findNextLoop].
    destruct (index_in_range (content m) y) as (line & Hidx & Hl); [lia|].
    rewrite Hidx. fields. rewrite sliceFrom_Ok by auto. fields.
    case_decide; [by eexists|].
    apply IH; [lia|lia|]. intros l _. pose proof (len_nonneg l). lia.
Qed.

(** With the cursor on a character of its line findNext returns. *)
Theorem findNext_returns (m : model) (line : list rune) :
  0 <= cursorY m -> content m !! Z.to_nat (cursorY m) = Some line ->
  0 <= cursorX m < len line -> cursorX m < GoInt.intMax ->
  returns (findNext m).
Proof.
  intros Hy Hl Hx Hb.
  destruct (in_buffer m line Hy Hl) as [Hr Hidx].
  unfold findNext. apply findNextLoop_returns; [done|lia|].
  intros l Hl'. assert (l = line) as -> by congruence.
  rewrite add_id by (unfold GoInt.intMin, GoInt.intMax in *; lia). lia.
Qed.

(** On ASCII text bytes and characters coincide. *)
Lemma stringOf_cons_ascii (r : rune) (l : list rune) :
  ascii_rune r -> Utf8.stringOf (r :: l) = String (Zbyte r) (Utf8.stringOf l).
Proof.
  intros H. cbn [Utf8.stringOf]. unfold Utf8.EncodeRune.
  by rewrite decide_True.
Qed.

Lemma sdrop_stringOf (l : list rune) (j : nat) :
  Forall ascii_rune l -> sdrop j (Utf8.stringOf l) = Utf8.stringOf (drop j l).
Proof.
  intros H. revert j. induction H as [|r l Hr Hl IH]; intros j.
  - by destruct j.
  - destruct j as [|j]; [done|].
    rewrite stringOf_cons_ascii by done. cbn [sdrop drop]. apply IH.
Qed.

(** The loop of findNext, row by row: it stops in the first row whose
    searched part contains the term. *)
Lemma findNextLoop_hit (m : model) (n : nat) (y startX Y : Z)
    (lineY : list rune) (x : nat) :
  0 <= y <= Y -> y + Z.of_nat n = len (content m) ->
  content m !! Z.to_nat Y = Some lineY ->
  (forall l, content m !! Z.to_nat y = Some l -> 0 <= startX <= len l) ->
  (forall j l, y <= j < Y -> content m !! Z.to_nat j = Some l ->
               hit m (if decide (j = y) then startX else 0) l = None) ->
  hit m (if decide (Y = y) then startX else 0) lineY = Some x ->
  findNextLoop n y startX m =
  Ok (adjustOffset
        (with_cursorX (GoInt.add (if decide (Y = y) then startX else 0) (Z.of_nat x))
           (with_cursorY Y m))).
Proof.
  revert y startX. induction n as [|n IH]; intros y startX Hy Hn HY Hs Hmiss Hhit.
  - apply lookup_lt_Some in HY. unfold len in Hn. lia.
  - cbn [findNextLoop].
    destruct (index_in_range (content m) y) as (l & Hidx & Hl); [lia|].
    rewrite Hidx. fields. rewrite sliceFrom_Ok by auto. fields.
    unfold GoStrings.Index.
    destruct (decide (Y = y)) as [->|Hne].
    + assert (l = lineY) as -> by congruence.
      unfold hit in Hhit. rewrite Hhit. rewrite decide_True by lia. done.
    + pose proof (Hmiss y l) as Hm. rewrite decide_True in Hm by done.
      unfold hit in Hm. rewrite Hm by (done || lia).
      rewrite decide_False by (intros Hn'; by apply Hn').
      rewrite (IH (y + 1) 0); [|lia|lia|done| | |].
      * by destruct (decide (Y = y + 1)).
      * intros l' _. pose proof (len_nonneg l'). lia.
      * intros j l' Hj Hl'. specialize (Hmiss j l').
        rewrite decide_False in Hmiss by lia.
        destruct (decide (j = y + 1)); apply Hmiss; (lia || done).
      * by destruct (decide (Y = y + 1)).
Qed.

Lemma findNextLoop_miss (m : model) (n : nat) (y startX : Z) :
  0 <= y -> y + Z.of_nat n = len (content m) ->
  (forall l, content m !! Z.to_nat y = Some l -> 0 <= startX <= len l) ->
  (forall j l, y <= j -> content m !! Z.to_nat j = Some l ->
               hit m (if decide (j = y) then startX else 0) l = None) ->
  findNextLoop n y startX m =
  Ok (with_statusMsg ("Pattern not found: " +:+ searchTerm m) m).
Proof.
  revert y startX. induction n as [|n IH]; intros y startX Hy Hn Hs Hmiss; [done|].
  cbn [findNextLoop].
  destruct (index_in_range (content m) y) as (l & Hidx & Hl); [lia|].
  rewrite Hidx. fields. rewrite sliceFrom_Ok by auto. fields.
  unfold GoStrings.Index.
  pose proof (Hmiss y l) as Hm. rewrite decide_True in Hm by done.
  unfold hit in Hm. rewrite Hm by (done || lia).
  rewrite decide_False by (intros Hn'; by apply Hn').
  apply IH; [lia|lia| |].
  - intros l' _. pose proof (len_nonneg l'). lia.
  - intros j l' Hj Hl'. specialize (Hmiss j l').
    rewrite decide_False in Hmiss by lia.
    destruct (decide (j = y + 1)); apply Hmiss; (lia || done).
Qed.

Lemma length_stringOf (l : list rune) :
  Forall ascii_rune l -> String.length (Utf8.stringOf l) = length l.
Proof.
  induction 1 as [|r l Hr Hl IH]; [done|].
  rewrite stringOf_cons_ascii by done. simpl. by rewrite IH.
Qed.

(** In a row of ASCII text searched from column [s], a result [x] of
    [strings.Index] is the distance to the first column from [s] on at
    which the term occurs. *)
Lemma hit_Some (m : model) (s : Z) (l : list rune) (x : nat) :
  Forall ascii_rune l -> 0 <= s <= len l -> hit m s l = Some x ->
  s + Z.of_nat x <= len l /\
  String.prefix (searchTerm m)
    (Utf8.stringOf (drop (Z.to_nat (s + Z.of_nat x)) l)) = true /\
  forall k, s <= k < s + Z.of_nat x ->
    String.prefix (searchTerm m) (Utf8.stringOf (drop (Z.to_nat k) l)) = false.
Proof.
  intros Ha Hs H. unfold hit in H.
  assert (Had : Forall ascii_rune (drop (Z.to_nat s) l)) by by apply Forall_drop.
  destruct (indexOf_Some _ _ _ H) as (Hp & Hb & Hm).
  rewrite length_stringOf, length_drop in Hb by done.
  rewrite sdrop_stringOf, drop_drop in Hp by done.
  unfold len in *. split; [lia|]. split.
  - by replace (Z.to_nat (s + Z.of_nat x)) with (Z.to_nat s + x)%nat by lia.
  - intros k Hk. specialize (Hm (Z.to_nat (k - s))).
    rewrite sdrop_stringOf, drop_drop in Hm by done.
    replace (Z.to_nat s + Z.to_nat (k - s))%nat with (Z.to_nat k) in Hm by lia.
    apply Hm. lia.
Qed.

Lemma hit_None (m : model) (s : Z) (l : list rune) :
  Forall ascii_rune l -> 0 <= s -> hit m s l = None ->
  forall k, s <= k ->
    String.prefix (searchTerm m) (Utf8.stringOf (drop (Z.to_nat k) l)) = false.
Proof.
  intros Ha Hs H k Hk. unfold hit in H.
  assert (Had : Forall ascii_rune (drop (Z.to_nat s) l)) by by apply Forall_drop.
  pose proof (indexOf_None_all _ _ H (Z.to_nat (k - s))) as Hm.
  rewrite sdrop_stringOf, drop_drop in Hm by done.
  by replace (Z.to_nat s + Z.to_nat (k - s))%nat with (Z.to_nat k) in Hm by lia.
Qed.

Lemma hit_at_most (m : model) (s k : Z) (l : list rune) :
  Forall ascii_rune l -> 0 <= s <= k ->
  String.prefix (searchTerm m) (Utf8.stringOf (drop (Z.to_nat k) l)) = true ->
  exists x, hit m s l = Some x /\ s + Z.of_nat x <= k.
Proof.
  intros Ha Hs Hk. destruct (hit m s l) as [x|] eqn:E.
  - exists x. split; [done|].
    destruct (decide (s + Z.of_nat x <= k)) as [|Hgt]; [done|].
    assert (Hone : (Z.to_nat (k - s) < x)%nat) by lia.
    unfold hit in E. destruct (indexOf_Some _ _ _ E) as (_ & _ & Hm).
    specialize (Hm _ Hone).
    rewrite sdrop_stringOf, drop_drop in Hm by by apply Forall_drop.
    replace (Z.to_nat s + Z.to_nat (k - s))%nat with (Z.to_nat k) in Hm by lia.
    congruence.
  - rewrite (hit_None m s l Ha (proj1 Hs) E k) in Hk by lia. discriminate.
Qed.

Lemma ascii_row (m : model) (j : Z) (l : list rune) :
  ascii_text (content m) -> content m !! Z.to_nat j = Some l -> Forall ascii_rune l.
Proof.
  intros Ha Hl. unfold ascii_text in Ha.
  rewrite Forall_lookup in Ha. by apply (Ha _ _ Hl).
Qed.

(** On ASCII text, from a cursor on a character of its line, findNext
    lands on the first position after the cursor, in reading order, at
    which the search term occurs; the buffer and the status stay. *)
Theorem findNext_first_match (m : model) (line : list rune) (y c : Z) :
  ascii_text (content m) ->
  0 <= cursorY m -> content m !! Z.to_nat (cursorY m) = Some line ->
  0 <= cursorX m < len line -> cursorX m < GoInt.intMax -> c <= GoInt.intMax ->
  ahead m y c -> occurs_at m y c ->
  (forall y' c', ahead m y' c' -> occurs_at m y' c' -> ~ before y' c' y c) ->
  findNext m = Ok (adjustOffset (with_cursorX c (with_cursorY y m))).
Proof.
  intros Ha Hy Hl Hx Hxb Hc Hahead (lineY & Hy0 & HlY & HcY & Hocc) Hmin.
  destruct (in_buffer m line Hy Hl) as [Hr _].
  assert (Hadd : GoInt.add (cursorX m) 1 = cursorX m + 1).
  { apply add_id. unfold GoInt.intMin, GoInt.intMax in *. lia. }
  unfold findNext. rewrite Hadd.
  set (s := fun j : Z => if decide (j = cursorY m) then cursorX m + 1 else 0).
  assert (Hs : forall j l, cursorY m <= j -> content m !! Z.to_nat j = Some l ->
                           0 <= s j <= len l).
  { intros j l Hj Hjl. subst s. simpl. case_decide as Hd.
    - subst j. assert (l = line) as -> by congruence. lia.
    - pose proof (len_nonneg l). lia. }
  assert (Hyy : cursorY m <= y) by (destruct Hahead as [[-> _]|?]; lia).
  assert (Hsc : s y <= c).
  { subst s. simpl. case_decide; [destruct Hahead as [[_ ?]|?]; lia|lia]. }
  destruct (hit_at_most m (s y) c lineY) as (x & Hhit & Hle);
    [by eapply ascii_row|pose proof (Hs y lineY Hyy HlY); lia|done|].
  assert (Hx' : s y + Z.of_nat x = c).
  { destruct (decide (s y + Z.of_nat x = c)) as [|Hne]; [done|]. exfalso.
    destruct (hit_Some m (s y) lineY x) as (Hb & Hp & _);
      [by eapply ascii_row|by apply Hs|done|].
    apply (Hmin y (s y + Z.of_nat x)).
    - subst s. simpl in *. case_decide; [left; lia|right; lia].
    - exists lineY. pose proof (Hs y lineY Hyy HlY). repeat split; try done; lia.
    - right. lia. }
  rewrite (findNextLoop_hit m _ (cursorY m) (cursorX m + 1) y lineY x);
    [|lia|lia|done| | |].
  - fold (s y). rewrite add_id by (unfold GoInt.intMin, GoInt.intMax in *; lia).
    by rewrite Hx'.
  - intros l Hl'. assert (l = line) as -> by congruence. lia.
  - intros j l Hj Hjl. fold (s j).
    destruct (hit m (s j) l) as [x'|] eqn:E; [exfalso|done].
    destruct (hit_Some m (s j) l x') as (Hb & Hp & _);
      [by eapply ascii_row|apply Hs; [lia|done]|done|].
    apply (Hmin j (s j + Z.of_nat x')).
    + subst s. simpl in *. case_decide; [left; lia|right; lia].
    + exists l. pose proof (Hs j l (proj1 Hj) Hjl). repeat split; try done; lia.
    + left. lia.
  - by fold (s y).
Qed.

(** On ASCII text, from a cursor on a character of its line, when the
    search term occurs at no position after the cursor, findNext sets
    the status to "Pattern not found: " followed by the term and changes
    nothing else: it does not wrap to the top. *)
Theorem findNext_not_found (m : model) (line : list rune) :
  ascii_text (content m) ->
  0 <= cursorY m -> content m !! Z.to_nat (cursorY m) = Some line ->
  0 <= cursorX m < len line -> cursorX m < GoInt.intMax ->
  (forall y c, ahead m y c -> ~ occurs_at m y c) ->
  findNext m = Ok (with_statusMsg ("Pattern not found: " +:+ searchTerm m) m).
Proof.
  intros Ha Hy Hl Hx Hb Hnone.
  destruct (in_buffer m line Hy Hl) as [Hr _].
  assert (Hadd : GoInt.add (cursorX m) 1 = cursorX m + 1).
  { apply add_id. unfold GoInt.intMin, GoInt.intMax in *. lia. }
  unfold findNext. rewrite Hadd.
  apply findNextLoop_miss; [done|lia| |].
  - intros l Hl'. assert (l = line) as -> by congruence. lia.
  - intros j l Hj Hjl.
    set (s := if decide (j = cursorY m) then cursorX m + 1 else 0).
    assert (Hs : 0 <= s <= len l).
    { subst s. case_decide as Hd.
      - subst j. assert (l = line) as -> by congruence. lia.
      - pose proof (len_nonneg l). lia. }
    destruct (hit m s l) as [x|] eqn:E; [exfalso|done].
    destruct (hit_Some m s l x) as (Hbound & Hp & _); [by eapply ascii_row|done|done|].
    apply (Hnone j (s + Z.of_nat x)).
    + subst s. case_decide; [left; lia|right; lia].
    + exists l. repeat split; try done; lia.
Qed.

(** C6 (findNext is total on every reachable state).  On the editor
    opened on "abc", after the end-of-line key "$" the cursor column is 3,
    the length of the line; the repeat-search key "n" then slices the
    line from column 4 and panics.  The same happens at the very start of
    a blank session, where the only line is empty and the column is 0. *)
Theorem C6_findNext_panics_at_end_of_line :
  (exists m, run [key "$"] (opened "abc") = Ok m /\
     cursor_ok m /\ cursorX m = 3 /\
     Update disk (key "n") m = Panic SliceBoundsOutOfRange) /\
  cursor_ok blank /\
  Update disk (key "n") blank = Panic SliceBoundsOutOfRange.
Proof.
  assert (Hb : cursor_ok blank).
  { split; [vm_compute; split; [intros [=]|reflexivity]|].
    eexists. split; [ev|]. vm_compute. split; intros [=]. }
  split; [|split; [exact Hb|ev]].
  eexists. split; [ev|].
  split; [|split; ev].
  split; [vm_compute; split; [intros [=]|reflexivity]|].
  eexists. split; [ev|]. vm_compute. split; intros [=].
Qed.

(** C5 (findNext lands on the first substring match).  The scenario of
    the claim holds: on "hello world" / "world peace" the search for
    "world" from (0,0) lands at (0,6), then (1,0), then reports that the
    pattern is not found.  The column, though, is the start column plus
    the byte offset that [strings.Index] returns in the UTF-8 text of the
    rest of the line: on the line "xéa" (runes 120, 233, 97) the search
    for "a" from (0,0) lands at column 3, where the line has ended, while
    the "a" is at column 2. *)
Theorem C5_findNext_column_is_a_byte_offset :
  (exists m1 m2 m3,
     run [key "/"; char 119; char 111; char 114; char 108; char 100; key "enter"]
       (opened ("hello world" +:+ newline +:+ "world peace")) = Ok m1 /\
     (cursorY m1, cursorX m1) = (0, 6) /\
     Update disk (key "n") m1 = Ok (m2, CmdNil) /\
     (cursorY m2, cursorX m2) = (1, 0) /\
     Update disk (key "n") m2 = Ok (m3, CmdNil) /\
     (cursorY m3, cursorX m3) = (1, 0) /\
     statusMsg m3 = "Pattern not found: world") /\
  (exists m,
     content (opened (Utf8.stringOf [120; 233; 97])) = [[120; 233; 97]] /\
     run [key "/"; char 97; key "enter"] (opened (Utf8.stringOf [120; 233; 97])) = Ok m /\
     searchTerm m = "a" /\
     content m = [[120; 233; 97]] /\
     (cursorY m, cursorX m) = (0, 3) /\
     sliceFrom [120; 233; 97] (cursorX m) = Ok [] /\
     index [120; 233; 97] 2 = Ok 97).
Proof.
  split.
  - do 3 eexists.
    split; [ev|]. split; [ev|]. split; [ev|]. split; [ev|].
    split; [ev|]. split; ev.
  - eexists.
    split; [ev|]. split; [ev|]. split; [ev|]. split; [ev|].
    split; [ev|]. split; ev.
Qed.

(** ** Replace *)

Lemma countFrom_free (t s : string) :
  GoStrings.indexOf t s = None -> forall k, GoStrings.countFrom t k s = 0%nat.
Proof.
  induction s as [|c s IH]; intros H k; [done|].
  destruct (indexOf_None _ _ H) as [Hp Ht].
  specialize (IH (Ht _ _ eq_refl)).
  cbn [GoStrings.countFrom]. destruct k; [|apply IH].
  rewrite Hp. apply IH.
Qed.


(** Where the term does not occur, [strings.Count] is 0 and
    [strings.ReplaceAll] gives the text back. *)
Lemma Count_free (s t : string) :
  GoStrings.indexOf t s = None -> GoStrings.Count s t = 0.
Proof.
  intros H. unfold GoStrings.Count. case_decide as Ht.
  - subst t. by rewrite indexOf_empty in H.
  - by rewrite countFrom_free.
Qed.



Lemma replaceAll_fields (m : model) :
  content (replaceAll m) = (replaceLines (content m) (searchTerm m) (replaceTerm m) 0).1.1 /\
  searchTerm (replaceAll m) = searchTerm m /\
  replaceTerm (replaceAll m) = replaceTerm m /\
  statusMsg (replaceAll m) =
    "Replaced " +:+ itoa (replaceLines (content m) (searchTerm m) (replaceTerm m) 0).1.2
      +:+ " occurrences".
Proof.
  unfold replaceAll.
  destruct (replaceLines (content m) (searchTerm m) (replaceTerm m) 0)
    as [[lines count] changed].
  by destruct changed.
Qed.


Lemma length_sapp (s t : string) :
  String.length (s +:+ t) = (String.length s + String.length t)%nat.
Proof.
  induction s as [|c s IH]; [done|].
  change (String c s +:+ t) with (String c (s +:+ t)). simpl. by rewrite IH.
Qed.

Lemma length_stake_sdrop (j : nat) (s : string) :
  (String.length (stake j s) + String.length (sdrop j s))%nat = String.length s.
Proof.
  revert s. induction j as [|j IH]; intros [|c s]; simpl; try done.
  by rewrite IH.
Qed.

(** With an empty [old], each of the [n] rounds of the loop of
    [strings.Replace] writes [new] once more. *)
Lemma length_replaceLoop_empty (n : nat) (b : bool) (s new : string) :
  String.length (GoStrings.replaceLoop n b s "" new)
  = (String.length s + n * String.length new)%nat.
Proof.
  revert b s. induction n as [|n IH]; intros b s; cbn [GoStrings.replaceLoop].
  - lia.
  - rewrite decide_True by done.
    rewrite !length_sapp, IH. cbn [String.length]. rewrite Nat.add_0_r.
    pose proof (length_stake_sdrop
                  (if b then 0%nat else (Utf8.DecodeRuneInString s).2) s).
    lia.
Qed.

(** [strings.ReplaceAll] with an empty [old] and a non-empty [new] makes
    every text longer. *)
Theorem ReplaceAll_empty_old (s new : string) :
  new <> "" ->
  String.length (GoStrings.ReplaceAll s "" new)
  = (String.length s
     + Z.to_nat (Utf8.RuneCountInString s + 1) * String.length new)%nat /\
  GoStrings.ReplaceAll s "" new <> s.
Proof.
  intros Hnew.
  assert (Hcount : 0 < Utf8.RuneCountInString s + 1).
  { unfold Utf8.RuneCountInString. pose proof (len_nonneg (Utf8.runes s)). lia. }
  assert (Hlen : String.length (GoStrings.ReplaceAll s "" new)
                 = (String.length s
                    + Z.to_nat (Utf8.RuneCountInString s + 1) * String.length new)%nat).
  { unfold GoStrings.ReplaceAll, GoStrings.Count. cbv zeta.
    rewrite (decide_False (P := "" = new)) by congruence.
    rewrite (decide_True (P := "" = "")) by done.
    rewrite decide_False by lia.
    apply length_replaceLoop_empty. }
  split; [done|]. intros Heq. rewrite Heq in Hlen.
  destruct new as [|c new]; [done|]. simpl in Hlen. nia.
Qed.

Lemma replaceLines_empty_term (lines : list (list rune)) (repl : string) (count : Z) :
  repl <> "" -> lines <> [] ->
  (replaceLines lines "" repl count).1.1
    = map (fun l => Utf8.runes (GoStrings.ReplaceAll (Utf8.stringOf l) "" repl)) lines /\
  (replaceLines lines "" repl count).2 = true.
Proof.
  intros Hr. revert count. induction lines as [|l lines IH]; intros count Hne; [done|].
  cbn [replaceLines map].
  rewrite decide_True by (by apply ReplaceAll_empty_old).
  destruct lines as [|l' lines].
  - done.
  - destruct (IH (GoInt.add count (GoStrings.Count (Utf8.stringOf l) ""))) as [Hc _];
      [done|].
    destruct (replaceLines (l' :: lines) "" repl
                (GoInt.add count (GoStrings.Count (Utf8.stringOf l) "")))
      as [[rest' count'] changed'].
    simpl in *. by rewrite Hc.
Qed.

(** With an empty search term and a non-empty replacement, replaceAll
    rewrites every line of the buffer and marks the buffer modified. *)
Theorem replaceAll_empty_term (m : model) :
  searchTerm m = "" -> replaceTerm m <> "" -> content m <> [] ->
  content (replaceAll m)
    = map (fun l => Utf8.runes (GoStrings.ReplaceAll (Utf8.stringOf l) "" (replaceTerm m)))
        (content m) /\
  modified (replaceAll m) = true.
Proof.
  intros Hs Hr Hne. unfold replaceAll. rewrite Hs.
  destruct (replaceLines_empty_term (content m) (replaceTerm m) 0 Hr Hne) as [Hc Hch].
  destruct (replaceLines (content m) "" (replaceTerm m) 0) as [[lines count] changed].
  simpl in Hc, Hch. subst. done.
Qed.






(** ** The embedding on known inputs *)

(** The library functions on the examples of their documentation. *)
Example strings_on_documented_inputs :
  GoStrings.Index "chicken" "ken" = 4 /\
  GoStrings.Index "chicken" "dmr" = -1 /\
  GoStrings.LastIndex "go gopher" "go" = 3 /\
  GoStrings.LastIndex "go gopher" "rodent" = -1 /\
  GoStrings.Count "cheese" "e" = 3 /\
  GoStrings.Count "five" "" = 5 /\
  GoStrings.ReplaceAll "oink oink oink" "k" "ky" = "oinky oinky oinky" /\
  GoStrings.ReplaceAll "oink oink oink" "oink" "moo" = "moo moo moo" /\
  GoStrings.Split "a,b,c" "," = ["a"; "b"; "c"] /\
  GoStrings.Split "a man a plan a canal panama" "a "
    = [""; "man "; "plan "; "canal panama"] /\
  GoStrings.Split " xyz " "" = [" "; "x"; "y"; "z"; " "] /\
  GoStrings.Split "" "Bernardo O'Higgins" = [""] /\
  GoStrings.Repeat "na" 2 = Ok "nana".
Proof. repeat (split; [ev|]). ev. Qed.

(** UTF-8: one to four bytes per character, the replacement character for
    what is not a code point, and decoding as the inverse. *)
Example utf8_on_known_characters :
  Utf8.EncodeRune 0x61 = String (Zbyte 0x61) "" /\
  Utf8.EncodeRune 0xE9 = String (Zbyte 0xC3) (String (Zbyte 0xA9) "") /\
  Utf8.EncodeRune 0x20AC
    = String (Zbyte 0xE2) (String (Zbyte 0x82) (String (Zbyte 0xAC) "")) /\
  Utf8.EncodeRune 0x1F600
    = String (Zbyte 0xF0) (String (Zbyte 0x9F)
        (String (Zbyte 0x98) (String (Zbyte 0x80) ""))) /\
  Utf8.EncodeRune 0xD800 = Utf8.EncodeRune Utf8.RuneError /\
  Utf8.EncodeRune (-1) = Utf8.EncodeRune Utf8.RuneError /\
  Utf8.runes (Utf8.stringOf [0x61; 0xE9; 0x20AC; 0x1F600])
    = [0x61; 0xE9; 0x20AC; 0x1F600] /\
  Utf8.runes (String (Zbyte 0xC3) "a") = [Utf8.RuneError; 0x61].
Proof. repeat (split; [ev|]). ev. Qed.

(** The scenarios of the specification that involve one edit: typing "X"
    at (0,0) of "abc" / "def" and undoing it; replacing "foo" by "baz" in
    "foo bar foo"; backspace at (0,0) of "test". *)
Example scenario_insert_then_undo :
  exists m e u,
    run [key "i"] (opened ("abc" +:+ newline +:+ "def")) = Ok m /\
    perform (CharInsert 88) m = Ok (e, CmdNil) /\
    map Utf8.stringOf (content e) = ["Xabc"; "def"] /\
    (cursorY e, cursorX e) = (0, 1) /\
    undo e = Ok u /\
    map Utf8.stringOf (content u) = ["abc"; "def"] /\
    (cursorY u, cursorX u) = (0, 0).
Proof.
  do 3 eexists.
  split; [ev|]. split; [ev|]. split; [ev|]. split; [ev|].
  split; [ev|]. split; ev.
Qed.

Example scenario_replace_foo :
  map Utf8.stringOf
    (content (replaceAll
       (with_replaceTerm "baz" (with_searchTerm "foo" (opened "foo bar foo")))))
    = ["baz bar baz"] /\
  statusMsg (replaceAll
       (with_replaceTerm "baz" (with_searchTerm "foo" (opened "foo bar foo"))))
    = "Replaced 2 occurrences".
Proof. split; ev. Qed.

Example scenario_backspace_at_origin :
  exists m m',
    run [key "i"] (opened "test") = Ok m /\
    Update disk (key "backspace") m = Ok (m', CmdNil) /\
    m' = m /\ undoStack m' = [].
Proof.
  do 2 eexists. split; [ev|]. split; [ev|]. split; ev.
Qed.

(** The search scenario of the specification through the two theorems
    on findNext: from (0,0) the first occurrence of "world" after the
    cursor is at (0,6); from (1,0) there is none. *)
Example scenario_search_world :
  findNext (with_searchTerm "world" (opened ("hello world" +:+ newline +:+ "world peace")))
  = Ok (adjustOffset
          (with_cursorX 6
             (with_cursorY 0
                (with_searchTerm "world"
                   (opened ("hello world" +:+ newline +:+ "world peace")))))).
Proof.
  apply (findNext_first_match _ (Utf8.runes "hello world")).
  - repeat constructor; vm_compute; intros [=].
  - vm_compute. intros [=].
  - ev.
  - vm_compute. split; [intros [=]|reflexivity].
  - vm_compute. reflexivity.
  - vm_compute. intros [=].
  - left. split; [reflexivity|vm_compute; reflexivity].
  - exists (Utf8.runes "hello world").
    split; [vm_compute; intros [=]|]. split; [ev|].
    split; [vm_compute; split; intros [=]|ev].
  - intros y' c' Hahead (l & Hy' & Hl & Hc' & Hp) [Hlt|[-> Hlt]].
    + destruct Hahead as [[-> _]|Hgt]; [lia|].
      change (cursorY _) with 0 in Hgt. lia.
    + destruct Hahead as [[_ Hgt]|Hgt]; [|change (cursorY _) with 0 in Hgt; lia].
      change (cursorX _) with 0 in Hgt.
      change (content _ !! Z.to_nat 0) with (Some (Utf8.runes "hello world")) in Hl.
      injection Hl as <-.
      assert (Hcases : c' = 1 \/ c' = 2 \/ c' = 3 \/ c' = 4 \/ c' = 5) by lia.
      destruct Hcases as [->|[->|[->|[->| ->]]]]; vm_compute in Hp; discriminate.
Defined.

Example scenario_search_world_exhausted :
  findNext (with_cursorY 1 (with_searchTerm "world"
              (opened ("hello world" +:+ newline +:+ "world peace"))))
  = Ok (with_statusMsg "Pattern not found: world"
          (with_cursorY 1 (with_searchTerm "world"
              (opened ("hello world" +:+ newline +:+ "world peace"))))).
Proof.
  set (m := with_cursorY 1 (with_searchTerm "world"
              (opened ("hello world" +:+ newline +:+ "world peace")))).
  assert (Hrow : content m !! Z.to_nat 1 = Some (Utf8.runes "world peace")) by ev.
  assert (Hlen : len (Utf8.runes "world peace") = 11) by ev.
  assert (Hrows : length (content m) = 2%nat) by ev.
  assert (HY : cursorY m = 1) by ev.
  assert (HX : cursorX m = 0) by ev.
  rewrite (findNext_not_found m (Utf8.runes "world peace")); [ev|..].
  - repeat constructor; vm_compute; intros [=].
  - rewrite HY. lia.
  - by rewrite HY.
  - rewrite HX, Hlen. lia.
  - rewrite HX. vm_compute. reflexivity.
  - intros y c Hahead (l & Hy & Hl & Hc & Hp).
    unfold ahead in Hahead. rewrite HX, HY in Hahead.
    destruct Hahead as [[-> Hgt]|Hgt].
    + rewrite Hrow in Hl. injection Hl as <-. rewrite Hlen in Hc.
      assert (Hcases : c = 1 \/ c = 2 \/ c = 3 \/ c = 4 \/ c = 5 \/ c = 6 \/ c = 7 \/
                       c = 8 \/ c = 9 \/ c = 10 \/ c = 11) by lia.
      repeat (destruct Hcases as [->|Hcases]; [vm_compute in Hp; discriminate|]).
      subst c. vm_compute in Hp. discriminate.
    + apply lookup_lt_Some in Hl. rewrite Hrows in Hl. lia.
Defined.

(** ** The general properties on concrete sessions *)

(** Two typed characters, then two undos and two redos. *)
Lemma undo_redo_round_trip_witness :
  exists u r,
    times 2 undo typed_ab = Ok u /\
    timeline typed_ab !! (position typed_ab - 2)%nat = Some (snapshot u) /\
    times 2 redo u = Ok r /\
    document r = document typed_ab /\
    undoStack r = undoStack typed_ab /\
    redoStack r = redoStack typed_ab.
Proof.
  apply (undo_redo_round_trip 2 typed_ab).
  vm_compute. lia.
Defined.

Lemma undo_redo_after_checkpoint_witness :
  exists u r,
    undo (saveAction (opened "xy")) = Ok u /\ document u = document (opened "xy") /\
    undoStack u = undoStack (opened "xy") /\
    redoStack u = [snapshot (saveAction (opened "xy"))] /\
    redo u = Ok r /\ document r = document (saveAction (opened "xy")) /\
    undoStack r = undoStack (saveAction (opened "xy")) /\ redoStack r = [].
Proof.
  apply (undo_redo_after_checkpoint (opened "xy") (saveAction (opened "xy"))).
  split; vm_compute; reflexivity.
Defined.

Lemma saving_edit_checkpointed_witness :
  checkpointed (after [key "i"] (opened "xy"))
    (after [key "i"; key "enter"] (opened "xy")).
Proof.
  apply (saving_edit_checkpointed NewlineSplit
           (after [key "i"] (opened "xy"))
           (after [key "i"; key "enter"] (opened "xy")) CmdNil).
  - reflexivity.
  - intros H. discriminate H.
  - vm_compute. reflexivity.
Defined.

Lemma unsaved_edit_keeps_stacks_witness :
  undoStack (after [key "i"; char 97; key "backspace"] (opened "xy"))
    = undoStack (after [key "i"; char 97] (opened "xy")) /\
  redoStack (after [key "i"; char 97; key "backspace"] (opened "xy"))
    = redoStack (after [key "i"; char 97] (opened "xy")).
Proof.
  apply (unsaved_edit_keeps_stacks CharDeleteLeft
           (after [key "i"; char 97] (opened "xy"))
           (after [key "i"; char 97; key "backspace"] (opened "xy")) CmdNil).
  - reflexivity.
  - vm_compute. reflexivity.
Defined.

(** A page down past the end of a three-line buffer, from the end of the
    longest line. *)
Lemma moveCursor_cursor_ok_witness :
  exists m',
    moveCursor 0 24 (after [key "$"] (opened ("abcdef" +:+ newline +:+ "gh" +:+ newline +:+ "i")))
      = Ok m' /\
    cursor_ok m' /\
    content m'
      = content (after [key "$"] (opened ("abcdef" +:+ newline +:+ "gh" +:+ newline +:+ "i"))).
Proof.
  apply (moveCursor_cursor_ok 0 24
           (after [key "$"] (opened ("abcdef" +:+ newline +:+ "gh" +:+ newline +:+ "i")))).
  vm_compute. intros H. discriminate H.
Defined.

Lemma findNext_panics_at_line_end_witness :
  findNext (after [key "$"] (opened "abc")) = Panic SliceBoundsOutOfRange.
Proof.
  apply (findNext_panics_at_line_end (after [key "$"] (opened "abc")) [97; 98; 99]).
  - vm_compute. intros H. discriminate H.
  - vm_compute. reflexivity.
  - vm_compute. reflexivity.
  - vm_compute. reflexivity.
Defined.

Lemma findNext_returns_witness :
  returns (findNext (with_searchTerm "zz" (opened "abc"))).
Proof.
  apply (findNext_returns (with_searchTerm "zz" (opened "abc")) [97; 98; 99]).
  - vm_compute. intros H. discriminate H.
  - vm_compute. reflexivity.
  - vm_compute. split; [intros H; discriminate H | reflexivity].
  - vm_compute. reflexivity.
Defined.

Lemma deleteLine_above_last_row_witness :
  deleteLine (opened ("a" +:+ newline +:+ "b"))
  = Ok (with_modified true
          (with_content (delete (Z.to_nat (cursorY (opened ("a" +:+ newline +:+ "b"))))
                           (content (opened ("a" +:+ newline +:+ "b"))))
             (with_clipboard (Utf8.stringOf [97]) (opened ("a" +:+ newline +:+ "b"))))) /\
  0 <= cursorY (opened ("a" +:+ newline +:+ "b"))
    < len (delete (Z.to_nat (cursorY (opened ("a" +:+ newline +:+ "b"))))
             (content (opened ("a" +:+ newline +:+ "b")))).
Proof.
  apply (deleteLine_above_last_row (opened ("a" +:+ newline +:+ "b")) [97]).
  - vm_compute. split; [intros H; discriminate H | reflexivity].
  - vm_compute. reflexivity.
  - vm_compute. reflexivity.
Defined.

Lemma replaceAll_empty_term_witness :
  content (replaceAll (with_replaceTerm "X" (opened "ab")))
    = map (fun l => Utf8.runes (GoStrings.ReplaceAll (Utf8.stringOf l) ""
                                  (replaceTerm (with_replaceTerm "X" (opened "ab")))))
        (content (with_replaceTerm "X" (opened "ab"))) /\
  modified (replaceAll (with_replaceTerm "X" (opened "ab"))) = true.
Proof.
  apply (replaceAll_empty_term (with_replaceTerm "X" (opened "ab"))).
  - vm_compute. reflexivity.
  - vm_compute. intros H. discriminate H.
  - vm_compute. intros H. discriminate H.
Defined.

(** ** UTF-8: decoding what was encoded *)

Lemma byteZ_Zbyte (z : Z) : 0 <= z < 256 -> byteZ (Zbyte z) = z.
Proof.
  intros H. unfold byteZ, Zbyte.
  rewrite N_ascii_embedding by lia. lia.
Qed.

Lemma Zbyte_byteZ (c : ascii) : Zbyte (byteZ c) = c.
Proof. unfold byteZ, Zbyte. rewrite N2Z.id. apply ascii_N_embedding. Qed.

Lemma byteZ_range (c : ascii) : 0 <= byteZ c < 256.
Proof.
  unfold byteZ. pose proof (N_ascii_bounded c). lia.
Qed.

(** A number below [2^k] put under a multiple of [2^k]: or is plus. *)
Lemma lor_add (a b k : Z) :
  0 <= k -> 0 <= b < 2 ^ k -> Z.lor (a * 2 ^ k) b = a * 2 ^ k + b.
Proof.
  intros Hk Hb.
  assert (Hland : Z.land (a * 2 ^ k) b = 0).
  { apply Z.bits_inj'. intros n Hn. rewrite Z.land_spec, Z.bits_0.
    destruct (Z.lt_ge_cases n k) as [Hlt|Hge].
    - rewrite Z.mul_pow2_bits_low by lia. reflexivity.
    - rewrite <- (Z.mod_small b (2 ^ k)) by lia.
      rewrite Z.mod_pow2_bits_high by lia. apply andb_false_r. }
  rewrite <- Z.lxor_lor by exact Hland.
  symmetry. apply Z.add_nocarry_lxor. exact Hland.
Qed.

Lemma land_mask (a k : Z) : 0 <= k -> Z.land a (2 ^ k - 1) = a mod 2 ^ k.
Proof.
  intros Hk. rewrite <- Z.land_ones by lia. f_equal.
  rewrite Z.ones_equiv. lia.
Qed.

Lemma shiftr_div (r k : Z) : 0 <= k -> Z.shiftr r k = r / 2 ^ k.
Proof. intros. by rewrite Z.shiftr_div_pow2. Qed.

Lemma cont_byte (z : Z) : Utf8.cont z = Zbyte (128 + z mod 64).
Proof.
  unfold Utf8.cont. f_equal.
  change 0x3F with (2 ^ 6 - 1). rewrite land_mask by lia.
  change 0x80 with (2 * 2 ^ 6).
  rewrite lor_add by (change (2 ^ 6) with 64; Z.div_mod_to_equations; lia).
  reflexivity.
Qed.

(** The bytes of an encoding, by the size of the code point. *)
Lemma EncodeRune_2 (r : rune) :
  0x80 <= r <= 0x7FF ->
  Utf8.EncodeRune r
  = String (Zbyte (192 + r / 64)) (String (Zbyte (128 + r mod 64)) "").
Proof.
  intros H. unfold Utf8.EncodeRune.
  rewrite decide_False by lia. rewrite decide_True by lia.
  rewrite cont_byte, shiftr_div by lia. do 2 f_equal.
  change 0xC0 with (6 * 2 ^ 5). change (2 ^ 6) with 64.
  rewrite lor_add by (change (2 ^ 5) with 32; Z.div_mod_to_equations; lia).
  reflexivity.
Qed.

Lemma EncodeRune_3 (r : rune) :
  0x800 <= r <= 0xFFFF -> ~ 0xD800 <= r <= 0xDFFF ->
  Utf8.EncodeRune r
  = String (Zbyte (224 + r / 4096))
      (String (Zbyte (128 + (r / 64) mod 64)) (String (Zbyte (128 + r mod 64)) "")).
Proof.
  intros H Hs. unfold Utf8.EncodeRune, Utf8.encode3, Utf8.MaxRune.
  rewrite !decide_False by lia. rewrite decide_True by lia.
  rewrite !cont_byte, !shiftr_div by lia. do 2 f_equal.
  change 0xE0 with (14 * 2 ^ 4). change (2 ^ 12) with 4096.
  rewrite lor_add by (change (2 ^ 4) with 16; Z.div_mod_to_equations; lia).
  reflexivity.
Qed.

Lemma EncodeRune_4 (r : rune) :
  0x10000 <= r <= 0x10FFFF ->
  Utf8.EncodeRune r
  = String (Zbyte (240 + r / 262144))
      (String (Zbyte (128 + (r / 4096) mod 64))
         (String (Zbyte (128 + (r / 64) mod 64)) (String (Zbyte (128 + r mod 64)) ""))).
Proof.
  intros H. unfold Utf8.EncodeRune, Utf8.MaxRune.
  rewrite !decide_False by lia.
  rewrite !cont_byte, !shiftr_div by lia. do 2 f_equal.
  change 0xF0 with (30 * 2 ^ 3). change (2 ^ 18) with 262144.
  rewrite lor_add by (change (2 ^ 3) with 8; Z.div_mod_to_equations; lia).
  reflexivity.
Qed.

Lemma outside_false (lo hi b : Z) : lo <= b <= hi -> Utf8.outside lo hi b = false.
Proof.
  intros H. unfold Utf8.outside.
  destruct (Z.ltb_spec b lo); [lia|]. destruct (Z.ltb_spec hi b); [lia|]. done.
Qed.

Lemma first_2 (p : Z) : 0xC2 <= p <= 0xDF -> Utf8.first p = Some (2, 0x80, 0xBF).
Proof. intros H. unfold Utf8.first. by rewrite decide_True. Qed.

Lemma first_3 (p : Z) :
  0xE0 <= p <= 0xEF ->
  Utf8.first p
  = Some (3, if decide (p = 0xE0) then 0xA0 else 0x80,
             if decide (p = 0xED) then 0x9F else 0xBF).
Proof.
  intros H. unfold Utf8.first. repeat case_decide; try lia; reflexivity.
Qed.

Lemma first_4 (p : Z) :
  0xF0 <= p <= 0xF4 ->
  Utf8.first p
  = Some (4, if decide (p = 0xF0) then 0x90 else 0x80,
             if decide (p = 0xF4) then 0x8F else 0xBF).
Proof.
  intros H. unfold Utf8.first. repeat case_decide; try lia; reflexivity.
Qed.

(** Arithmetic on quotients and remainders by constants. *)
Ltac divmod := Z.div_mod_to_equations; lia.

Lemma decode_join2 (p b : Z) :
  Z.lor (Z.shiftl (Z.land p 0x1F) 6) (Z.land b 0x3F) = (p mod 32) * 64 + b mod 64.
Proof.
  change 0x1F with (2 ^ 5 - 1). change 0x3F with (2 ^ 6 - 1).
  rewrite !land_mask, Z.shiftl_mul_pow2 by lia.
  rewrite lor_add by (change (2 ^ 6) with 64; divmod). reflexivity.
Qed.

Lemma decode_join3 (p b1 b2 : Z) :
  Z.lor (Z.shiftl (Z.land p 0x0F) 12)
    (Z.lor (Z.shiftl (Z.land b1 0x3F) 6) (Z.land b2 0x3F))
  = (p mod 16) * 4096 + ((b1 mod 64) * 64 + b2 mod 64).
Proof.
  change 0x0F with (2 ^ 4 - 1). change 0x3F with (2 ^ 6 - 1).
  rewrite !land_mask, !Z.shiftl_mul_pow2 by lia.
  rewrite (lor_add (b1 mod 2 ^ 6)) by (change (2 ^ 6) with 64; divmod).
  rewrite lor_add by (change (2 ^ 6) with 64; change (2 ^ 12) with 4096; divmod).
  reflexivity.
Qed.

Lemma decode_join4 (p b1 b2 b3 : Z) :
  Z.lor (Z.shiftl (Z.land p 0x07) 18)
    (Z.lor (Z.shiftl (Z.land b1 0x3F) 12)
       (Z.lor (Z.shiftl (Z.land b2 0x3F) 6) (Z.land b3 0x3F)))
  = (p mod 8) * 262144 + ((b1 mod 64) * 4096 + ((b2 mod 64) * 64 + b3 mod 64)).
Proof.
  change 0x07 with (2 ^ 3 - 1). change 0x3F with (2 ^ 6 - 1).
  rewrite !land_mask, !Z.shiftl_mul_pow2 by lia.
  rewrite (lor_add (b2 mod 2 ^ 6)) by (change (2 ^ 6) with 64; divmod).
  rewrite (lor_add (b1 mod 2 ^ 6))
    by (change (2 ^ 6) with 64; change (2 ^ 12) with 4096; divmod).
  rewrite lor_add
    by (change (2 ^ 6) with 64; change (2 ^ 12) with 4096;
        change (2 ^ 18) with 262144; divmod).
  reflexivity.
Qed.

(** Decoding the encoding of a scalar value gives it back, with the
    number of bytes it took. *)
Lemma decode_encode (r : rune) (s : string) :
  valid_rune r ->
  Utf8.DecodeRuneInString (Utf8.EncodeRune r +:+ s)
  = (r, String.length (Utf8.EncodeRune r)).
Proof.
  intros Hv.
  assert (Hcase : 0 <= r <= 0x7F \/ 0x80 <= r <= 0x7FF \/
                  (0x800 <= r <= 0xFFFF /\ ~ 0xD800 <= r <= 0xDFFF) \/
                  0x10000 <= r <= 0x10FFFF) by (unfold valid_rune in Hv; lia).
  destruct Hcase as [H|[H|[[H Hs]|H]]].
  - unfold Utf8.EncodeRune. rewrite decide_True by done.
    change (String (Zbyte r) "" +:+ s) with (String (Zbyte r) s).
    unfold Utf8.DecodeRuneInString. rewrite byteZ_Zbyte by lia. cbv zeta.
    destruct (Z.ltb_spec r 128); [done|lia].
  - rewrite EncodeRune_2 by done.
    change (String ?a (String ?b "") +:+ s) with (String a (String b s)).
    unfold Utf8.DecodeRuneInString. rewrite !byteZ_Zbyte by divmod. cbv zeta.
    destruct (Z.ltb_spec (192 + r / 64) 128); [divmod|].
    rewrite first_2 by divmod. rewrite outside_false by divmod.
    change (2 <=? 2) with true. cbv iota. rewrite decode_join2.
    f_equal. divmod.
  - rewrite EncodeRune_3 by done.
    change (String ?a (String ?b (String ?c "")) +:+ s)
      with (String a (String b (String c s))).
    unfold Utf8.DecodeRuneInString. rewrite !byteZ_Zbyte by divmod. cbv zeta.
    destruct (Z.ltb_spec (224 + r / 4096) 128); [divmod|].
    rewrite first_3 by divmod.
    rewrite outside_false by (repeat case_decide; divmod).
    change (3 <=? 2) with false. cbv iota.
    rewrite outside_false by divmod.
    change (3 <=? 3) with true. cbv iota. rewrite decode_join3.
    f_equal. divmod.
  - rewrite EncodeRune_4 by done.
    change (String ?a (String ?b (String ?c (String ?d ""))) +:+ s)
      with (String a (String b (String c (String d s)))).
    unfold Utf8.DecodeRuneInString. rewrite !byteZ_Zbyte by divmod. cbv zeta.
    destruct (Z.ltb_spec (240 + r / 262144) 128); [divmod|].
    rewrite first_4 by divmod.
    rewrite outside_false by (repeat case_decide; divmod).
    change (4 <=? 2) with false. cbv iota.
    rewrite outside_false by divmod.
    change (4 <=? 3) with false. cbv iota.
    rewrite outside_false by divmod.
    rewrite decode_join4. f_equal. divmod.
Qed.

Lemma runesFrom_skip (a s : string) :
  Utf8.runesFrom (String.length a) (a +:+ s) = Utf8.runesFrom 0 s.
Proof.
  induction a as [|c a IH]; [done|].
  change (String c a +:+ s) with (String c (a +:+ s)). exact IH.
Qed.

Lemma EncodeRune_nonempty (r : rune) :
  exists c t, Utf8.EncodeRune r = String c t.
Proof.
  unfold Utf8.EncodeRune, Utf8.encode3. repeat case_decide; eauto.
Qed.

Lemma runes_cons (r : rune) (s : string) :
  valid_rune r -> Utf8.runes (Utf8.EncodeRune r +:+ s) = r :: Utf8.runes s.
Proof.
  intros Hv. pose proof (decode_encode r s Hv) as Hd.
  destruct (EncodeRune_nonempty r) as (c & t & E). rewrite E in *.
  change (String c t +:+ s) with (String c (t +:+ s)) in *.
  unfold Utf8.runes. cbn [Utf8.runesFrom]. rewrite Hd.
  cbn [String.length]. rewrite Nat.sub_succ, Nat.sub_0_r.
  by rewrite runesFrom_skip.
Qed.

(** [[]rune(string(l)) = l] for every line of scalar values. *)
Lemma runes_stringOf (l : list rune) :
  Forall valid_rune l -> Utf8.runes (Utf8.stringOf l) = l.
Proof.
  induction 1 as [|r l Hr Hl IH]; [done|].
  cbn [Utf8.stringOf]. by rewrite runes_cons, IH.
Qed.

(** ** Yank and paste *)

Lemma stringOf_nonempty (l : list rune) : l <> [] -> Utf8.stringOf l <> "".
Proof.
  destruct l as [|r l]; [done|]. intros _. cbn [Utf8.stringOf].
  destruct (EncodeRune_nonempty r) as (c & t & ->). discriminate.
Qed.

(** Yanking a line and pasting it puts a copy of the line below the
    cursor row and the cursor on the copy, for every line of scalar
    values that is not empty. *)
Theorem yank_then_paste (w : world)
    (m : model) (line : list rune) :
  0 <= cursorY m -> content m !! Z.to_nat (cursorY m) = Some line ->
  cursorY m < GoInt.intMax -> line <> [] -> Forall valid_rune line ->
  exists m1 m2,
    handleNormalMode w "y" m = Ok (m1, CmdNil) /\
    handleNormalMode w "p" m1 = Ok (m2, CmdNil) /\
    content m2 =
      take (S (Z.to_nat (cursorY m))) (content m) ++ [line] ++
      drop (S (Z.to_nat (cursorY m))) (content m) /\
    cursorY m2 = cursorY m + 1 /\ cursorX m2 = cursorX m /\
    clipboard m2 = Utf8.stringOf line /\
    undoStack m2 = undoStack m ++ [snapshot m].
Proof.
  intros Hy Hl Hb Hne Hv.
  destruct (in_buffer m line Hy Hl) as [Hr Hidx].
  set (m1 := with_statusMsg "Line yanked to clipboard"
               (with_clipboard (Utf8.stringOf line) m)).
  assert (H1 : handleNormalMode w "y" m = Ok (m1, CmdNil)).
  { change (handleNormalMode w "y" m) with (stay (yankLine m)).
    unfold stay, yankLine. rewrite decide_True by lia. by rewrite Hidx. }
  destruct (pasteLine_Ok m1) as (m2 & H2 & [Hu _] & Hc & Hx & Hy2).
  { done. }
  { done. }
  { by apply stringOf_nonempty. }
  exists m1, m2. split; [done|]. split.
  { change (handleNormalMode w "p" m1) with (stay (pasteLine m1)).
    unfold stay. by rewrite H2. }
  split; [|split; [done|split; [done|split]]].
  - rewrite Hc. subst m1. fields. by rewrite runes_stringOf.
  - unfold pasteLine in H2. rewrite decide_True in H2 by by apply stringOf_nonempty.
    do 3 step H2. by injection H2 as <-.
  - rewrite Hu. subst m1. unfold snapshot. by fields.
Qed.

Lemma yank_then_paste_witness :
  exists m1 m2,
    handleNormalMode disk "y" (opened ("ab" +:+ newline +:+ "c")) = Ok (m1, CmdNil) /\
    handleNormalMode disk "p" m1 = Ok (m2, CmdNil) /\
    content m2 =
      take (S (Z.to_nat (cursorY (opened ("ab" +:+ newline +:+ "c")))))
        (content (opened ("ab" +:+ newline +:+ "c"))) ++ [[97; 98]] ++
      drop (S (Z.to_nat (cursorY (opened ("ab" +:+ newline +:+ "c")))))
        (content (opened ("ab" +:+ newline +:+ "c"))) /\
    cursorY m2 = cursorY (opened ("ab" +:+ newline +:+ "c")) + 1 /\
    cursorX m2 = cursorX (opened ("ab" +:+ newline +:+ "c")) /\
    clipboard m2 = Utf8.stringOf [97; 98] /\
    undoStack m2 = undoStack (opened ("ab" +:+ newline +:+ "c"))
                   ++ [snapshot (opened ("ab" +:+ newline +:+ "c"))].
Proof.
  apply (yank_then_paste disk (opened ("ab" +:+ newline +:+ "c")) [97; 98]).
  - vm_compute. intros H. discriminate H.
  - vm_compute. reflexivity.
  - vm_compute. reflexivity.
  - intros H. discriminate H.
  - repeat constructor; vm_compute; try (intros H; discriminate H); reflexivity.
Defined.


(** ** Start-up *)

Lemma splitLoop_nonempty (n : nat) (s sep : string) :
  GoStrings.splitLoop n s sep <> [].
Proof. destruct n; simpl; [done|]. by destruct (GoStrings.indexOf sep s). Qed.

(** Whatever the file holds, and when it cannot be read or no file is
    named, the editor starts with at least one line and the cursor on the
    first column of the first line. *)
Theorem initialModel_cursor_ok (filename : string) (readFile : string -> option string) :
  cursor_ok (initialModel filename readFile) /\
  cursorX (initialModel filename readFile) = 0 /\
  cursorY (initialModel filename readFile) = 0.
Proof.
  split; [|done]. unfold cursor_ok, initialModel. cbv zeta. fields.
  match goal with |- context [len ?c0] => set (c := c0) end.
  assert (Hc : c <> []).
  { subst c. case_decide; [|done]. destruct (readFile filename) as [data|]; [|done].
    unfold GoStrings.Split. rewrite decide_False by discriminate.
    intros Hm. apply fmap_nil_inv in Hm. by apply splitLoop_nonempty in Hm. }
  clearbody c. destruct c as [|l c]; [done|].
  split; [unfold len; simpl; lia|].
  exists l. split; [done|]. pose proof (len_nonneg l). lia.
Qed.

(** ** The viewport *)

Lemma wrap_over (z : Z) :
  GoInt.intMax < z <= 2 * GoInt.intMax + 1 -> GoInt.wrap z = z - 2 ^ 64.
Proof.
  unfold GoInt.wrap, GoInt.intMax.
  change (2 ^ 63) with 9223372036854775808.
  change (2 ^ 64) with 18446744073709551616. intros H.
  rewrite <- (Z.mod_unique (z + 9223372036854775808) 18446744073709551616 1
             (z - 9223372036854775808)); lia.
Qed.

(** After [adjustOffset] the cursor row is one of the [height] rows drawn
    from [offsetY] on, when the window has a row to draw; a cursor row that
    is drawn already leaves the state as it is. *)
Theorem adjustOffset_visible (m : model) :
  0 <= cursorY m <= GoInt.intMax -> 0 <= offsetY m <= GoInt.intMax ->
  0 < height m <= GoInt.intMax ->
  offsetY (adjustOffset m) <= cursorY (adjustOffset m)
    < offsetY (adjustOffset m) + height (adjustOffset m) /\
  (offsetY m <= cursorY m < offsetY m + height m ->
   offsetY m + height m <= GoInt.intMax -> adjustOffset m = m).
Proof.
  intros Hy Ho Hh.
  assert (Hs : GoInt.add (GoInt.sub (cursorY m) (height m)) 1
               = cursorY m - height m + 1).
  { rewrite sub_id, add_id; unfold GoInt.intMin, GoInt.intMax in *; lia. }
  assert (Ha : GoInt.add (offsetY m) (height m) = offsetY m + height m \/
               GoInt.add (offsetY m) (height m) < 0).
  { destruct (decide (offsetY m + height m <= GoInt.intMax)) as [Hle|Hgt].
    - left. apply add_id. unfold GoInt.intMin, GoInt.intMax in *. lia.
    - right. unfold GoInt.add. rewrite wrap_over; unfold GoInt.intMax in *; lia. }
  unfold adjustOffset. rewrite Hs. split.
  - repeat case_decide; fields; lia.
  - intros Hv Hn. destruct Ha as [Ha|Ha]; [|unfold GoInt.add in Ha;
      rewrite wrap_id in Ha; unfold GoInt.intMin, GoInt.intMax in *; lia].
    repeat case_decide; try done; exfalso; lia.
Qed.

Lemma adjustOffset_visible_witness :
  offsetY (adjustOffset (with_cursorY 30 (opened "a")))
    <= cursorY (adjustOffset (with_cursorY 30 (opened "a")))
    < offsetY (adjustOffset (with_cursorY 30 (opened "a")))
      + height (adjustOffset (with_cursorY 30 (opened "a"))) /\
  (offsetY (with_cursorY 30 (opened "a")) <= cursorY (with_cursorY 30 (opened "a"))
     < offsetY (with_cursorY 30 (opened "a")) + height (with_cursorY 30 (opened "a")) ->
   offsetY (with_cursorY 30 (opened "a")) + height (with_cursorY 30 (opened "a"))
     <= GoInt.intMax ->
   adjustOffset (with_cursorY 30 (opened "a")) = with_cursorY 30 (opened "a")).
Proof.
  apply (adjustOffset_visible (with_cursorY 30 (opened "a")));
    vm_compute; split; first [reflexivity | intros H; discriminate H].
Defined.

(** ** Deleting characters *)

Lemma cursor_ok_row (m' : model) (c : list (list rune)) (y : Z) (l' : list rune) :
  content m' = <[Z.to_nat y := l']> c -> 0 <= y < len c -> cursorY m' = y ->
  0 <= cursorX m' <= len l' -> cursor_ok m'.
Proof.
  intros Hc Hy Hcy Hx. unfold cursor_ok. rewrite Hc, Hcy.
  split; [unfold len in *; rewrite length_insert; lia|].
  exists l'. split; [|done]. apply list_lookup_insert_eq. unfold len in *. lia.
Qed.

Lemma delete_at_end {A} (l : list A) : delete (length l) l = l.
Proof. rewrite delete_take_drop, take_ge, drop_ge by lia. by rewrite app_nil_r. Qed.

(** The key "x" removes the character under the cursor and nothing else;
    the cursor stays.  At the end of the line there is no character under
    the cursor and the state stays as it is. *)
Theorem delete_char_under_cursor (w : world)
    (m : model) (line : list rune) :
  0 <= cursorY m -> content m !! Z.to_nat (cursorY m) = Some line ->
  0 <= cursorX m <= len line -> cursorX m < GoInt.intMax ->
  exists m',
    handleNormalMode w "x" m = Ok (m', CmdNil) /\
    content m' =
      <[Z.to_nat (cursorY m) := delete (Z.to_nat (cursorX m)) line]> (content m) /\
    cursorX m' = cursorX m /\ cursorY m' = cursorY m /\ cursor_ok m' /\
    (cursorX m = len line -> m' = m).
Proof.
  intros Hy Hl Hx Hb.
  destruct (in_buffer m line Hy Hl) as [Hr Hidx].
  change (handleNormalMode w "x" m) with (stay (deleteCharUnderCursor m)).
  unfold stay, deleteCharUnderCursor. rewrite Hidx. fields.
  case_decide as Hlt.
  - rewrite add_id by (unfold GoInt.intMin, GoInt.intMax in *; lia).
    rewrite sliceTo_Ok, sliceFrom_Ok by lia. fields.
    rewrite assign_Ok by done. fields.
    replace (Z.to_nat (cursorX m + 1)) with (S (Z.to_nat (cursorX m))) by lia.
    rewrite <- delete_take_drop.
    eexists. split; [reflexivity|]. fields.
    split; [done|]. split; [done|]. split; [done|]. split; [|lia].
    eapply cursor_ok_row; fields; [reflexivity|done|done|].
    unfold len in *. rewrite length_delete; [lia|].
    apply lookup_lt_is_Some_2. lia.
  - assert (Hend : Z.to_nat (cursorX m) = length line) by (unfold len in *; lia).
    exists m. split; [done|]. rewrite Hend, delete_at_end.
    split; [by rewrite list_insert_id|]. split; [done|]. split; [done|].
    split; [|done]. split; [done|]. by exists line.
Qed.

Lemma delete_char_under_cursor_witness :
  exists m',
    handleNormalMode disk "x" (with_cursorX 1 (opened "abc")) = Ok (m', CmdNil) /\
    content m' =
      <[Z.to_nat (cursorY (with_cursorX 1 (opened "abc"))) :=
          delete (Z.to_nat (cursorX (with_cursorX 1 (opened "abc")))) [97; 98; 99]]>
        (content (with_cursorX 1 (opened "abc"))) /\
    cursorX m' = cursorX (with_cursorX 1 (opened "abc")) /\
    cursorY m' = cursorY (with_cursorX 1 (opened "abc")) /\ cursor_ok m' /\
    (cursorX (with_cursorX 1 (opened "abc")) = len [97; 98; 99] ->
     m' = with_cursorX 1 (opened "abc")).
Proof.
  apply (delete_char_under_cursor disk (with_cursorX 1 (opened "abc")) [97; 98; 99]).
  - vm_compute. intros H. discriminate H.
  - vm_compute. reflexivity.
  - vm_compute. split; intros H; discriminate H.
  - vm_compute. reflexivity.
Defined.

Lemma backspace_left (m : model) (line : list rune) :
  0 <= cursorY m -> content m !! Z.to_nat (cursorY m) = Some line ->
  0 < cursorX m <= len line -> cursorX m <= GoInt.intMax ->
  exists m',
    backspace m = Ok m' /\
    content m' =
      <[Z.to_nat (cursorY m) := delete (Z.to_nat (cursorX m - 1)) line]> (content m) /\
    cursorX m' = cursorX m - 1 /\ cursorY m' = cursorY m.
Proof.
  intros Hy Hl Hx Hb.
  destruct (in_buffer m line Hy Hl) as [Hr Hidx].
  unfold backspace. rewrite decide_True by lia. rewrite Hidx. fields.
  rewrite sub_id by (unfold GoInt.intMin, GoInt.intMax in *; lia).
  rewrite sliceTo_Ok, sliceFrom_Ok by lia. fields.
  rewrite assign_Ok by done. fields.
  eexists. split; [reflexivity|]. fields. split; [|done].
  rewrite delete_take_drop.
  by replace (S (Z.to_nat (cursorX m - 1))) with (Z.to_nat (cursorX m)) by lia.
Qed.

Lemma backspace_join (m : model) (prev line : list rune) :
  0 < cursorY m -> cursorX m <= 0 -> cursorY m < GoInt.intMax ->
  content m !! Z.to_nat (cursorY m - 1) = Some prev ->
  content m !! Z.to_nat (cursorY m) = Some line ->
  exists m',
    backspace m = Ok m' /\
    content m' =
      take (Z.to_nat (cursorY m - 1)) (content m) ++ [prev ++ line] ++
      drop (S (Z.to_nat (cursorY m))) (content m) /\
    cursorX m' = len prev /\ cursorY m' = cursorY m - 1.
Proof.
  intros Hy Hx Hb Hp Hl.
  assert (Hr : cursorY m < len (content m)).
  { apply lookup_lt_Some in Hl. unfold len. lia. }
  unfold backspace. rewrite decide_False by lia. rewrite decide_True by lia.
  cbv zeta. fields.
  rewrite sub_id by (unfold GoInt.intMin, GoInt.intMax in *; lia).
  rewrite (proj2 (index_Ok _ _ _) (conj (ltac:(lia) : 0 <= cursorY m - 1) Hp)). fields.
  rewrite !add_id by (unfold GoInt.intMin, GoInt.intMax in *; lia).
  replace (cursorY m - 1 + 1) with (cursorY m) by lia.
  rewrite (proj2 (index_Ok _ _ _) (conj (ltac:(lia) : 0 <= cursorY m) Hl)). fields.
  rewrite assign_Ok by lia. fields.
  rewrite sliceTo_Ok, sliceFrom_Ok by (unfold len in *; rewrite length_insert; lia).
  fields. eexists. split; [reflexivity|]. fields. split; [|done].
  replace (Z.to_nat (cursorY m - 1 + 2)) with (S (Z.to_nat (cursorY m))) by lia.
  rewrite drop_insert_lt by lia.
  replace (Z.to_nat (cursorY m)) with (S (Z.to_nat (cursorY m - 1))) at 1 by lia.
  erewrite take_S_r; [|apply list_lookup_insert_eq; unfold len in Hr; lia].
  rewrite take_insert_ge by lia. by rewrite <- app_assoc.
Qed.

Lemma handleInsertMode_backspace (m : model) :
  handleInsertMode "backspace" [] m =
  do m' <- backspace m; Ok (adjustOffset m', CmdNil).
Proof. reflexivity. Qed.

Lemma handleInsertMode_enter (m : model) :
  handleInsertMode "enter" [] m =
  do m' <- splitLine m; Ok (adjustOffset m', CmdNil).
Proof. reflexivity. Qed.

(** Backspace with the cursor inside a line removes the character left
    of the cursor and moves the cursor onto its column. *)
Theorem backspace_deletes_left (m : model) (line : list rune) :
  0 <= cursorY m -> content m !! Z.to_nat (cursorY m) = Some line ->
  0 < cursorX m <= len line -> cursorX m <= GoInt.intMax ->
  exists m',
    handleInsertMode "backspace" [] m = Ok (m', CmdNil) /\
    content m' =
      <[Z.to_nat (cursorY m) := delete (Z.to_nat (cursorX m - 1)) line]> (content m) /\
    cursorX m' = cursorX m - 1 /\ cursorY m' = cursorY m.
Proof.
  intros Hy Hl Hx Hb.
  destruct (backspace_left m line Hy Hl Hx Hb) as (m' & H & Hc & Hcx & Hcy).
  exists (adjustOffset m'). rewrite handleInsertMode_backspace, H.
  split; [done|].
  destruct (adjustOffset_keeps m') as (-> & -> & -> & _). done.
Qed.

Lemma backspace_deletes_left_witness :
  exists m',
    handleInsertMode "backspace" [] (with_cursorX 2 (opened "abc")) = Ok (m', CmdNil) /\
    content m' =
      <[Z.to_nat (cursorY (with_cursorX 2 (opened "abc"))) :=
          delete (Z.to_nat (cursorX (with_cursorX 2 (opened "abc")) - 1)) [97; 98; 99]]>
        (content (with_cursorX 2 (opened "abc"))) /\
    cursorX m' = cursorX (with_cursorX 2 (opened "abc")) - 1 /\
    cursorY m' = cursorY (with_cursorX 2 (opened "abc")).
Proof.
  apply (backspace_deletes_left (with_cursorX 2 (opened "abc")) [97; 98; 99]).
  - vm_compute. intros H. discriminate H.
  - vm_compute. reflexivity.
  - vm_compute. split; [reflexivity|intros H; discriminate H].
  - vm_compute. intros H. discriminate H.
Defined.

(** Backspace at the first column of a row below the first joins the row
    to the one above: the two lines become one, the rows below move up,
    and the cursor stands where the upper line ended. *)
Theorem backspace_joins_lines (m : model) (prev line : list rune) :
  0 < cursorY m -> cursorX m = 0 -> cursorY m < GoInt.intMax ->
  content m !! Z.to_nat (cursorY m - 1) = Some prev ->
  content m !! Z.to_nat (cursorY m) = Some line ->
  exists m',
    handleInsertMode "backspace" [] m = Ok (m', CmdNil) /\
    content m' =
      take (Z.to_nat (cursorY m - 1)) (content m) ++ [prev ++ line] ++
      drop (S (Z.to_nat (cursorY m))) (content m) /\
    cursorX m' = len prev /\ cursorY m' = cursorY m - 1.
Proof.
  intros Hy Hx Hb Hp Hl.
  destruct (backspace_join m prev line) as (m' & H & Hc & Hcx & Hcy);
    [done|lia|done|done|done|].
  exists (adjustOffset m'). rewrite handleInsertMode_backspace, H.
  split; [done|].
  destruct (adjustOffset_keeps m') as (-> & -> & -> & _). done.
Qed.

Lemma backspace_joins_lines_witness :
  exists m',
    handleInsertMode "backspace" []
      (with_cursorY 1 (opened ("ab" +:+ newline +:+ "cd"))) = Ok (m', CmdNil) /\
    content m' =
      take (Z.to_nat (cursorY (with_cursorY 1 (opened ("ab" +:+ newline +:+ "cd"))) - 1))
        (content (with_cursorY 1 (opened ("ab" +:+ newline +:+ "cd")))) ++
      [[97; 98] ++ [99; 100]] ++
      drop (S (Z.to_nat (cursorY (with_cursorY 1 (opened ("ab" +:+ newline +:+ "cd"))))))
        (content (with_cursorY 1 (opened ("ab" +:+ newline +:+ "cd")))) /\
    cursorX m' = len [97; 98] /\
    cursorY m' = cursorY (with_cursorY 1 (opened ("ab" +:+ newline +:+ "cd"))) - 1.
Proof.
  apply (backspace_joins_lines
           (with_cursorY 1 (opened ("ab" +:+ newline +:+ "cd"))) [97; 98] [99; 100]).
  - vm_compute. reflexivity.
  - vm_compute. reflexivity.
  - vm_compute. reflexivity.
  - vm_compute. reflexivity.
  - vm_compute. reflexivity.
Defined.

(** ** Typing and taking back *)

Lemma delete_inserted {A} (n : nat) (l : list A) (a : A) :
  (n <= length l)%nat -> delete n (take n l ++ [a] ++ drop n l) = l.
Proof.
  intros H. rewrite delete_take_drop.
  rewrite take_app_length' by (rewrite length_take; lia).
  rewrite (app_assoc _ [a]).
  rewrite drop_app_length' by (rewrite length_app, length_take; simpl; lia).
  apply take_drop.
Qed.

Lemma lookup_after_take {A} (c t : list A) (n k : nat) :
  (n <= length c)%nat -> (take n c ++ t) !! (n + k)%nat = t !! k.
Proof.
  intros H. rewrite lookup_app_r; rewrite length_take; [|lia].
  f_equal. lia.
Qed.

(** A character typed in Insert mode stands at the cursor column, with
    the cursor after it; backspace right after it gives back the buffer
    and the cursor as they were.  The checkpoint the character took
    stays on the undo stack. *)
Theorem type_then_backspace (r : rune) (m : model) (line : list rune) :
  0 <= cursorY m -> content m !! Z.to_nat (cursorY m) = Some line ->
  0 <= cursorX m <= len line -> cursorX m < GoInt.intMax ->
  exists m1 m2,
    handleInsertMode (Utf8.EncodeRune r) [r] m = Ok (m1, CmdNil) /\
    content m1 =
      <[Z.to_nat (cursorY m) :=
          take (Z.to_nat (cursorX m)) line ++ [r] ++
          drop (Z.to_nat (cursorX m)) line]> (content m) /\
    cursorX m1 = cursorX m + 1 /\ cursorY m1 = cursorY m /\
    handleInsertMode "backspace" [] m1 = Ok (m2, CmdNil) /\
    document m2 = document m /\
    undoStack m2 = undoStack m ++ [snapshot m].
Proof.
  intros Hy Hl Hx Hb.
  destruct (in_buffer m line Hy Hl) as [Hr _].
  destruct (typeRunes_Ok r m line Hy Hl Hx Hb) as (t & Ht & [Hu _] & Hc & Hcx & Hcy).
  set (line1 := take (Z.to_nat (cursorX m)) line ++ [r] ++
                drop (Z.to_nat (cursorX m)) line) in *.
  destruct (adjustOffset_keeps t) as (Kc & Kx & Ky & Ku & _).
  set (m1 := adjustOffset t) in *.
  assert (Hl1 : content m1 !! Z.to_nat (cursorY m1) = Some line1).
  { rewrite Kc, Ky, Hc, Hcy. apply list_lookup_insert_eq. unfold len in Hr. lia. }
  assert (Hlen1 : len line1 = len line + 1).
  { subst line1. unfold len in *.
    rewrite !length_app, length_take_le, length_drop by lia. simpl. lia. }
  destruct (backspace_left m1 line1) as (b & Hbk & Hbc & Hbx & Hby);
    [lia|done|lia|lia|].
  exists m1, (adjustOffset b).
  split. { rewrite handleInsertMode_char, Ht. done. }
  split; [congruence|]. split; [congruence|]. split; [congruence|].
  split. { rewrite handleInsertMode_backspace, Hbk. done. }
  destruct (adjustOffset_keeps b) as (Bc & Bx & By & Bu & _).
  split.
  - unfold document. rewrite Bc, Bx, By, Hbc, Hbx, Hby, Kc, Kx, Ky, Hc, Hcx, Hcy.
    replace (cursorX m + 1 - 1) with (cursorX m) by lia.
    subst line1. rewrite delete_inserted by (unfold len in Hx; lia).
    rewrite list_insert_insert_eq, list_insert_id by done.
    by destruct m.
  - rewrite Bu. apply backspace_stacks in Hbk as [-> _]. congruence.
Qed.

Lemma type_then_backspace_witness :
  exists m1 m2,
    handleInsertMode (Utf8.EncodeRune 955) [955] (with_cursorX 1 (opened "ab"))
      = Ok (m1, CmdNil) /\
    content m1 =
      <[Z.to_nat (cursorY (with_cursorX 1 (opened "ab"))) :=
          take (Z.to_nat (cursorX (with_cursorX 1 (opened "ab")))) [97; 98] ++ [955] ++
          drop (Z.to_nat (cursorX (with_cursorX 1 (opened "ab")))) [97; 98]]>
        (content (with_cursorX 1 (opened "ab"))) /\
    cursorX m1 = cursorX (with_cursorX 1 (opened "ab")) + 1 /\
    cursorY m1 = cursorY (with_cursorX 1 (opened "ab")) /\
    handleInsertMode "backspace" [] m1 = Ok (m2, CmdNil) /\
    document m2 = document (with_cursorX 1 (opened "ab")) /\
    undoStack m2 = undoStack (with_cursorX 1 (opened "ab"))
                   ++ [snapshot (with_cursorX 1 (opened "ab"))].
Proof.
  apply (type_then_backspace 955 (with_cursorX 1 (opened "ab")) [97; 98]).
  - vm_compute. intros H. discriminate H.
  - vm_compute. reflexivity.
  - vm_compute. split; intros H; discriminate H.
  - vm_compute. reflexivity.
Defined.

(** Enter in Insert mode cuts the line at the cursor and puts the cursor
    at the start of the lower half; backspace right after it joins the two
    halves again and gives back the buffer and the cursor as they were. *)
Theorem enter_then_backspace (m : model) (line : list rune) :
  0 <= cursorY m -> content m !! Z.to_nat (cursorY m) = Some line ->
  0 <= cursorX m <= len line -> cursorY m + 1 < GoInt.intMax ->
  exists m1 m2,
    handleInsertMode "enter" [] m = Ok (m1, CmdNil) /\
    content m1 =
      take (Z.to_nat (cursorY m)) (content m) ++
      [take (Z.to_nat (cursorX m)) line; drop (Z.to_nat (cursorX m)) line] ++
      drop (S (Z.to_nat (cursorY m))) (content m) /\
    cursorX m1 = 0 /\ cursorY m1 = cursorY m + 1 /\
    handleInsertMode "backspace" [] m1 = Ok (m2, CmdNil) /\
    document m2 = document m /\
    undoStack m2 = undoStack m ++ [snapshot m].
Proof.
  intros Hy Hl Hx Hb.
  destruct (in_buffer m line Hy Hl) as [Hr _].
  destruct (splitLine_Ok m line Hy Hl Hx) as (t & Ht & [Hu _] & Hc & Hcx & Hcy); [lia|].
  destruct (adjustOffset_keeps t) as (Kc & Kx & Ky & Ku & _).
  set (m1 := adjustOffset t) in *.
  set (Y := Z.to_nat (cursorY m)) in *.
  set (a := take (Z.to_nat (cursorX m)) line) in *.
  set (b := drop (Z.to_nat (cursorX m)) line) in *.
  assert (HY : (Y < length (content m))%nat) by (unfold len in Hr; lia).
  assert (Htk : length (take Y (content m)) = Y) by (rewrite length_take; lia).
  assert (Ha : content m1 !! Z.to_nat (cursorY m1 - 1) = Some a).
  { rewrite Kc, Ky, Hc, Hcy.
    replace (Z.to_nat (cursorY m + 1 - 1)) with (Y + 0)%nat by lia.
    by rewrite lookup_after_take by lia. }
  assert (Hbb : content m1 !! Z.to_nat (cursorY m1) = Some b).
  { rewrite Kc, Ky, Hc, Hcy.
    replace (Z.to_nat (cursorY m + 1)) with (Y + 1)%nat by lia.
    by rewrite lookup_after_take by lia. }
  destruct (backspace_join m1 a b) as (j & Hj & Hjc & Hjx & Hjy);
    [lia|lia|lia|done|done|].
  exists m1, (adjustOffset j).
  split. { rewrite handleInsertMode_enter, Ht. done. }
  split; [congruence|]. split; [congruence|]. split; [congruence|].
  split. { rewrite handleInsertMode_backspace, Hj. done. }
  destruct (adjustOffset_keeps j) as (Bc & Bx & By & Bu & _).
  split.
  - unfold document. rewrite Bc, Bx, By, Hjc, Hjx, Hjy, Kc, Ky, Hc, Hcy.
    replace (Z.to_nat (cursorY m + 1 - 1)) with Y by lia.
    replace (S (Z.to_nat (cursorY m + 1))) with (Y + 2)%nat by lia.
    rewrite take_app_length' by done.
    rewrite (drop_app_add' (take Y (content m)) _ Y 2) by done.
    cbn [drop app]. rewrite drop_0.
    assert (Hlen : len a = cursorX m).
    { subst a. unfold len in *. rewrite length_take. lia. }
    subst a b. rewrite take_drop, (take_drop_middle (content m) Y line), Hlen by done.
    f_equal. lia.
  - rewrite Bu. apply backspace_stacks in Hj as [-> _]. congruence.
Qed.

Lemma enter_then_backspace_witness :
  exists m1 m2,
    handleInsertMode "enter" [] (with_cursorX 1 (opened "ab")) = Ok (m1, CmdNil) /\
    content m1 =
      take (Z.to_nat (cursorY (with_cursorX 1 (opened "ab"))))
        (content (with_cursorX 1 (opened "ab"))) ++
      [take (Z.to_nat (cursorX (with_cursorX 1 (opened "ab")))) [97; 98];
       drop (Z.to_nat (cursorX (with_cursorX 1 (opened "ab")))) [97; 98]] ++
      drop (S (Z.to_nat (cursorY (with_cursorX 1 (opened "ab")))))
        (content (with_cursorX 1 (opened "ab"))) /\
    cursorX m1 = 0 /\ cursorY m1 = cursorY (with_cursorX 1 (opened "ab")) + 1 /\
    handleInsertMode "backspace" [] m1 = Ok (m2, CmdNil) /\
    document m2 = document (with_cursorX 1 (opened "ab")) /\
    undoStack m2 = undoStack (with_cursorX 1 (opened "ab"))
                   ++ [snapshot (with_cursorX 1 (opened "ab"))].
Proof.
  apply (enter_then_backspace (with_cursorX 1 (opened "ab")) [97; 98]).
  - vm_compute. intros H. discriminate H.
  - vm_compute. reflexivity.
  - vm_compute. split; intros H; discriminate H.
  - vm_compute. reflexivity.
Defined.

(** ** Insert mode keeps the cursor in the buffer *)

Lemma cursor_ok_same (m m' : model) (line : list rune) :
  content m' = content m -> cursorY m' = cursorY m ->
  0 <= cursorY m -> content m !! Z.to_nat (cursorY m) = Some line ->
  0 <= cursorX m' <= len line -> cursor_ok m'.
Proof.
  intros Hc Hy H0 Hl Hx. destruct (in_buffer m line H0 Hl) as [Hr _].
  unfold cursor_ok. rewrite Hc, Hy. split; [done|]. by exists line.
Qed.

Lemma lookup_at_take {A} (c t : list A) (n : nat) (x : A) :
  (n <= length c)%nat -> (take n c ++ x :: t) !! n = Some x.
Proof.
  intros H. rewrite lookup_app_r; rewrite length_take; [|lia].
  by replace (n - n `min` length c)%nat with 0%nat by lia.
Qed.

(** Every key of Insert mode returns, and leaves the cursor on a row of
    the buffer and within that row, when it was so before. *)
Theorem insert_mode_keeps_cursor_ok (str : string) (rs : list rune) (m : model) :
  cursor_ok m -> cursorY m < GoInt.intMax ->
  cursorX m + Z.max 1 (tabSize m) <= GoInt.intMax ->
  exists m', handleInsertMode str rs m = Ok (m', CmdNil) /\ cursor_ok m'.
Proof.
  intros (Hr & line & Hl & Hx) Hby Hbx.
  assert (Hy : 0 <= cursorY m) by lia.
  assert (Hfin : forall t, (exists m0, t = Ok m0 /\ cursor_ok m0) ->
            exists m', (do m0 <- t; Ok (adjustOffset m0, CmdNil)) = Ok (m', CmdNil) /\
                       cursor_ok m').
  { intros t (m0 & -> & Hok). exists (adjustOffset m0).
    split; [done|]. by apply cursor_ok_adjustOffset. }
  unfold handleInsertMode. apply Hfin.
  case_decide as Hesc; [|case_decide as Hent; [|case_decide as Hbs;
    [|case_decide as Htab]]].
  - (* esc *)
    eexists. split; [reflexivity|]. unfold leaveInsert. cbv zeta. fields.
    case_decide.
    + apply (cursor_ok_same m _ line); fields; try done.
      rewrite sub_id; unfold GoInt.intMin, GoInt.intMax in *; lia.
    + by apply (cursor_ok_same m _ line).
  - (* enter *)
    destruct (splitLine_Ok m line Hy Hl Hx Hby) as (t & Ht & _ & Hc & Hcx & Hcy).
    exists t. split; [done|]. unfold cursor_ok. rewrite Hc, Hcx, Hcy.
    assert (HY : (Z.to_nat (cursorY m) < length (content m))%nat)
      by (unfold len in Hr; lia).
    split.
    + unfold len in *. rewrite !length_app, length_take, length_drop. simpl. lia.
    + exists (drop (Z.to_nat (cursorX m)) line). split; [|pose proof (len_nonneg (drop (Z.to_nat (cursorX m)) line)); lia].
      replace (Z.to_nat (cursorY m + 1)) with (Z.to_nat (cursorY m) + 1)%nat by lia.
      by rewrite lookup_after_take by lia.
  - (* backspace *)
    destruct (decide (cursorX m > 0)) as [Hpos|Hzero].
    + destruct (backspace_left m line) as (t & Ht & Hc & Hcx & Hcy);
        [done|done|lia|lia|].
      exists t. split; [done|].
      eapply cursor_ok_row; [exact Hc|done|done|].
      rewrite Hcx. unfold len in *. rewrite length_delete; [lia|].
      apply lookup_lt_is_Some_2. lia.
    + destruct (decide (cursorY m > 0)) as [Hrow|Htop].
      * destruct (index_in_range (content m) (cursorY m - 1)) as (prev & _ & Hp); [lia|].
        destruct (backspace_join m prev line) as (t & Ht & Hc & Hcx & Hcy);
          [lia|lia|done|done|done|].
        exists t. split; [done|]. unfold cursor_ok. rewrite Hc, Hcx, Hcy.
        assert (HY : (Z.to_nat (cursorY m) < length (content m))%nat)
          by (unfold len in Hr; lia).
        split.
        -- unfold len in *. rewrite !length_app, length_take, length_drop. simpl. lia.
        -- exists (prev ++ line). split.
           ++ apply lookup_at_take. lia.
           ++ rewrite len_app. pose proof (len_nonneg prev). pose proof (len_nonneg line). lia.
      * exists m. split; [|by split; [|exists line]].
        unfold backspace. by rewrite !decide_False by done.
  - (* tab *)
    unfold insertTab.
    rewrite (times_insertRune _ _ m line) by (try done; lia). fields.
    eexists. split; [reflexivity|].
    eapply cursor_ok_row; fields; [reflexivity|done|done|].
    unfold len in *.
    rewrite !length_app, length_take, length_replicate, length_drop. lia.
  - (* any other key *)
    destruct rs as [|r [|r' rs]]; try (exists m; split; [done|by split; [|exists line]]).
    destruct (typeRunes_Ok r m line) as (t & Ht & _ & Hc & Hcx & Hcy);
      [done|done|done|lia|].
    exists t. split; [done|].
    eapply cursor_ok_row; [exact Hc|done|done|].
    rewrite Hcx. unfold len in *.
    rewrite !length_app, length_take, length_drop. simpl. lia.
Qed.

Lemma insert_mode_keeps_cursor_ok_witness :
  exists m', handleInsertMode "backspace" []
               (after [key "j"; key "i"] (opened ("ab" +:+ newline +:+ "cd")))
             = Ok (m', CmdNil) /\ cursor_ok m'.
Proof.
  apply (insert_mode_keeps_cursor_ok "backspace" []
           (after [key "j"; key "i"] (opened ("ab" +:+ newline +:+ "cd")))).
  - split; [vm_compute; split; [intros H; discriminate H|reflexivity]|].
    exists [99; 100]. split; [vm_compute; reflexivity|].
    vm_compute. split; intros H; discriminate H.
  - vm_compute. reflexivity.
  - vm_compute. intros H. discriminate H.
Defined.

(** ** The cursor row stays in the buffer *)

Lemma assign_inv {A} (s v : list A) (i : Z) (a : A) :
  assign s i a = Ok v -> 0 <= i < len s /\ v = <[Z.to_nat i := a]> s.
Proof. unfold assign. case_decide; [|discriminate]. by intros [= <-]. Qed.

Lemma len_insert {A} (s : list A) (i : nat) (a : A) : len (<[i := a]> s) = len s.
Proof. unfold len. by rewrite length_insert. Qed.

Lemma len_take {A} (s : list A) (i : Z) :
  0 <= i <= len s -> len (take (Z.to_nat i) s) = i.
Proof. unfold len. intros H. rewrite length_take. lia. Qed.

Lemma len_drop {A} (s : list A) (i : Z) :
  0 <= i <= len s -> len (drop (Z.to_nat i) s) = len s - i.
Proof. unfold len. intros H. rewrite length_drop. lia. Qed.

Lemma len_cons {A} (a : A) (s : list A) : len (a :: s) = 1 + len s.
Proof. unfold len. simpl. lia. Qed.

Lemma row_in_mono (lines : list (list rune)) (y B B' : Z) :
  row_in lines y B -> B <= B' -> row_in lines y B'.
Proof. unfold row_in. lia. Qed.

Lemma rows_ok_mono (B B' : Z) (m : model) :
  rows_ok B m -> B <= B' -> rows_ok B' m.
Proof.
  intros [H1 H2] Hle. split; [by eapply row_in_mono|].
  eapply Forall_impl; [exact H2|]. intros a Ha. simpl in *. eapply row_in_mono; eauto.
Qed.

Lemma rows_ok_step (B B' : Z) (m m' : model) :
  rows_ok B m -> B <= B' ->
  undoStack m' = undoStack m -> redoStack m' = redoStack m ->
  row_in (content m') (cursorY m') B' -> rows_ok B' m'.
Proof.
  intros [H1 H2] Hle Hu Hr Hrow. split; [done|]. rewrite Hu, Hr.
  eapply Forall_impl; [exact H2|]. intros a Ha. simpl in *. eapply row_in_mono; eauto.
Qed.

Lemma rows_ok_same (B : Z) (m m' : model) :
  rows_ok B m -> undoStack m' = undoStack m -> redoStack m' = redoStack m ->
  content m' = content m -> cursorY m' = cursorY m -> rows_ok B m'.
Proof.
  intros Hok Hu Hr Hc Hy. apply (rows_ok_step B B m); [done|lia|done|done|].
  rewrite Hc, Hy. apply Hok.
Qed.

Lemma rows_ok_checkpoint (B B' : Z) (m m' : model) :
  rows_ok B m -> B <= B' -> checkpointed m m' ->
  row_in (content m') (cursorY m') B' -> rows_ok B' m'.
Proof.
  intros [H1 H2] Hle [Hu Hr] Hrow. split; [done|]. rewrite Hu, Hr, app_nil_r.
  apply Forall_app in H2 as [H2 _]. apply Forall_app. split.
  - eapply Forall_impl; [exact H2|]. intros a Ha. simpl in *. eapply row_in_mono; eauto.
  - constructor; [|constructor]. unfold snapshot. fields.
    rewrite deepCopyContent_id. by eapply row_in_mono.
Qed.

Lemma snoc_cases {A} (l : list A) : l = [] \/ exists us a, l = us ++ [a].
Proof.
  induction l as [|a us _] using rev_ind; [by left|]. right. by exists us, a.
Qed.

Lemma rows_ok_undo (B : Z) (m m' : model) :
  rows_ok B m -> undo m = Ok m' -> rows_ok B m'.
Proof.
  intros [H1 H2] H. destruct (snoc_cases (undoStack m)) as [Hu|(us & a & Hu)].
  - rewrite undo_empty in H by done. injection H as <-. by split.
  - rewrite (undo_pop m us a) in H by done. injection H as <-.
    rewrite Hu in H2. rewrite !Forall_app in H2.
    destruct H2 as [[Hus Ha] Hr]. apply Forall_inv in Ha. simpl in Ha.
    split; fields; [by rewrite deepCopyContent_id|].
    rewrite !Forall_app. split; [done|]. split; [done|].
    constructor; [|constructor]. unfold snapshot. fields. by rewrite deepCopyContent_id.
Qed.

Lemma rows_ok_redo (B : Z) (m m' : model) :
  rows_ok B m -> redo m = Ok m' -> rows_ok B m'.
Proof.
  intros [H1 H2] H. destruct (snoc_cases (redoStack m)) as [Hr|(rs & a & Hr)].
  - rewrite redo_empty in H by done. injection H as <-. by split.
  - rewrite (redo_pop m rs a) in H by done. injection H as <-.
    rewrite Hr in H2. rewrite !Forall_app in H2.
    destruct H2 as [Hus [Hrs Ha]]. apply Forall_inv in Ha. simpl in Ha.
    split; fields; [by rewrite deepCopyContent_id|].
    rewrite !Forall_app. split; [|done]. split; [done|].
    constructor; [|constructor]. unfold snapshot. fields. by rewrite deepCopyContent_id.
Qed.

Lemma rows_ok_adjustOffset (B : Z) (m : model) :
  rows_ok B m -> rows_ok B (adjustOffset m).
Proof.
  intros H. destruct (adjustOffset_keeps m) as (Hc & _ & Hy & Hu & Hr & _).
  by apply (rows_ok_same B m).
Qed.

Lemma rows_ok_moveCursor (B dx dy : Z) (m m' : model) :
  rows_ok B m -> moveCursor dx dy m = Ok m' -> rows_ok B m'.
Proof.
  intros Hok H. pose proof Hok as [[Hy HB] _].
  unfold moveCursor in H. cbv zeta in H. fields.
  match type of H with context [cursorX ?t < 0] => set (m1 := t) in H end.
  assert (H1 : rows_ok B m1).
  { subst m1. repeat case_decide; fields;
      (apply (rows_ok_step B B m); fields; [done|lia|done|done|split; lia]). }
  clearbody m1. step H. injection H as <-. apply rows_ok_adjustOffset.
  case_decide.
  - injection E as <-. by apply (rows_ok_same B m1).
  - step E. injection E as <-. case_decide; [by apply (rows_ok_same B m1)|done].
Qed.

Lemma rows_ok_findNextLoop (B : Z) (n : nat) (y startX : Z) (m m' : model) :
  rows_ok B m -> findNextLoop n y startX m = Ok m' -> rows_ok B m'.
Proof.
  intros Hok. revert y startX. induction n as [|n IH]; intros y startX H; simpl in H.
  - injection H as <-. by apply (rows_ok_same B m).
  - do 2 step H. case_decide; [|by eapply IH].
    injection H as <-. apply rows_ok_adjustOffset.
    apply index_Ok in E as [Hy0 Hl]. apply lookup_lt_Some in Hl.
    apply (rows_ok_step B B m); fields; [done|lia|done|done|].
    split; [unfold len; lia|apply Hok].
Qed.

Lemma rows_ok_findPreviousLoop (B : Z) (sp : Z -> list rune) (n : nat)
    (y startX : Z) (m m' : model) :
  rows_ok B m -> findPreviousLoop sp n y startX m = Ok m' -> rows_ok B m'.
Proof.
  intros Hok. revert y startX. induction n as [|n IH]; intros y startX H; simpl in H.
  - injection H as <-. by apply (rows_ok_same B m).
  - do 3 step H. case_decide; [|by eapply IH].
    injection H as <-. apply rows_ok_adjustOffset.
    apply index_Ok in E0 as [Hy0 Hl]. apply lookup_lt_Some in Hl.
    apply (rows_ok_step B B m); fields; [done|lia|done|done|].
    split; [unfold len; lia|apply Hok].
Qed.

Lemma replaceLines_length (lines : list (list rune)) (term repl : string) (count : Z) :
  length (replaceLines lines term repl count).1.1 = length lines.
Proof.
  revert count. induction lines as [|l lines IH]; intros count; [done|].
  cbn [replaceLines]. cbv zeta. case_decide.
  - specialize (IH (GoInt.add count (GoStrings.Count (Utf8.stringOf l) term))).
    destruct (replaceLines lines term repl _) as [[r c] b]. simpl in *. by rewrite IH.
  - specialize (IH count).
    destruct (replaceLines lines term repl _) as [[r c] b]. simpl in *. by rewrite IH.
Qed.

Lemma replaceAll_keeps (m : model) :
  cursorX (replaceAll m) = cursorX m /\ cursorY (replaceAll m) = cursorY m /\
  undoStack (replaceAll m) = undoStack m /\ redoStack (replaceAll m) = redoStack m.
Proof.
  unfold replaceAll.
  destruct (replaceLines (content m) (searchTerm m) (replaceTerm m) 0) as [[r c] []];
    done.
Qed.

Lemma rows_ok_replaceAll (B : Z) (m : model) :
  rows_ok B m -> rows_ok B (replaceAll m).
Proof.
  intros Hok. destruct (replaceAll_keeps m) as (_ & Hy & Hu & Hr).
  destruct (replaceAll_fields m) as (Hc & _).
  apply (rows_ok_step B B m); [done|lia|done|done|].
  rewrite Hy, Hc. unfold row_in, len. rewrite replaceLines_length. apply Hok.
Qed.

Lemma rows_ok_deleteChar (B : Z) (m m' : model) :
  rows_ok B m -> deleteCharUnderCursor m = Ok m' -> rows_ok B m'.
Proof.
  intros Hok H. unfold deleteCharUnderCursor in H. step H.
  case_decide; [|by injection H as <-]. do 3 step H. injection H as <-.
  apply assign_inv in E2 as [_ ->].
  apply (rows_ok_step B B m); fields; [done|lia|done|done|].
  unfold row_in. rewrite len_insert. apply Hok.
Qed.

Lemma rows_ok_deleteLine (B : Z) (m m' : model) :
  rows_ok B m -> B < GoInt.intMax -> deleteLine m = Ok m' -> rows_ok B m'.
Proof.
  intros Hok Hb H. pose proof Hok as [[Hy HB] _].
  unfold deleteLine in H. case_decide as Hlast; [|by injection H as <-].
  cbv zeta in H. fields. do 3 step H.
  rewrite add_id in E1 by (unfold GoInt.intMin, GoInt.intMax in *; lia).
  apply sliceTo_inv in E0 as [_ ->]. apply sliceFrom_inv in E1 as [_ ->].
  assert (Hlen : len (take (Z.to_nat (cursorY m)) (content m) ++
                      drop (Z.to_nat (cursorY m + 1)) (content m))
                 = len (content m) - 1).
  { rewrite len_app, len_take, len_drop by lia. lia. }
  rewrite decide_False in H by (fields; lia). injection H as <-.
  apply (rows_ok_step B B m); fields; [done|lia|done|done|].
  unfold row_in. rewrite Hlen. lia.
Qed.

Lemma rows_ok_pasteLine (B : Z) (m m' : model) :
  rows_ok B m -> B < GoInt.intMax -> pasteLine m = Ok m' -> rows_ok (B + 1) m'.
Proof.
  intros Hok Hb H. pose proof Hok as [[Hy HB] _].
  destruct (decide (clipboard m <> "")) as [Hc|Hc].
  - destruct (pasteLine_Ok m) as (p & Hp & Hck & Hpc & _ & Hpy);
      [done|unfold GoInt.intMax in *; lia|done|].
    rewrite Hp in H. injection H as <-.
    apply (rows_ok_checkpoint B (B + 1) m); [done|lia|done|].
    rewrite Hpc, Hpy. unfold row_in, len in *.
    rewrite !length_app, length_take, length_drop. cbn [length]. lia.
  - unfold pasteLine in H. rewrite decide_False in H by done.
    injection H as <-. eapply rows_ok_mono; [done|lia].
Qed.

Lemma rows_ok_insertRune (B : Z) (r : rune) (m m' : model) :
  rows_ok B m -> insertRune r m = Ok m' -> rows_ok B m'.
Proof.
  intros Hok H. unfold insertRune in H. do 4 step H. injection H as <-.
  apply assign_inv in E2 as [_ ->].
  apply (rows_ok_step B B m); fields; [done|lia|done|done|].
  unfold row_in. rewrite len_insert. apply Hok.
Qed.

Lemma rows_ok_times_insertRune (B : Z) (n : nat) (r : rune) (m m' : model) :
  rows_ok B m -> times n (insertRune r) m = Ok m' -> rows_ok B m'.
Proof.
  revert m. induction n as [|n IH]; simpl; intros m Hok H.
  - by injection H as <-.
  - step H. eapply IH; [|done]. by eapply rows_ok_insertRune.
Qed.

Lemma rows_ok_typeRunes (B : Z) (rs : list rune) (m m' : model) :
  rows_ok B m -> typeRunes rs m = Ok m' -> rows_ok B m'.
Proof.
  intros Hok H. destruct rs as [|r [|r' rs]]; try (by injection H as <-).
  unfold typeRunes in H. step H. injection H as <-.
  apply (rows_ok_same B v); try done.
  eapply rows_ok_insertRune; [|exact E].
  apply (rows_ok_checkpoint B B m); [done|lia|by split|apply Hok].
Qed.

Lemma rows_ok_splitLine (B : Z) (m m' : model) :
  rows_ok B m -> B < GoInt.intMax -> splitLine m = Ok m' -> rows_ok (B + 1) m'.
Proof.
  intros Hok Hb H. pose proof Hok as [[Hy HB] _].
  pose proof (splitLine_checkpointed m m' H) as Hck.
  unfold splitLine in H. cbv zeta in H. fields. do 4 step H. fields.
  rewrite add_id in H by (unfold GoInt.intMin, GoInt.intMax in *; lia).
  do 2 step H. injection H as <-.
  apply assign_inv in E2 as [_ ->].
  apply sliceTo_inv in E3 as [Hr ->]. apply sliceFrom_inv in E4 as [_ ->].
  apply (rows_ok_checkpoint B (B + 1) m); fields; [done|lia|done|].
  unfold row_in. rewrite len_insert in Hr.
  rewrite len_app, len_cons, len_take, len_drop by (rewrite ?len_insert; lia).
  rewrite len_insert. lia.
Qed.

Lemma rows_ok_backspace (B : Z) (m m' : model) :
  rows_ok B m -> B < GoInt.intMax -> backspace m = Ok m' -> rows_ok B m'.
Proof.
  intros Hok Hb H. pose proof Hok as [[Hy HB] _].
  unfold backspace in H. case_decide.
  - do 4 step H. injection H as <-. apply assign_inv in E2 as [_ ->].
    apply (rows_ok_step B B m); fields; [done|lia|done|done|].
    unfold row_in. rewrite len_insert. apply Hok.
  - case_decide; [|by injection H as <-].
    cbv zeta in H. fields.
    rewrite sub_id in H by (unfold GoInt.intMin, GoInt.intMax in *; lia).
    rewrite !add_id in H by (unfold GoInt.intMin, GoInt.intMax in *; lia).
    do 5 step H. injection H as <-.
    apply assign_inv in E1 as [_ ->].
    apply sliceTo_inv in E2 as [_ ->]. apply sliceFrom_inv in E3 as [_ ->].
    apply (rows_ok_step B B m); fields; [done|lia|done|done|].
    unfold row_in.
    rewrite len_app, len_take, len_drop by (rewrite ?len_insert; lia).
    rewrite len_insert. lia.
Qed.

Lemma rows_ok_normal (w : world) (B : Z)
    (str : string) (m m' : model) (c : cmd) :
  rows_ok B m -> B < GoInt.intMax ->
  handleNormalMode w str m = Ok (m', c) -> rows_ok (B + 1) m'.
Proof.
  intros Hok Hb H. pose proof Hok as [[Hy HB] _].
  unfold handleNormalMode, stay in H.
  repeat case_decide.
  all: try (destruct (modified m)).
  all: try (step H).
  all: injection H as <- Hcmd; clear Hcmd.
  all: try (by eapply rows_ok_pasteLine).
  all: apply (rows_ok_mono B); [|lia].
  all: try exact Hok.
  all: try (by eapply rows_ok_moveCursor).
  all: try (by eapply rows_ok_deleteChar).
  all: try (by eapply rows_ok_deleteLine).
  all: try (by eapply rows_ok_undo).
  all: try (by eapply rows_ok_redo).
  all: try (unfold findNext in E; by eapply rows_ok_findNextLoop).
  all: try (unfold findPrevious in E; by eapply rows_ok_findPreviousLoop).
  all: try (by apply (rows_ok_same B m)).
  all: try (apply (rows_ok_step B B m); fields; [done|lia|done|done|split; lia]).
  all: try (apply rows_ok_adjustOffset;
            apply (rows_ok_step B B m); fields; [done|lia|done|done|split; lia]).
  all: try (unfold saveFile; destruct (WriteFile w _ _); by apply (rows_ok_same B m)).
  all: try (step E; injection E as <-; by apply (rows_ok_same B m)).
  all: unfold yankLine in E; case_decide; [step E|]; injection E as <-;
    by apply (rows_ok_same B m).
Qed.

Lemma rows_ok_insert (B : Z) (str : string) (rs : list rune) (m m' : model) (c : cmd) :
  rows_ok B m -> B < GoInt.intMax ->
  handleInsertMode str rs m = Ok (m', c) -> rows_ok (B + 1) m'.
Proof.
  intros Hok Hb H. unfold handleInsertMode in H. step H.
  injection H as <- _. apply rows_ok_adjustOffset.
  repeat case_decide.
  - injection E as <-. apply (rows_ok_mono B); [|lia].
    unfold leaveInsert. cbv zeta. case_decide; by apply (rows_ok_same B m).
  - by eapply rows_ok_splitLine.
  - apply (rows_ok_mono B); [|lia]. by eapply rows_ok_backspace.
  - apply (rows_ok_mono B); [|lia]. unfold insertTab in E. step E.
    injection E as <-. apply (rows_ok_same B v0); try done.
    by eapply rows_ok_times_insertRune.
  - apply (rows_ok_mono B); [|lia]. by eapply rows_ok_typeRunes.
Qed.

Lemma rows_ok_search (B : Z) (str : string) (rs : list rune) (m m' : model) (c : cmd) :
  rows_ok B m -> handleSearchMode str rs m = Ok (m', c) -> rows_ok B m'.
Proof.
  intros Hok H. unfold handleSearchMode in H. repeat case_decide.
  all: try (step H; unfold findNext in E).
  all: try (destruct rs as [|r [|r' rs]]).
  all: injection H as <- _.
  all: try (by apply (rows_ok_same B m)).
  all: apply (rows_ok_same B v); try done; by eapply rows_ok_findNextLoop.
Qed.

Lemma rows_ok_replace (B : Z) (str : string) (rs : list rune) (m m' : model) (c : cmd) :
  rows_ok B m -> handleReplaceMode str rs m = Ok (m', c) -> rows_ok B m'.
Proof.
  intros Hok H. unfold handleReplaceMode in H. repeat case_decide.
  all: try (destruct rs as [|r [|r' rs]]).
  all: injection H as <- _.
  all: try (by apply (rows_ok_same B m)).
  all: apply (rows_ok_same B (replaceAll m)); try done; by apply rows_ok_replaceAll.
Qed.

Lemma rows_ok_Update (w : world) (B : Z)
    (e : msg) (m m' : model) (c : cmd) :
  rows_ok B m -> B < GoInt.intMax ->
  Update w e m = Ok (m', c) -> rows_ok (B + 1) m'.
Proof.
  intros Hok Hb H. destruct e as [str rs|wd ht|]; simpl in H.
  - destruct (mode_ m).
    + by eapply rows_ok_normal.
    + by eapply rows_ok_insert.
    + apply (rows_ok_mono B); [|lia]. by eapply rows_ok_search.
    + apply (rows_ok_mono B); [|lia]. by eapply rows_ok_replace.
  - injection H as <- _. apply (rows_ok_mono B); [|lia].
    by apply (rows_ok_same B m).
  - injection H as <- _. by apply (rows_ok_mono B); [|lia].
Qed.

Lemma rows_ok_session (steps : list (world * msg)) (B : Z) (m m' : model) :
  rows_ok B m -> B + len steps <= GoInt.intMax ->
  session steps m = Ok m' -> rows_ok (B + len steps) m'.
Proof.
  revert B m. induction steps as [|[w e] steps IH]; intros B m Hok Hb H; simpl in H.
  - injection H as <-. apply (rows_ok_mono B); [done|]. unfold len. simpl. lia.
  - step H. destruct v as [m1 c]. rewrite len_cons in *.
    pose proof (len_nonneg steps).
    replace (B + (1 + len steps)) with ((B + 1) + len steps) by lia.
    apply (IH (B + 1) m1); [|lia|done].
    eapply rows_ok_Update; [done| |done]. lia.
Qed.

(** In a session that starts with the cursor row in the buffer, every
    message that is handled leaves the cursor on a row of the buffer, and
    the buffer with at least one line, however the messages follow each
    other, whatever the writes to the disk give and whatever the backing
    arrays of the rows hold past their lengths; the same holds of every
    snapshot that undo or redo can bring back.  The bound keeps the number
    of lines within the integers. *)
Theorem session_keeps_cursor_row (steps : list (world * msg)) (B : Z)
    (m m' : model) :
  rows_ok B m -> B + len steps <= GoInt.intMax -> session steps m = Ok m' ->
  rows_ok (B + len steps) m' /\
  (0 <= cursorY m' < len (content m')) /\ content m' <> [].
Proof.
  intros Hok Hb H. pose proof (rows_ok_session steps B m m' Hok Hb H) as Hr.
  split; [done|]. destruct Hr as [[Hy _] _]. split; [done|].
  intros Hnil. rewrite Hnil in Hy. unfold len in Hy. simpl in Hy. lia.
Qed.

Lemma session_keeps_cursor_row_witness :
  rows_ok (2 + len [(roomy, key "N"); (roomy, key "N"); (disk, key "j"); (disk, key "d");
                    (full_disk, key ":"); (full_disk, key "w"); (disk, key "u")])
    (ended [(roomy, key "N"); (roomy, key "N"); (disk, key "j"); (disk, key "d");
            (full_disk, key ":"); (full_disk, key "w"); (disk, key "u")]
       (opened (Utf8.stringOf [97; 97; 233] +:+ newline +:+ "cd"))) /\
  (0 <= cursorY (ended [(roomy, key "N"); (roomy, key "N"); (disk, key "j"); (disk, key "d");
                        (full_disk, key ":"); (full_disk, key "w"); (disk, key "u")]
                   (opened (Utf8.stringOf [97; 97; 233] +:+ newline +:+ "cd")))
     < len (content (ended [(roomy, key "N"); (roomy, key "N"); (disk, key "j"); (disk, key "d");
                            (full_disk, key ":"); (full_disk, key "w"); (disk, key "u")]
                       (opened (Utf8.stringOf [97; 97; 233] +:+ newline +:+ "cd"))))) /\
  content (ended [(roomy, key "N"); (roomy, key "N"); (disk, key "j"); (disk, key "d");
                  (full_disk, key ":"); (full_disk, key "w"); (disk, key "u")]
             (opened (Utf8.stringOf [97; 97; 233] +:+ newline +:+ "cd"))) <> [].
Proof.
  apply (session_keeps_cursor_row
           [(roomy, key "N"); (roomy, key "N"); (disk, key "j"); (disk, key "d");
            (full_disk, key ":"); (full_disk, key "w"); (disk, key "u")] 2
           (opened (Utf8.stringOf [97; 97; 233] +:+ newline +:+ "cd"))).
  - split; [|apply Forall_nil_2]. vm_compute.
    split; [split; [intros H; discriminate H|reflexivity]|intros H; discriminate H].
  - vm_compute. intros H. discriminate H.
  - vm_compute. reflexivity.
Defined.

(** ** Strings *)

Lemma sapp_cons (c : ascii) (s t : string) : String c s +:+ t = String c (s +:+ t).
Proof. reflexivity. Qed.

Lemma sapp_assoc (s t u : string) : (s +:+ t) +:+ u = s +:+ (t +:+ u).
Proof. induction s as [|c s IH]; [done|]. by rewrite !sapp_cons, IH. Qed.

Lemma sapp_nil_r (s : string) : s +:+ "" = s.
Proof. induction s as [|c s IH]; [done|]. by rewrite sapp_cons, IH. Qed.

Lemma stake_sapp (s t : string) : stake (String.length s) (s +:+ t) = s.
Proof.
  induction s as [|c s IH]; [by destruct t|].
  rewrite sapp_cons. cbn [String.length stake]. by rewrite IH.
Qed.


Lemma has_byte_sapp (c : ascii) (s t : string) :
  has_byte c (s +:+ t) = has_byte c s || has_byte c t.
Proof.
  induction s as [|a s IH]; [done|].
  rewrite sapp_cons. cbn [has_byte]. by rewrite IH, orb_assoc.
Qed.

Lemma has_byte_repeat (c a : ascii) (n : nat) :
  a <> c -> has_byte c (GoStrings.repeat (String a "") n) = false.
Proof.
  intros H. induction n as [|n IH]; [done|].
  cbn [GoStrings.repeat]. rewrite has_byte_sapp, IH. cbn [has_byte].
  by rewrite (proj2 (Ascii.eqb_neq a c) H).
Qed.

(** A character that is not the one-byte character [c] has no byte [c]
    in its encoding: the bytes of a longer encoding are 0x80 and up. *)
Lemma has_byte_EncodeRune (c : ascii) (r : rune) :
  byteZ c < 128 -> r <> byteZ c -> has_byte c (Utf8.EncodeRune r) = false.
Proof.
  intros Hc Hr.
  assert (Hne : forall z, 0 <= z < 256 -> z <> byteZ c -> Ascii.eqb (Zbyte z) c = false).
  { intros z Hz Hzc. apply Ascii.eqb_neq. intros <-. by rewrite byteZ_Zbyte in Hzc. }
  destruct (decide (0 <= r <= 0x7F)) as [H1|H1].
  { unfold Utf8.EncodeRune. rewrite decide_True by done. cbn [has_byte].
    rewrite Hne by lia. done. }
  destruct (decide (0 <= r <= 0x7FF)) as [H2|H2].
  { rewrite EncodeRune_2 by lia. cbn [has_byte].
    rewrite !Hne by (Z.div_mod_to_equations; lia). done. }
  destruct (decide (r < 0 \/ Utf8.MaxRune < r \/ 0xD800 <= r <= 0xDFFF)) as [H3|H3].
  { unfold Utf8.EncodeRune. rewrite !decide_False by done. rewrite decide_True by done.
    replace (Utf8.encode3 Utf8.RuneError)
      with (String (Zbyte 239) (String (Zbyte 191) (String (Zbyte 189) "")))
      by (vm_compute; reflexivity).
    cbn [has_byte]. rewrite !Hne by lia. done. }
  unfold Utf8.MaxRune in H3.
  destruct (decide (r <= 0xFFFF)) as [H4|H4].
  { rewrite EncodeRune_3 by lia. cbn [has_byte].
    rewrite !Hne by (Z.div_mod_to_equations; lia). done. }
  rewrite EncodeRune_4 by lia. cbn [has_byte].
  rewrite !Hne by (Z.div_mod_to_equations; lia). done.
Qed.

Lemma has_byte_stringOf (c : ascii) (l : list rune) :
  byteZ c < 128 -> Forall (fun r => r <> byteZ c) l ->
  has_byte c (Utf8.stringOf l) = false.
Proof.
  intros Hc. induction 1 as [|r l Hr _ IH]; [done|].
  cbn [Utf8.stringOf]. by rewrite has_byte_sapp, has_byte_EncodeRune, IH.
Qed.

(** ** Tab expansion for the screen *)

Lemma expandTabsLoop_no_tab (l : list rune) (tabSize column : Z) :
  Forall (fun r => r <> 9) l ->
  expandTabsLoop l tabSize column = Ok (Utf8.stringOf l).
Proof.
  intros H. revert column. induction H as [|r l Hr _ IH]; intros column; [done|].
  cbn [expandTabsLoop]. rewrite decide_False by done. by rewrite IH.
Qed.

(** Text without a tab is drawn as it is, whatever the tab size. *)
Theorem expandTabs_no_tab (l : list rune) (tabSize : Z) :
  Forall valid_rune l -> Forall (fun r => r <> 9) l ->
  expandTabs (Utf8.stringOf l) tabSize = Ok (Utf8.stringOf l).
Proof.
  intros Hv Ht. unfold expandTabs. rewrite runes_stringOf by done.
  by apply expandTabsLoop_no_tab.
Qed.

Lemma expandTabs_no_tab_witness :
  expandTabs (Utf8.stringOf [97; 233; 8364]) 0 = Ok (Utf8.stringOf [97; 233; 8364]).
Proof.
  apply (expandTabs_no_tab [97; 233; 8364] 0).
  - repeat constructor; vm_compute; intros H; discriminate H.
  - repeat constructor; intros H; discriminate H.
Defined.

Lemma expandTabsLoop_zero (l : list rune) (column : Z) :
  In 9 l -> expandTabsLoop l 0 column = Panic IntegerDivideByZero.
Proof.
  revert column. induction l as [|r l IH]; intros column Hin; [done|].
  cbn [expandTabsLoop]. case_decide as Hr; [done|].
  destruct Hin as [Hin|Hin]; [done|]. by rewrite IH.
Qed.

(** With tab size 0 the first tab of a text divides by zero. *)
Theorem expandTabs_zero_tabSize (s : string) :
  In 9 (Utf8.runes s) -> expandTabs s 0 = Panic IntegerDivideByZero.
Proof. intros H. unfold expandTabs. by apply expandTabsLoop_zero. Qed.

Lemma expandTabs_zero_tabSize_witness :
  expandTabs (Utf8.stringOf [97; 9; 98]) 0 = Panic IntegerDivideByZero.
Proof.
  apply (expandTabs_zero_tabSize (Utf8.stringOf [97; 9; 98])).
  vm_compute. right. left. reflexivity.
Defined.

Lemma expandTabsLoop_returns (l : list rune) (tabSize column : Z) :
  0 < tabSize -> 0 <= column -> column + len l * tabSize <= GoInt.intMax ->
  exists out,
    expandTabsLoop l tabSize column = Ok out /\ has_byte (Zbyte 9) out = false.
Proof.
  intros Ht. revert column. induction l as [|r l IH]; intros column Hc Hb.
  { by exists "". }
  rewrite len_cons in Hb. pose proof (len_nonneg l) as Hl.
  cbn [expandTabsLoop]. case_decide as Hr.
  - unfold GoInt.rem. rewrite decide_False by lia. cbn [bind].
    rewrite Z.rem_mod_nonneg by lia.
    pose proof (Z.mod_pos_bound column tabSize Ht) as Hm.
    rewrite sub_id by (unfold GoInt.intMin, GoInt.intMax in *; nia).
    unfold GoStrings.Repeat. rewrite decide_False by lia. cbn [bind].
    rewrite add_id by (unfold GoInt.intMin, GoInt.intMax in *; nia).
    destruct (IH (column + (tabSize - column `mod` tabSize))) as (out & -> & Ho);
      [lia|nia|].
    eexists. split; [reflexivity|].
    rewrite has_byte_sapp, Ho, has_byte_repeat; [done|]. discriminate.
  - rewrite add_id by (unfold GoInt.intMin, GoInt.intMax in *; nia).
    destruct (IH (column + 1)) as (out & -> & Ho); [lia|nia|].
    eexists. split; [reflexivity|].
    rewrite has_byte_sapp, Ho, has_byte_EncodeRune; [done|done|].
    by rewrite byteZ_Zbyte.
Qed.

(** With a positive tab size the expansion returns, and what it returns
    has no tab in it. *)
Theorem expandTabs_returns_without_tabs (s : string) (tabSize : Z) :
  0 < tabSize -> Utf8.RuneCountInString s * tabSize <= GoInt.intMax ->
  exists out, expandTabs s tabSize = Ok out /\ has_byte (Zbyte 9) out = false.
Proof.
  intros Ht Hb. unfold expandTabs. apply expandTabsLoop_returns; [done|done|].
  unfold Utf8.RuneCountInString in Hb. lia.
Qed.

Lemma expandTabs_returns_without_tabs_witness :
  exists out,
    expandTabs (Utf8.stringOf [97; 9; 98; 9]) 4 = Ok out /\
    has_byte (Zbyte 9) out = false.
Proof.
  apply (expandTabs_returns_without_tabs (Utf8.stringOf [97; 9; 98; 9]) 4).
  - vm_compute. reflexivity.
  - vm_compute. intros H. discriminate H.
Defined.

Lemma expandTabsLoop_app (pre l : list rune) (tabSize column : Z) :
  Forall (fun r => r <> 9) pre -> column + len pre <= GoInt.intMax -> 0 <= column ->
  expandTabsLoop (pre ++ l) tabSize column =
  do rest <- expandTabsLoop l tabSize (column + len pre);
  Ok (Utf8.stringOf pre +:+ rest).
Proof.
  revert column. induction pre as [|r pre IH]; intros column H Hb Hc.
  { cbn [app Utf8.stringOf]. unfold len. cbn [length].
    replace (column + Z.of_nat 0) with column by lia.
    by destruct (expandTabsLoop l tabSize column). }
  apply Forall_cons in H as [Hr H].
  rewrite len_cons in Hb. pose proof (len_nonneg pre) as Hl.
  cbn [app expandTabsLoop Utf8.stringOf]. rewrite decide_False by done.
  rewrite add_id by (unfold GoInt.intMin, GoInt.intMax in *; lia).
  rewrite IH by (try done; lia). rewrite len_cons.
  replace (column + 1 + len pre) with (column + (1 + len pre)) by lia.
  destruct (expandTabsLoop l tabSize _); [|done].
  cbn [bind]. by rewrite sapp_assoc.
Qed.

(** The first tab of a line is drawn as the spaces that lead to the next
    multiple of the tab size, one at least, and the text after it goes
    on from that column. *)
Theorem expandTabs_first_tab (pre post : list rune) (tabSize : Z) :
  Forall valid_rune (pre ++ 9 :: post) -> Forall (fun r => r <> 9) pre ->
  0 < tabSize -> len pre + tabSize <= GoInt.intMax ->
  exists k,
    1 <= Z.of_nat k <= tabSize /\ (len pre + Z.of_nat k) mod tabSize = 0 /\
    expandTabs (Utf8.stringOf (pre ++ 9 :: post)) tabSize =
    do rest <- expandTabsLoop post tabSize (len pre + Z.of_nat k);
    Ok (Utf8.stringOf pre +:+ GoStrings.repeat " " k +:+ rest).
Proof.
  intros Hv Hp Ht Hb. pose proof (len_nonneg pre) as Hl.
  pose proof (Z.mod_pos_bound (len pre) tabSize Ht) as Hm.
  exists (Z.to_nat (tabSize - len pre mod tabSize)).
  rewrite Z2Nat.id by lia. split; [lia|]. split.
  { replace (len pre + (tabSize - len pre `mod` tabSize))
      with (len pre - len pre `mod` tabSize + 1 * tabSize) by lia.
    rewrite Z.mod_add by lia. rewrite Zminus_mod_idemp_r, Z.sub_diag. done. }
  unfold expandTabs. rewrite runes_stringOf by done.
  rewrite expandTabsLoop_app by (try done; lia).
  cbn [expandTabsLoop]. rewrite decide_True by done.
  unfold GoInt.rem. rewrite decide_False by lia. cbn [bind].
  replace (0 + len pre) with (len pre) by lia.
  rewrite Z.rem_mod_nonneg by lia.
  rewrite sub_id by (unfold GoInt.intMin, GoInt.intMax in *; lia).
  unfold GoStrings.Repeat. rewrite decide_False by lia. cbn [bind].
  rewrite add_id by (unfold GoInt.intMin, GoInt.intMax in *; lia).
  by destruct (expandTabsLoop post tabSize _).
Qed.

Lemma expandTabs_first_tab_witness :
  exists k,
    1 <= Z.of_nat k <= 4 /\ (len [97; 98] + Z.of_nat k) mod 4 = 0 /\
    expandTabs (Utf8.stringOf ([97; 98] ++ 9 :: [99])) 4 =
    do rest <- expandTabsLoop [99] 4 (len [97; 98] + Z.of_nat k);
    Ok (Utf8.stringOf [97; 98] +:+ GoStrings.repeat " " k +:+ rest).
Proof.
  apply (expandTabs_first_tab [97; 98] [99] 4).
  - repeat constructor; vm_compute; intros H; discriminate H.
  - repeat constructor; intros H; discriminate H.
  - vm_compute. reflexivity.
  - vm_compute. intros H. discriminate H.
Defined.

(** ** Highlighting the search term *)

Lemma prefix_nonempty_nil (t : string) : t <> "" -> String.prefix t "" = false.
Proof. by destruct t. Qed.

Lemma countFrom_skip (t s : string) (k : nat) :
  GoStrings.countFrom t k s = GoStrings.countFrom t 0 (sdrop k s).
Proof.
  revert k. induction s as [|c s IH]; intros k; [by destruct k|].
  destruct k as [|k]; [done|]. cbn [GoStrings.countFrom sdrop]. apply IH.
Qed.

Lemma countFrom_first (t s : string) (i : nat) :
  t <> "" -> GoStrings.indexOf t s = Some i ->
  GoStrings.countFrom t 0 s
  = S (GoStrings.countFrom t 0 (sdrop (i + String.length t) s)).
Proof.
  intros Ht. revert i. induction s as [|c s IH]; intros i H.
  - cbn [GoStrings.indexOf] in H. by rewrite prefix_nonempty_nil in H.
  - cbn [GoStrings.indexOf] in H. cbn [GoStrings.countFrom].
    destruct (String.prefix t (String c s)) eqn:E.
    + injection H as <-. f_equal. rewrite countFrom_skip. f_equal.
      destruct t as [|a t]; [done|]. cbn [String.length sdrop Nat.add].
      f_equal. lia.
    + destruct (GoStrings.indexOf t s) as [j|] eqn:Ej; [|done].
      injection H as <-. by rewrite (IH j).
Qed.

Lemma Count_first (t s : string) (i : nat) :
  t <> "" -> GoStrings.indexOf t s = Some i ->
  Z.to_nat (GoStrings.Count s t)
  = S (Z.to_nat (GoStrings.Count (sdrop (i + String.length t) s) t)).
Proof.
  intros Ht H. unfold GoStrings.Count. rewrite !decide_False by done.
  rewrite (countFrom_first t s i) by done. lia.
Qed.

Lemma Split_first (t s : string) (i : nat) :
  t <> "" -> GoStrings.indexOf t s = Some i ->
  GoStrings.Split s t
  = stake i s :: GoStrings.Split (sdrop (i + String.length t) s) t.
Proof.
  intros Ht H. unfold GoStrings.Split. rewrite !decide_False by done.
  rewrite (Count_first t s i) by done. cbn [GoStrings.splitLoop]. by rewrite H.
Qed.

Lemma Split_nonempty (t s : string) : t <> "" -> GoStrings.Split s t <> [].
Proof.
  intros Ht. unfold GoStrings.Split. rewrite decide_False by done.
  apply splitLoop_nonempty.
Qed.

Lemma markParts_nonempty (parts : list string) (t : string) :
  parts <> [] -> markParts parts t <> [].
Proof. destruct parts as [|p [|q r]]; done. Qed.

Lemma markParts_cons (p : string) (rest : list string) (t : string) :
  rest <> [] -> markParts (p :: rest) t = (p +:+ highlightStyle t) :: markParts rest t.
Proof. by destruct rest. Qed.

Lemma Join_cons (e : string) (rest : list string) (sep : string) :
  rest <> [] -> GoStrings.Join (e :: rest) sep = e +:+ sep +:+ GoStrings.Join rest sep.
Proof. by destruct rest. Qed.

(** A text in which the term does not occur is drawn as it is. *)
Theorem highlightSearch_no_match (text term : string) :
  GoStrings.indexOf term text = None -> highlightSearch text term = text.
Proof.
  intros H. unfold highlightSearch. case_decide as Ht; [done|].
  unfold GoStrings.Split. rewrite decide_False by done.
  by rewrite Count_free.
Qed.

Lemma highlightSearch_no_match_witness :
  highlightSearch "hello world" "xyz" = "hello world".
Proof.
  apply (highlightSearch_no_match "hello world" "xyz").
  vm_compute. reflexivity.
Defined.

(** The first occurrence of the term is wrapped in the escape sequences
    for a yellow background, the text before it stays, and the text after
    it is highlighted in the same way. *)
Theorem highlightSearch_first_match (text term : string) (i : nat) :
  term <> "" -> GoStrings.indexOf term text = Some i ->
  highlightSearch text term =
  stake i text +:+ highlightStyle term +:+
  highlightSearch (sdrop (i + String.length term) text) term.
Proof.
  intros Ht H. unfold highlightSearch. rewrite !decide_False by done.
  rewrite (Split_first term text i) by done.
  rewrite markParts_cons by by apply Split_nonempty.
  rewrite Join_cons by by apply markParts_nonempty, Split_nonempty.
  by rewrite sapp_assoc.
Qed.

Lemma highlightSearch_first_match_witness :
  highlightSearch "say hello, hello" "hello" =
  stake 4 "say hello, hello" +:+ highlightStyle "hello" +:+
  highlightSearch (sdrop (4 + String.length "hello") "say hello, hello") "hello".
Proof.
  apply (highlightSearch_first_match "say hello, hello" "hello" 4).
  - intros H. discriminate H.
  - vm_compute. reflexivity.
Defined.

(** ** Editing the search term *)

Lemma stake_sapp_more (s t : string) (k : nat) :
  stake (String.length s + k) (s +:+ t) = s +:+ stake k t.
Proof.
  induction s as [|c s IH]; [done|].
  rewrite !sapp_cons. cbn [String.length Nat.add stake]. by rewrite IH.
Qed.

Lemma length_sdrop (k : nat) (s : string) :
  String.length (sdrop k s) = (String.length s - k)%nat.
Proof.
  revert k. induction s as [|c s IH]; intros [|k]; try done.
  cbn [sdrop String.length]. by rewrite IH.
Qed.

Lemma EncodeRune_length (r : rune) :
  (if decide (0 <= r <= 0x7F) then String.length (Utf8.EncodeRune r) = 1%nat
   else (2 <= String.length (Utf8.EncodeRune r))%nat).
Proof.
  unfold Utf8.EncodeRune, Utf8.encode3. repeat case_decide; cbn [String.length]; lia.
Qed.

(** In Search mode a typed character is appended to the search term, and
    backspace takes the last byte of the term away.  For a character of
    one byte that is the character just typed; of a character with a
    longer encoding it leaves all bytes but the last. *)
Theorem search_type_then_backspace (r : rune) (m : model) :
  exists m1 m2,
    handleSearchMode (Utf8.EncodeRune r) [r] m = Ok (m1, CmdNil) /\
    searchTerm m1 = searchTerm m +:+ Utf8.EncodeRune r /\
    handleSearchMode "backspace" [] m1 = Ok (m2, CmdNil) /\
    searchTerm m2 =
      searchTerm m +:+
      stake (String.length (Utf8.EncodeRune r) - 1) (Utf8.EncodeRune r) /\
    statusMsg m2 = "/" +:+ searchTerm m2 /\
    (ascii_rune r -> searchTerm m2 = searchTerm m) /\
    (~ ascii_rune r -> String.length (searchTerm m) < String.length (searchTerm m2))%nat.
Proof.
  destruct (char_not_named r) as (H1 & H2 & H3 & _).
  destruct (EncodeRune_nonempty r) as (c & t & He).
  assert (Hlen : (1 <= String.length (Utf8.EncodeRune r))%nat).
  { rewrite He. cbn [String.length]. lia. }
  set (m1 := with_statusMsg ("/" +:+ (searchTerm m +:+ Utf8.EncodeRune r))
               (with_searchTerm (searchTerm m +:+ Utf8.EncodeRune r) m)).
  assert (Hs : stake (Z.to_nat (slen (searchTerm m1) - 1)) (searchTerm m1)
               = searchTerm m +:+
                 stake (String.length (Utf8.EncodeRune r) - 1) (Utf8.EncodeRune r)).
  { subst m1. fields. unfold slen. rewrite length_sapp.
    rewrite <- stake_sapp_more. f_equal. lia. }
  exists m1, (with_statusMsg ("/" +:+ stake (Z.to_nat (slen (searchTerm m1) - 1)) (searchTerm m1))
                (with_searchTerm (stake (Z.to_nat (slen (searchTerm m1) - 1)) (searchTerm m1)) m1)).
  split. { unfold handleSearchMode. by rewrite !decide_False. }
  split; [done|]. split.
  { unfold handleSearchMode.
    rewrite decide_False by discriminate. rewrite decide_False by discriminate.
    rewrite decide_True by done. rewrite decide_True; [done|].
    subst m1. fields. unfold slen. rewrite length_sapp. lia. }
  fields. split; [done|]. split; [done|].
  pose proof (EncodeRune_length r) as Hl. rewrite Hs. split.
  - intros Ha. unfold ascii_rune in Ha. rewrite decide_True in Hl by done.
    rewrite Hl. cbn [Nat.sub stake]. destruct (Utf8.EncodeRune r); by rewrite sapp_nil_r.
  - intros Ha. unfold ascii_rune in Ha. rewrite decide_False in Hl by done.
    rewrite length_sapp.
    pose proof (length_stake_sdrop (String.length (Utf8.EncodeRune r) - 1)
                  (Utf8.EncodeRune r)) as Hsd.
    rewrite length_sdrop in Hsd.
    lia.
Qed.

(** ** Replace-all and the history *)

Lemma replaceLines_map (lines : list (list rune)) (term repl : string) (count : Z) :
  (replaceLines lines term repl count).1.1 =
  map (fun l =>
         if decide (GoStrings.ReplaceAll (Utf8.stringOf l) term repl <> Utf8.stringOf l)
         then Utf8.runes (GoStrings.ReplaceAll (Utf8.stringOf l) term repl)
         else l) lines.
Proof.
  revert count. induction lines as [|l lines IH]; intros count; [done|].
  cbn [replaceLines map]. cbv zeta. case_decide.
  - specialize (IH (GoInt.add count (GoStrings.Count (Utf8.stringOf l) term))).
    destruct (replaceLines lines term repl _) as [[r c] b]. simpl in *. by rewrite IH.
  - specialize (IH count).
    destruct (replaceLines lines term repl _) as [[r c] b]. simpl in *. by rewrite IH.
Qed.

(** Replace-all rewrites each line on its own and keeps the lines that
    do not change; it leaves the cursor where it was, the number of lines
    as it was, and takes no checkpoint: both stacks stay as they are. *)
Theorem replaceAll_line_by_line (m : model) :
  content (replaceAll m) =
    map (fun l =>
           if decide (GoStrings.ReplaceAll (Utf8.stringOf l) (searchTerm m) (replaceTerm m)
                      <> Utf8.stringOf l)
           then Utf8.runes
                  (GoStrings.ReplaceAll (Utf8.stringOf l) (searchTerm m) (replaceTerm m))
           else l) (content m) /\
  len (content (replaceAll m)) = len (content m) /\
  cursorX (replaceAll m) = cursorX m /\ cursorY (replaceAll m) = cursorY m /\
  undoStack (replaceAll m) = undoStack m /\ redoStack (replaceAll m) = redoStack m.
Proof.
  destruct (replaceAll_keeps m) as (Hx & Hy & Hu & Hr).
  destruct (replaceAll_fields m) as (Hc & _).
  split; [by rewrite Hc, replaceLines_map|].
  split; [|done]. rewrite Hc. unfold len. by rewrite replaceLines_length.
Qed.

(** ** Saving and leaving *)

Lemma colon_then_w (w : world) (m : model) :
  mode_ m = normalMode ->
  Update w (key ":") m = Ok (with_statusMsg ":" m, CmdNil) /\
  Update w (key "w") (with_statusMsg ":" m)
  = Ok (saveFile (WriteFile w) (with_statusMsg ":" m), CmdNil).
Proof.
  intros Hm. split.
  - unfold Update, key. by rewrite Hm.
  - unfold Update, key. fields. rewrite Hm.
    change (handleNormalMode w "w" (with_statusMsg ":" m))
      with (Ok (if decide (statusMsg (with_statusMsg ":" m) = ":")
                then saveFile (WriteFile w) (with_statusMsg ":" m)
                else with_statusMsg ":" m, CmdNil)).
    fields. by rewrite decide_True.
Qed.

(** From Normal mode, ":" and then "w" hand the buffer, every line
    followed by a newline, to [os.WriteFile] under the name of the file
    of the session, or under samples/output.txt when the session has
    none; buffer and cursor stay.  What follows depends on the result of
    that write and on nothing else of the world.  When it succeeds the
    buffer counts as saved and "q" quits.  When it fails the status line
    shows the error, the buffer counts as modified if it did before, and
    "q" on a modified buffer does not quit. *)
Theorem save_then_quit (w : world) (m : model) :
  mode_ m = normalMode ->
  exists m1 m2,
    Update w (key ":") m = Ok (m1, CmdNil) /\
    Update w (key "w") m1 = Ok (m2, CmdNil) /\
    document m2 = document m /\
    match WriteFile w
            (if decide (filename m <> "") then filename m else "samples/output.txt")
            (serialize (content m)) with
    | None =>
      modified m2 = false /\ statusMsg m2 = "File saved successfully" /\
      Update w (key "q") m2 = Ok (m2, CmdQuit)
    | Some err =>
      modified m2 = modified m /\ statusMsg m2 = "Error saving file: " +:+ err /\
      (modified m = true ->
       Update w (key "q") m2
       = Ok (with_statusMsg "Unsaved changes. Use :q! to force quit." m2, CmdNil))
    end.
Proof.
  intros Hm. destruct (colon_then_w w m Hm) as [H1 H2].
  exists (with_statusMsg ":" m), (saveFile (WriteFile w) (with_statusMsg ":" m)).
  split; [done|]. split; [done|].
  unfold saveFile. fields.
  destruct (WriteFile w _ _) as [err|]; fields.
  - split; [done|]. split; [done|]. split; [done|]. intros Hmod.
    unfold Update, key. fields. rewrite Hm.
    change (handleNormalMode w "q" ?x)
      with (if modified x
            then Ok (with_statusMsg "Unsaved changes. Use :q! to force quit." x, CmdNil)
            else Ok (x, CmdQuit)).
    fields. by rewrite Hmod.
  - split; [done|]. split; [done|]. split; [done|].
    unfold Update, key. fields. by rewrite Hm.
Qed.

Lemma save_then_quit_witness :
  exists m1 m2,
    Update full_disk (key ":") (after [key "x"] (opened "ab")) = Ok (m1, CmdNil) /\
    Update full_disk (key "w") m1 = Ok (m2, CmdNil) /\
    document m2 = document (after [key "x"] (opened "ab")) /\
    match WriteFile full_disk
            (if decide (filename (after [key "x"] (opened "ab")) <> "")
             then filename (after [key "x"] (opened "ab")) else "samples/output.txt")
            (serialize (content (after [key "x"] (opened "ab")))) with
    | None =>
      modified m2 = false /\ statusMsg m2 = "File saved successfully" /\
      Update full_disk (key "q") m2 = Ok (m2, CmdQuit)
    | Some err =>
      modified m2 = modified (after [key "x"] (opened "ab")) /\
      statusMsg m2 = "Error saving file: " +:+ err /\
      (modified (after [key "x"] (opened "ab")) = true ->
       Update full_disk (key "q") m2
       = Ok (with_statusMsg "Unsaved changes. Use :q! to force quit." m2, CmdNil))
    end.
Proof.
  apply (save_then_quit full_disk (after [key "x"] (opened "ab"))).
  vm_compute. reflexivity.
Defined.

(** ** Runes and bytes *)

(** Turning a line into a string and the string into runes again gives
    the line back, and the string has as many characters as the line,
    when the line holds Unicode scalar values. *)
Theorem utf8_round_trip (l : list rune) :
  Forall valid_rune l ->
  Utf8.runes (Utf8.stringOf l) = l /\
  Utf8.RuneCountInString (Utf8.stringOf l) = len l.
Proof.
  intros H. unfold Utf8.RuneCountInString. by rewrite runes_stringOf.
Qed.

Lemma utf8_round_trip_witness :
  Utf8.runes (Utf8.stringOf [97; 233; 8364; 128512]) = [97; 233; 8364; 128512] /\
  Utf8.RuneCountInString (Utf8.stringOf [97; 233; 8364; 128512])
    = len [97; 233; 8364; 128512].
Proof.
  apply (utf8_round_trip [97; 233; 8364; 128512]).
  repeat constructor; vm_compute; intros H; discriminate H.
Defined.

(** ** Loading a file and saving it again *)

Lemma prefix_single (c a : ascii) (t : string) :
  String.prefix (String c "") (String a t) = Ascii.eqb a c.
Proof.
  cbn [String.prefix]. destruct (ascii_dec c a) as [->|Hne].
  - rewrite Ascii.eqb_refl. by destruct t.
  - symmetry. apply Ascii.eqb_neq. congruence.
Qed.

Lemma indexOf_single_None (c : ascii) (s : string) :
  has_byte c s = false -> GoStrings.indexOf (String c "") s = None.
Proof.
  induction s as [|a s IH]; [done|]. cbn [has_byte]. intros H.
  apply orb_false_elim in H as [Ha Hs].
  cbn [GoStrings.indexOf]. rewrite prefix_single, Ha. by rewrite IH.
Qed.

Lemma indexOf_single_app (c : ascii) (x rest : string) :
  has_byte c x = false ->
  GoStrings.indexOf (String c "") (x +:+ String c rest) = Some (String.length x).
Proof.
  induction x as [|a x IH]; cbn [has_byte]; intros H.
  - change ("" +:+ String c rest) with (String c rest).
    cbn [GoStrings.indexOf]. by rewrite prefix_single, Ascii.eqb_refl.
  - apply orb_false_elim in H as [Ha Hx]. rewrite sapp_cons.
    cbn [GoStrings.indexOf]. rewrite prefix_single, Ha. by rewrite IH.
Qed.

Lemma sdrop_sapp_more (s t : string) (k : nat) :
  sdrop (String.length s + k) (s +:+ t) = sdrop k t.
Proof.
  induction s as [|c s IH]; [done|].
  rewrite sapp_cons. cbn [String.length Nat.add sdrop]. by rewrite IH.
Qed.

Lemma Split_Join (xs : list string) :
  xs <> [] -> Forall (fun x => has_byte (Zbyte 10) x = false) xs ->
  GoStrings.Split (GoStrings.Join xs newline) newline = xs.
Proof.
  intros Hne H. induction H as [|x xs Hx Hxs IH]; [done|]. clear Hne.
  destruct xs as [|y r].
  - cbn [GoStrings.Join]. unfold GoStrings.Split.
    rewrite decide_False by discriminate.
    by rewrite Count_free by by apply indexOf_single_None.
  - rewrite Join_cons by done.
    change (newline +:+ ?t) with (String (Zbyte 10) t).
    rewrite (Split_first newline _ (String.length x));
      [|discriminate|by apply indexOf_single_app].
    rewrite stake_sapp, sdrop_sapp_more. cbn [sdrop String.length newline].
    by rewrite IH.
Qed.

Lemma serialize_Join (ls : list (list rune)) :
  ls <> [] ->
  serialize ls = GoStrings.Join (map Utf8.stringOf ls) newline +:+ newline.
Proof.
  induction ls as [|l ls IH]; [done|]. intros _.
  destruct ls as [|l2 r].
  - cbn [serialize map GoStrings.Join]. by rewrite sapp_nil_r.
  - change (serialize (l :: l2 :: r))
      with (Utf8.stringOf l +:+ newline +:+ serialize (l2 :: r)).
    rewrite IH by done. cbn [map].
    rewrite (Join_cons _ (_ :: _)) by done. by rewrite !sapp_assoc.
Qed.

(** A file of lines of Unicode scalar values, separated by newlines, is
    loaded as these lines.  Saving right away, with ":" and "w", hands
    [os.WriteFile] the name of the file that was read and the text of the
    file followed by one more newline: the status line tells the result
    of that very write. *)
Theorem save_after_load (w : world) (path : string)
    (readFile : string -> option string) (ls : list (list rune)) :
  path <> "" -> ls <> [] ->
  Forall (Forall (fun r => valid_rune r /\ r <> 10)) ls ->
  readFile path = Some (GoStrings.Join (map Utf8.stringOf ls) newline) ->
  content (initialModel path readFile) = ls /\
  exists m1 m2,
    Update w (key ":") (initialModel path readFile) = Ok (m1, CmdNil) /\
    Update w (key "w") m1 = Ok (m2, CmdNil) /\
    content m2 = ls /\
    match WriteFile w path
            (GoStrings.Join (map Utf8.stringOf ls) newline +:+ newline) with
    | None => statusMsg m2 = "File saved successfully" /\ modified m2 = false
    | Some err => statusMsg m2 = "Error saving file: " +:+ err
    end.
Proof.
  intros Hf Hne Hls Hrd.
  assert (Hc : content (initialModel path readFile) = ls).
  { unfold initialModel. cbv zeta. fields.
    rewrite decide_True by done. rewrite Hrd.
    change (String (Zbyte 10) "") with newline.
    rewrite Split_Join.
    - rewrite <- list_fmap_compose.
      rewrite <- (list_fmap_id ls) at 2. apply Forall_fmap_ext_1.
      eapply Forall_impl; [exact Hls|]. intros l Hl. simpl.
      apply runes_stringOf. eapply Forall_impl; [exact Hl|]. by intros r [Hr _].
    - by destruct ls.
    - apply Forall_fmap. eapply Forall_impl; [exact Hls|]. intros l Hl. simpl.
      apply has_byte_stringOf; [by vm_compute|].
      eapply Forall_impl; [exact Hl|]. intros r [_ Hr]. by rewrite byteZ_Zbyte. }
  split; [done|].
  destruct (colon_then_w w (initialModel path readFile) eq_refl) as [H1 H2].
  eexists _, _. split; [exact H1|]. split; [exact H2|].
  unfold saveFile. fields. rewrite Hc.
  change (filename (initialModel path readFile)) with path.
  rewrite decide_True by done. fields.
  rewrite serialize_Join by done.
  destruct (WriteFile w _ _) as [err|]; fields; by rewrite ?Hc.
Qed.

Lemma save_after_load_witness :
  content (initialModel "notes.txt"
             (fun _ => Some (GoStrings.Join (map Utf8.stringOf [[104; 233]; []]) newline)))
    = [[104; 233]; []] /\
  exists m1 m2,
    Update disk (key ":")
      (initialModel "notes.txt"
         (fun _ => Some (GoStrings.Join (map Utf8.stringOf [[104; 233]; []]) newline)))
      = Ok (m1, CmdNil) /\
    Update disk (key "w") m1 = Ok (m2, CmdNil) /\
    content m2 = [[104; 233]; []] /\
    match WriteFile disk "notes.txt"
            (GoStrings.Join (map Utf8.stringOf [[104; 233]; []]) newline +:+ newline) with
    | None => statusMsg m2 = "File saved successfully" /\ modified m2 = false
    | Some err => statusMsg m2 = "Error saving file: " +:+ err
    end.
Proof.
  apply (save_after_load disk "notes.txt"
           (fun _ => Some (GoStrings.Join (map Utf8.stringOf [[104; 233]; []]) newline))
           [[104; 233]; []]).
  - intros H. discriminate H.
  - intros H. discriminate H.
  - repeat constructor; vm_compute; intros H; discriminate H.
  - reflexivity.
Defined.

(** ** Searching backwards *)

Lemma prefix_nil (s : string) : String.prefix "" s = true.
Proof. by destruct s. Qed.

Lemma lastIndexOf_Some (t s : string) (i : nat) :
  GoStrings.lastIndexOf t s = Some i ->
  (i <= String.length s)%nat /\ String.prefix t (sdrop i s) = true.
Proof.
  revert i. induction s as [|c s IH]; intros i H; cbn [GoStrings.lastIndexOf] in H.
  - destruct (String.prefix t "") eqn:E; [|done]. injection H as <-. by split.
  - destruct (GoStrings.lastIndexOf t s) as [j|] eqn:Ej.
    + injection H as <-. destruct (IH j eq_refl) as [Hle Hp].
      cbn [String.length sdrop]. split; [lia|done].
    + destruct (String.prefix t (String c s)) eqn:E; [|done].
      injection H as <-. cbn [String.length sdrop]. split; [lia|done].
Qed.

Lemma prefix_sapp (t s u : string) :
  String.prefix t s = true -> String.prefix t (s +:+ u) = true.
Proof.
  revert s. induction t as [|a t IH]; intros s H; [apply prefix_nil|].
  destruct s as [|b s]; [done|]. rewrite sapp_cons.
  cbn [String.prefix] in *. destruct (ascii_dec a b); [by apply IH|done].
Qed.

Lemma stringOf_app (a b : list rune) :
  Utf8.stringOf (a ++ b) = Utf8.stringOf a +:+ Utf8.stringOf b.
Proof.
  induction a as [|r a IH]; [done|].
  cbn [app Utf8.stringOf]. by rewrite IH, sapp_assoc.
Qed.

Lemma sdrop_sapp_le (s u : string) (i : nat) :
  (i <= String.length s)%nat -> sdrop i (s +:+ u) = sdrop i s +:+ u.
Proof.
  revert i. induction s as [|c s IH]; intros i Hi.
  - cbn [String.length] in Hi. by replace i with 0%nat by lia.
  - destruct i as [|i]; [done|]. rewrite sapp_cons. cbn [sdrop].
    apply IH. cbn [String.length] in Hi. lia.
Qed.

(** The loop of [findPrevious] from a row of the buffer, with a start
    column inside the row, returns. *)
Lemma sliceToCap_within {A} (s rest : list A) (hi : Z) :
  0 <= hi <= len s -> sliceToCap s rest hi = Ok (take (Z.to_nat hi) s).
Proof.
  intros H. pose proof (len_nonneg rest). unfold sliceToCap.
  rewrite decide_True by lia. f_equal. apply take_app_le. unfold len in H. lia.
Qed.

Lemma findPreviousLoop_spec (sp : Z -> list rune) (m : model) (n : nat) (y startX : Z) :
  Forall (fun l => len l <= GoInt.intMax) (content m) ->
  Z.of_nat n = y + 1 -> y < len (content m) -> startX < GoInt.intMax ->
  (forall line, content m !! Z.to_nat y = Some line -> startX < len line) ->
  exists m',
    findPreviousLoop sp n y startX m = Ok m' /\
    (m' = with_statusMsg ("Pattern not found: " +:+ searchTerm m) m \/
     exists y' line k x,
       0 <= y' <= y /\ content m !! Z.to_nat y' = Some line /\
       GoStrings.lastIndexOf (searchTerm m) (Utf8.stringOf (take k line)) = Some x /\
       m' = adjustOffset (with_cursorX (Z.of_nat x) (with_cursorY y' m))).
Proof.
  intros Hmax. revert y startX. induction n as [|n IH]; intros y startX Hn Hy Hb Hs.
  { eexists. split; [reflexivity|]. by left. }
  cbn [findPreviousLoop].
  destruct (index_in_range (content m) y) as (line & Hidx & Hl); [lia|].
  specialize (Hs line Hl). pose proof (len_nonneg line) as Hlen.
  assert (Hlmax : len line <= GoInt.intMax).
  { exact (Forall_lookup_1 _ _ _ _ Hmax Hl). }
  set (sx := if decide (startX < 0) then len line - 1 else startX).
  assert (Hsx : (if decide (startX < 0)
                 then do line <- index (content m) y; Ok (len line - 1)
                 else Ok startX) = Ok sx).
  { subst sx. case_decide; [by rewrite Hidx|done]. }
  rewrite Hsx. cbn [bind]. rewrite Hidx. cbn [bind].
  assert (Hr : 0 <= sx + 1 <= len line) by (subst sx; case_decide; lia).
  rewrite add_id by (unfold GoInt.intMin, GoInt.intMax in *; lia).
  rewrite sliceToCap_within by done. cbn [bind]. cbv zeta.
  unfold GoStrings.LastIndex.
  destruct (GoStrings.lastIndexOf (searchTerm m)
              (Utf8.stringOf (take (Z.to_nat (sx + 1)) line))) as [x|] eqn:E.
  - rewrite decide_True by lia. eexists. split; [reflexivity|]. right.
    exists y, line, (Z.to_nat (sx + 1)), x. split; [lia|]. by split.
  - rewrite decide_False by lia.
    destruct (IH (y - 1) (-1)) as (m' & Hm' & Hcase); [lia|lia|done| |].
    { intros l _. pose proof (len_nonneg l). lia. }
    exists m'. split; [done|].
    destruct Hcase as [->|(y' & l' & k & x & Hy' & Hl' & Hx & ->)]; [by left|].
    right. exists y', l', k, x. split; [lia|]. by split.
Qed.

(** From a cursor that is on a row of the buffer and within it, the
    previous-match key returns: it says that nothing was found and moves
    nothing, or it puts the cursor on the cursor row or a row above it;
    in a buffer of one-byte characters that place is within the line and
    the search term stands there. *)
Theorem findPrevious_finds (sp : Z -> list rune) (m : model) :
  cursor_ok m -> Forall (fun l => len l <= GoInt.intMax) (content m) ->
  exists m',
    findPrevious sp m = Ok m' /\ content m' = content m /\
    (m' = with_statusMsg ("Pattern not found: " +:+ searchTerm m) m \/
     (0 <= cursorY m' <= cursorY m /\
      (ascii_text (content m) ->
       cursor_ok m' /\ occurs_at m (cursorY m') (cursorX m')))).
Proof.
  intros (Hy & line & Hl & Hx) Hmax.
  assert (Hlmax : len line <= GoInt.intMax).
  { exact (Forall_lookup_1 _ _ _ _ Hmax Hl). }
  unfold findPrevious.
  rewrite sub_id by (unfold GoInt.intMin, GoInt.intMax in *; lia).
  destruct (findPreviousLoop_spec sp m (Z.to_nat (cursorY m + 1)) (cursorY m)
              (cursorX m - 1)) as (m' & Hm' & Hcase); [done|lia|lia|lia| |].
  { intros l Hl'. rewrite Hl in Hl'. injection Hl' as <-. lia. }
  exists m'. split; [done|].
  destruct Hcase as [->|(y' & l' & k & x & Hy' & Hl' & Hlast & ->)].
  { split; [done|]. by left. }
  destruct (adjustOffset_keeps (with_cursorX (Z.of_nat x) (with_cursorY y' m)))
    as (Kc & Kx & Ky & _).
  split; [by rewrite Kc|]. right. rewrite Ky, Kx. fields. split; [lia|].
  intros Hascii.
  assert (Hal : Forall ascii_rune l') by (by eapply ascii_row).
  destruct (lastIndexOf_Some _ _ _ Hlast) as [Hle Hp].
  assert (Htake : Forall ascii_rune (take k l')) by (by apply Forall_take).
  rewrite length_stringOf in Hle by done.
  assert (Hxl : Z.of_nat x <= len l').
  { unfold len. rewrite length_take in Hle. lia. }
  split.
  - apply cursor_ok_adjustOffset. unfold cursor_ok. fields.
    split; [apply lookup_lt_Some in Hl'; unfold len; lia|].
    exists l'. split; [done|]. lia.
  - unfold occurs_at. exists l'. split; [lia|]. split; [done|]. split; [lia|].
    rewrite Nat2Z.id. rewrite <- sdrop_stringOf by done.
    rewrite <- (take_drop k l'), stringOf_app.
    rewrite sdrop_sapp_le by (by rewrite length_stringOf).
    by apply prefix_sapp.
Qed.

Lemma findPrevious_finds_witness :
  exists m',
    findPrevious (fun _ => [120; 120])
      (with_searchTerm "ab" (after [key "j"; key "$"] (opened ("xab" +:+ newline +:+ "cd"))))
      = Ok m' /\
    content m'
      = content (with_searchTerm "ab" (after [key "j"; key "$"] (opened ("xab" +:+ newline +:+ "cd")))) /\
    (m' = with_statusMsg
            ("Pattern not found: " +:+
             searchTerm (with_searchTerm "ab" (after [key "j"; key "$"] (opened ("xab" +:+ newline +:+ "cd")))))
            (with_searchTerm "ab" (after [key "j"; key "$"] (opened ("xab" +:+ newline +:+ "cd")))) \/
     (0 <= cursorY m'
        <= cursorY (with_searchTerm "ab" (after [key "j"; key "$"] (opened ("xab" +:+ newline +:+ "cd")))) /\
      (ascii_text (content (with_searchTerm "ab" (after [key "j"; key "$"] (opened ("xab" +:+ newline +:+ "cd"))))) ->
       cursor_ok m' /\
       occurs_at (with_searchTerm "ab" (after [key "j"; key "$"] (opened ("xab" +:+ newline +:+ "cd"))))
         (cursorY m') (cursorX m')))).
Proof.
  apply (findPrevious_finds (fun _ => [120; 120])
           (with_searchTerm "ab" (after [key "j"; key "$"] (opened ("xab" +:+ newline +:+ "cd"))))).
  - split; [vm_compute; split; [intros H; discriminate H|reflexivity]|].
    exists [99; 100]. split; [vm_compute; reflexivity|].
    vm_compute. split; intros H; discriminate H.
  - repeat constructor; vm_compute; intros H; discriminate H.
Defined.

Lemma lastIndexOf_ge (t s : string) (c : nat) :
  (c <= String.length s)%nat -> String.prefix t (sdrop c s) = true ->
  exists x, GoStrings.lastIndexOf t s = Some x /\ (c <= x)%nat.
Proof.
  revert c. induction s as [|a s IH]; intros c Hc Hp.
  - cbn [String.length] in Hc. replace c with 0%nat in * by lia.
    cbn [sdrop] in Hp. cbn [GoStrings.lastIndexOf]. rewrite Hp. by exists 0%nat.
  - cbn [GoStrings.lastIndexOf]. destruct c as [|c].
    + cbn [sdrop] in Hp.
      destruct (GoStrings.lastIndexOf t s) as [i|]; [exists (S i); split; [done|lia]|].
      rewrite Hp. by exists 0%nat.
    + cbn [sdrop String.length] in *.
      destruct (IH c) as (x & -> & Hx); [lia|done|].
      exists (S x). split; [done|lia].
Qed.

(** With the cursor on the first column of a row of one-byte
    characters, the previous-match key searches that whole row first:
    when the term occurs in the row, the cursor goes to its last
    occurrence there, which is at the cursor or to its right and not
    before it. *)
Theorem findPrevious_at_first_column (sp : Z -> list rune) (m : model)
    (line : list rune) (c : Z) :
  0 <= cursorY m -> content m !! Z.to_nat (cursorY m) = Some line ->
  cursorX m = 0 -> len line <= GoInt.intMax -> Forall ascii_rune line ->
  occurs_at m (cursorY m) c ->
  (forall c', occurs_at m (cursorY m) c' -> c' <= c) ->
  findPrevious sp m
  = Ok (adjustOffset (with_cursorX c (with_cursorY (cursorY m) m))).
Proof.
  intros Hy Hl Hx Hmax Hascii (l & _ & Hl' & Hc & Hp) Hlast.
  rewrite Hl in Hl'. injection Hl' as <-.
  destruct (in_buffer m line Hy Hl) as [Hr Hidx].
  pose proof (len_nonneg line) as Hlen.
  rewrite <- sdrop_stringOf in Hp by done.
  destruct (lastIndexOf_ge (searchTerm m) (Utf8.stringOf line) (Z.to_nat c))
    as (x & Hx' & Hcx); [rewrite length_stringOf by done; unfold len in Hc; lia|done|].
  destruct (lastIndexOf_Some _ _ _ Hx') as [Hle Hpx].
  rewrite length_stringOf in Hle by done.
  assert (Hxc : Z.of_nat x <= c).
  { apply Hlast. exists line. split; [done|]. split; [done|].
    split; [unfold len; lia|].
    rewrite Nat2Z.id. by rewrite <- sdrop_stringOf. }
  assert (Heq : c = Z.of_nat x) by lia.
  unfold findPrevious. rewrite Hx.
  change (GoInt.sub 0 1) with (-1).
  replace (Z.to_nat (cursorY m + 1)) with (S (Z.to_nat (cursorY m))) by lia.
  cbn [findPreviousLoop]. rewrite decide_True by lia. rewrite Hidx. cbn [bind].
  rewrite add_id by (unfold GoInt.intMin, GoInt.intMax in *; lia).
  rewrite sliceToCap_within by lia. cbn [bind]. cbv zeta.
  replace (Z.to_nat (len line - 1 + 1)) with (length line) by (unfold len; lia).
  rewrite firstn_all. unfold GoStrings.LastIndex. rewrite Hx'.
  rewrite decide_True by lia. by rewrite Heq.
Qed.

Lemma findPrevious_at_first_column_witness :
  findPrevious (fun _ => []) (with_searchTerm "b" (opened "abcb"))
  = Ok (adjustOffset
          (with_cursorX 3
             (with_cursorY (cursorY (with_searchTerm "b" (opened "abcb")))
                (with_searchTerm "b" (opened "abcb"))))).
Proof.
  apply (findPrevious_at_first_column (fun _ => [])
           (with_searchTerm "b" (opened "abcb")) [97; 98; 99; 98] 3).
  - vm_compute. intros H. discriminate H.
  - vm_compute. reflexivity.
  - vm_compute. reflexivity.
  - vm_compute. intros H. discriminate H.
  - repeat constructor; vm_compute; intros H; discriminate H.
  - exists [97; 98; 99; 98]. split; [vm_compute; intros H; discriminate H|].
    split; [vm_compute; reflexivity|]. split; [|vm_compute; reflexivity].
    vm_compute. split; intros H; discriminate H.
  - intros c' (l & H0 & Hl & Hr & Hp).
    vm_compute in Hl. injection Hl as <-.
    destruct (Z.le_gt_cases c' 3) as [Hle|Hgt]; [exact Hle|].
    exfalso. change (len [97; 98; 99; 98]) with 4 in Hr.
    assert (Hc4 : c' = 4) by lia.
    rewrite Hc4 in Hp. vm_compute in Hp. discriminate Hp.
Defined.

(** ** Deleting a line and pasting it *)

(** The delete-line key on a line that has a line below it, followed by
    the paste key, swaps the two lines and leaves the cursor on the line
    that was deleted, for every line of scalar values that is not
    empty. *)
Theorem delete_then_paste_swaps (w : world)
    (m : model) (line next : list rune) :
  0 <= cursorY m -> cursorY m + 1 < GoInt.intMax ->
  content m !! Z.to_nat (cursorY m) = Some line ->
  content m !! S (Z.to_nat (cursorY m)) = Some next ->
  line <> [] -> Forall valid_rune line ->
  exists m1 m2,
    handleNormalMode w "d" m = Ok (m1, CmdNil) /\
    content m1 = delete (Z.to_nat (cursorY m)) (content m) /\
    clipboard m1 = Utf8.stringOf line /\ cursorY m1 = cursorY m /\
    handleNormalMode w "p" m1 = Ok (m2, CmdNil) /\
    content m2 =
      take (Z.to_nat (cursorY m)) (content m) ++ [next; line] ++
      drop (S (S (Z.to_nat (cursorY m)))) (content m) /\
    cursorY m2 = cursorY m + 1.
Proof.
  intros Hy Hb Hl Hn Hne Hv.
  assert (Hlen : (S (Z.to_nat (cursorY m)) < length (content m))%nat)
    by (by apply lookup_lt_Some in Hn).
  destruct (deleteLine_above_last_row m line) as [Hd Hr];
    [unfold len; lia|lia|done|].
  set (m1 := with_modified true
               (with_content (delete (Z.to_nat (cursorY m)) (content m))
                  (with_clipboard (Utf8.stringOf line) m))) in *.
  destruct (pasteLine_Ok m1) as (m2 & Hp & _ & Hc & _ & Hcy).
  { done. }
  { subst m1. fields. lia. }
  { subst m1. fields. by apply stringOf_nonempty. }
  exists m1, m2.
  split. { change (handleNormalMode w "d" m) with (stay (deleteLine m)).
           unfold stay. by rewrite Hd. }
  split; [done|]. split; [done|]. split; [done|].
  split. { change (handleNormalMode w "p" m1) with (stay (pasteLine m1)).
           unfold stay. by rewrite Hp. }
  split; [|by rewrite Hcy].
  rewrite Hc. subst m1. fields. rewrite runes_stringOf by done.
  set (Y := Z.to_nat (cursorY m)) in *.
  assert (Htk : Y = length (take Y (content m))) by (rewrite length_take; lia).
  rewrite delete_take_drop, (drop_S _ next (S Y)) by done.
  replace (S Y) with (Y + 1)%nat at 1 3 by lia.
  rewrite (take_app_add' _ _ Y 1), (drop_app_add' _ _ Y 1) by done.
  cbn [take drop]. rewrite drop_0. by rewrite <- app_assoc.
Qed.

Lemma delete_then_paste_swaps_witness :
  exists m1 m2,
    handleNormalMode disk "d" (opened ("ab" +:+ newline +:+ "cd")) = Ok (m1, CmdNil) /\
    content m1 = delete (Z.to_nat (cursorY (opened ("ab" +:+ newline +:+ "cd"))))
                   (content (opened ("ab" +:+ newline +:+ "cd"))) /\
    clipboard m1 = Utf8.stringOf [97; 98] /\
    cursorY m1 = cursorY (opened ("ab" +:+ newline +:+ "cd")) /\
    handleNormalMode disk "p" m1 = Ok (m2, CmdNil) /\
    content m2 =
      take (Z.to_nat (cursorY (opened ("ab" +:+ newline +:+ "cd"))))
        (content (opened ("ab" +:+ newline +:+ "cd"))) ++ [[99; 100]; [97; 98]] ++
      drop (S (S (Z.to_nat (cursorY (opened ("ab" +:+ newline +:+ "cd"))))))
        (content (opened ("ab" +:+ newline +:+ "cd"))) /\
    cursorY m2 = cursorY (opened ("ab" +:+ newline +:+ "cd")) + 1.
Proof.
  apply (delete_then_paste_swaps disk (opened ("ab" +:+ newline +:+ "cd"))
           [97; 98] [99; 100]).
  - vm_compute. intros H. discriminate H.
  - vm_compute. reflexivity.
  - vm_compute. reflexivity.
  - vm_compute. reflexivity.
  - intros H. discriminate H.
  - repeat constructor; vm_compute; intros H; discriminate H.
Defined.

(** ** Replace mode *)

Lemma adjustOffset_mode (m : model) :
  mode_ (adjustOffset m) = mode_ m /\ replaceTerm (adjustOffset m) = replaceTerm m.
Proof. unfold adjustOffset. repeat case_decide; done. Qed.

Lemma moveCursor_mode (dx dy : Z) (m m' : model) :
  moveCursor dx dy m = Ok m' ->
  mode_ m' = mode_ m /\ replaceTerm m' = replaceTerm m.
Proof.
  unfold moveCursor. cbv zeta. intros H. step H. injection H as <-.
  destruct (adjustOffset_mode v) as [-> ->].
  case_decide.
  - injection E as <-. fields. repeat case_decide; done.
  - step E. injection E as <-. repeat case_decide; done.
Qed.

Lemma undo_mode (m m' : model) :
  undo m = Ok m' -> mode_ m' = mode_ m /\ replaceTerm m' = replaceTerm m.
Proof.
  intros H. destruct (snoc_cases (undoStack m)) as [Hu|(us & a & Hu)].
  - rewrite undo_empty in H by done. by injection H as <-.
  - rewrite (undo_pop m us a) in H by done. by injection H as <-.
Qed.

Lemma redo_mode (m m' : model) :
  redo m = Ok m' -> mode_ m' = mode_ m /\ replaceTerm m' = replaceTerm m.
Proof.
  intros H. destruct (snoc_cases (redoStack m)) as [Hr|(rs & a & Hr)].
  - rewrite redo_empty in H by done. by injection H as <-.
  - rewrite (redo_pop m rs a) in H by done. by injection H as <-.
Qed.

Lemma findNextLoop_mode (n : nat) (y startX : Z) (m m' : model) :
  findNextLoop n y startX m = Ok m' ->
  mode_ m' = mode_ m /\ replaceTerm m' = replaceTerm m.
Proof.
  revert y startX. induction n as [|n IH]; intros y startX H; simpl in H.
  - by injection H as <-.
  - do 2 step H. case_decide; [|by eapply IH].
    injection H as <-.
    by destruct (adjustOffset_mode (with_cursorX (GoInt.add startX
      (GoStrings.Index (Utf8.stringOf v0) (searchTerm m))) (with_cursorY y m)))
      as [-> ->].
Qed.

Lemma findPreviousLoop_mode (sp : Z -> list rune) (n : nat) (y startX : Z)
    (m m' : model) :
  findPreviousLoop sp n y startX m = Ok m' ->
  mode_ m' = mode_ m /\ replaceTerm m' = replaceTerm m.
Proof.
  revert y startX. induction n as [|n IH]; intros y startX H; simpl in H.
  - by injection H as <-.
  - do 3 step H. case_decide; [|by eapply IH].
    injection H as <-.
    by destruct (adjustOffset_mode (with_cursorX
      (GoStrings.LastIndex (Utf8.stringOf v1) (searchTerm m)) (with_cursorY y m)))
      as [-> ->].
Qed.

Lemma insertRune_mode (r : rune) (m m' : model) :
  insertRune r m = Ok m' -> mode_ m' = mode_ m /\ replaceTerm m' = replaceTerm m.
Proof. unfold insertRune. intros H. do 4 step H. by injection H as <-. Qed.

Lemma times_insertRune_mode (n : nat) (r : rune) (m m' : model) :
  times n (insertRune r) m = Ok m' ->
  mode_ m' = mode_ m /\ replaceTerm m' = replaceTerm m.
Proof.
  revert m. induction n as [|n IH]; simpl; intros m H.
  - by injection H as <-.
  - step H. apply insertRune_mode in E as [<- <-]. by apply IH.
Qed.

Lemma normal_mode_next (w : world)
    (str : string) (m m' : model) (c : cmd) :
  handleNormalMode w str m = Ok (m', c) ->
  (mode_ m' = mode_ m \/ mode_ m' = insertMode \/ mode_ m' = searchMode) /\
  replaceTerm m' = replaceTerm m.
Proof.
  intros H. unfold handleNormalMode, stay in H.
  repeat case_decide.
  all: try (destruct (modified m)).
  all: try (step H).
  all: injection H as <- Hcmd; clear Hcmd.
  all: try (split; [by auto|done]).
  all: try (apply moveCursor_mode in E as [-> ->]; by auto).
  all: try (apply undo_mode in E as [-> ->]; by auto).
  all: try (apply redo_mode in E as [-> ->]; by auto).
  all: try (unfold findNext in E; apply findNextLoop_mode in E as [-> ->]; by auto).
  all: try (unfold findPrevious in E; apply findPreviousLoop_mode in E as [-> ->]; by auto).
  all: try (destruct (adjustOffset_mode (with_cursorY (len (content m) - 1) m))
              as [-> ->]; by auto).
  all: try (unfold saveFile; destruct (WriteFile w _ _); by auto).
  all: try (step E; injection E as <-; by auto).
  all: try (unfold deleteCharUnderCursor in E; step E;
            case_decide; [do 3 step E|]; injection E as <-; by auto).
  all: try (unfold deleteLine in E; case_decide; [do 3 step E|]; injection E as <-;
            [case_decide|]; by auto).
  all: try (unfold yankLine in E; case_decide; [step E|]; injection E as <-; by auto).
  all: unfold pasteLine in E; case_decide; [do 3 step E|]; injection E as <-; by auto.
Qed.

Lemma insert_mode_next (str : string) (rs : list rune) (m m' : model) (c : cmd) :
  handleInsertMode str rs m = Ok (m', c) ->
  (mode_ m' = mode_ m \/ mode_ m' = normalMode) /\ replaceTerm m' = replaceTerm m.
Proof.
  intros H. unfold handleInsertMode in H. step H. injection H as <- _.
  destruct (adjustOffset_mode v) as [-> ->].
  repeat case_decide.
  - injection E as <-. unfold leaveInsert. cbv zeta. case_decide; by auto.
  - unfold splitLine in E. do 6 step E. injection E as <-. by auto.
  - unfold backspace in E.
    case_decide; [do 4 step E|case_decide; [do 5 step E|]]; injection E as <-; by auto.
  - unfold insertTab in E. step E. injection E as <-.
    fields. apply times_insertRune_mode in E0 as [-> ->]. by auto.
  - destruct rs as [|r [|r' rs]]; try (injection E as <-; by auto).
    unfold typeRunes in E. step E. injection E as <-.
    fields. apply insertRune_mode in E0 as [-> ->]. fields. by auto.
Qed.

Lemma search_mode_next (str : string) (rs : list rune) (m m' : model) (c : cmd) :
  handleSearchMode str rs m = Ok (m', c) ->
  (mode_ m' = mode_ m \/ mode_ m' = normalMode) /\ replaceTerm m' = replaceTerm m.
Proof.
  intros H. unfold handleSearchMode in H. repeat case_decide.
  all: try (step H; unfold findNext in E; apply findNextLoop_mode in E as [_ <-]).
  all: try (destruct rs as [|r [|r' rs]]).
  all: injection H as <- _; by auto.
Qed.

Lemma Update_not_replace (w : world)
    (e : msg) (m m' : model) (c : cmd) :
  mode_ m <> replaceMode -> Update w e m = Ok (m', c) ->
  mode_ m' <> replaceMode /\ replaceTerm m' = replaceTerm m.
Proof.
  intros Hm H. destruct e as [str rs|wd ht|]; simpl in H.
  - destruct (mode_ m) eqn:Em; [| | |done].
    + apply normal_mode_next in H as [[->|[->| ->]] ->]; by rewrite ?Em.
    + apply insert_mode_next in H as [[->| ->] ->]; by rewrite ?Em.
    + apply search_mode_next in H as [[->| ->] ->]; by rewrite ?Em.
  - by injection H as <- _.
  - by injection H as <- _.
Qed.

(** No session leads into Replace mode from one of the other modes,
    whatever the writes to the disk give and whatever the backing arrays
    of the rows hold past their lengths, and outside Replace mode the
    replacement text is never changed: in a session, which starts in
    Normal mode with an empty replacement, replace-all is never called. *)
Theorem replace_mode_unreachable (steps : list (world * msg)) (m m' : model) :
  mode_ m <> replaceMode -> session steps m = Ok m' ->
  mode_ m' <> replaceMode /\ replaceTerm m' = replaceTerm m.
Proof.
  revert m. induction steps as [|[w e] steps IH]; intros m Hm H; simpl in H.
  - by injection H as <-.
  - step H. destruct v as [m1 c].
    destruct (Update_not_replace w e m m1 c Hm E) as [Hm1 <-].
    by apply IH.
Qed.

Lemma replace_mode_unreachable_witness :
  mode_ (ended [(disk, key "/"); (disk, char 97); (disk, key "enter"); (roomy, key "N");
                (disk, key "i"); (disk, char 114); (disk, key "esc");
                (full_disk, key ":"); (full_disk, key "w")]
           (opened "banana")) <> replaceMode /\
  replaceTerm (ended [(disk, key "/"); (disk, char 97); (disk, key "enter"); (roomy, key "N");
                      (disk, key "i"); (disk, char 114); (disk, key "esc");
                      (full_disk, key ":"); (full_disk, key "w")]
                 (opened "banana"))
    = replaceTerm (opened "banana").
Proof.
  apply (replace_mode_unreachable
           [(disk, key "/"); (disk, char 97); (disk, key "enter"); (roomy, key "N");
            (disk, key "i"); (disk, char 114); (disk, key "esc");
            (full_disk, key ":"); (full_disk, key "w")]
           (opened "banana")).
  - vm_compute. intros H. discriminate H.
  - vm_compute. reflexivity.
Defined.

(** ** Occurrences in a text put together from parts *)


Lemma prefix_length (t s : string) :
  String.prefix t s = true -> (String.length t <= String.length s)%nat.
Proof.
  revert s. induction t as [|a t IH]; intros s H; [simpl; lia|].
  destruct s as [|b s]; [done|]. cbn [String.prefix] in H.
  destruct (ascii_dec a b); [|done]. apply IH in H. cbn [String.length]. lia.
Qed.




Lemma sdrop_past (s : string) (k : nat) :
  (String.length s <= k)%nat -> sdrop k s = "".
Proof.
  revert k. induction s as [|c s IH]; intros k H; [by destruct k|].
  destruct k as [|k]; [simpl in H; lia|]. cbn [sdrop]. apply IH.
  cbn [String.length] in H. lia.
Qed.









(** ** UTF-8 text under replacement *)

















